(** * dclab: copying .rtdc data ([dclab/rtdc_dataset/copier.py])

    A shallow embedding of [rtdc_copy], [h5ds_copy] and
    [is_properly_compressed], together with the part of the HDF5 store
    (h5py) and of numpy that these three functions call, and the
    properties of the copier stated over that embedding.

    What the embedding covers:
    - an HDF5 file is a root with attributes and named groups; a group
      holds datasets and sub-groups under names, iterated in the order
      of the list that holds them; a root whose [logs], [tables] or
      [events] is a dataset is not in the model;
    - a dataset has a shape, an element type, an optional chunk shape, a
      filter pipeline, a checksum flag, attributes and its elements in
      row-major order; elements are binary64 numbers or text;
    - the destination is a state that the copier changes step by step;
      an exception ends the copy in the state reached;
    - [feature_exists] and [scalar_feature_exists] of
      [dclab.definitions], and the chunk shape that the store chooses by
      itself, are parameters. *)

From Stdlib Require Import ZArith Floats.SpecFloat.
From stdpp Require Import gmap strings list fin_maps.

Open Scope string_scope.
Open Scope nat_scope.
Open Scope list_scope.

(** ** Results and errors

    Python exceptions are values of [error]; a call that raises returns
    [Err e], a call that returns [v] gives [Ok v]. *)

Inductive error : Type :=
| KeyError (name : string)          (* group lookup of a name that is not there *)
| NotADatasetError (name : string)  (* the ValueError raised at line 135 *)
| IndexError                        (* index 0 of an empty tuple *)
| NameExists (name : string)        (* store: the destination name is taken *)
| BadChunkShape                     (* store: chunk shape refused on creation *)
| ScalarDataset                     (* store: filters on a rank-0 dataset *)
| EmptyReduction                    (* numpy: minimum/maximum of no element *)
| TypeError.                        (* numpy: reduction of text *)

Inductive result (A : Type) : Type :=
| Ok (a : A)
| Err (e : error).
Arguments Ok {A} a.
Arguments Err {A} e.

(** ** numpy on binary64

    Array elements are IEEE 754 binary64 values, in the Standard
    Library's specification of the format. *)

Module np.

Definition float64 : Type := spec_float.

Definition prec : Z := 53.
Definition emax : Z := 1024.

Definition of_Z (z : Z) : float64 := binary_normalize prec emax z 0 false.
Definition add (x y : float64) : float64 := SFadd prec emax x y.
Definition true_divide (x y : float64) : float64 := SFdiv prec emax x y.

Definition nan : float64 := S754_nan.
Definition inf : float64 := S754_infinity false.
Definition ninf : float64 := S754_infinity true.
Definition zero : float64 := S754_zero false.

Definition isnan (x : float64) : bool :=
  match x with S754_nan => true | _ => false end.

Definition notnan (x : float64) : bool := negb (isnan x).

(** [np.minimum] and [np.maximum] as the reduction loops apply them:
    [io1 = (io1 <= in2 || isnan(io1)) ? io1 : in2], and [>=] for the
    maximum. *)
Definition minimum (io1 in2 : float64) : float64 :=
  if SFleb io1 in2 || isnan io1 then io1 else in2.

Definition maximum (io1 in2 : float64) : float64 :=
  if SFleb in2 io1 || isnan io1 then io1 else in2.

(** [_replace_nan(a, val)]: the array with every NaN replaced by [val]
    (the mask is [isnan a]). *)
Definition replace_nan (val : float64) (a : list float64) : list float64 :=
  map (fun x => if isnan x then val else x) a.

(** [np.amin], [np.amax]: a reduction without identity; the first element
    starts the accumulator and an empty array raises ValueError. *)
Definition amin (a : list float64) : result float64 :=
  match a with
  | [] => Err EmptyReduction
  | x :: xs => Ok (fold_left minimum xs x)
  end.

Definition amax (a : list float64) : result float64 :=
  match a with
  | [] => Err EmptyReduction
  | x :: xs => Ok (fold_left maximum xs x)
  end.

(** [np.nanmin] on something that is not an [ndarray] (an HDF5 dataset):
    NaN becomes [+inf], the minimum is taken, and an all-NaN array gives
    NaN (with a warning only). *)
Definition nanmin (a : list float64) : result float64 :=
  match amin (replace_nan inf a) with
  | Err e => Err e
  | Ok res => if forallb isnan a then Ok nan else Ok res
  end.

Definition nanmax (a : list float64) : result float64 :=
  match amax (replace_nan ninf a) with
  | Err e => Err e
  | Ok res => if forallb isnan a then Ok nan else Ok res
  end.

(** The sum of the add reduction: blocks of fewer than 8 elements are
    summed left to right, up to 128 elements with eight accumulators,
    and longer arrays are split in two. *)
Fixpoint add_blocks (n : nat) (r a : list float64) : list float64 * list float64 :=
  match n with
  | O => (r, a)
  | S k => add_blocks k (zip_with add r (take 8 a)) (drop 8 a)
  end.

Definition sum8 (r : list float64) : float64 :=
  match r with
  | [r0; r1; r2; r3; r4; r5; r6; r7] =>
      add (add (add r0 r1) (add r2 r3)) (add (add r4 r5) (add r6 r7))
  | _ => zero
  end.

Fixpoint pairwise_sum (fuel : nat) (a : list float64) : float64 :=
  let n := length a in
  if n <? 8 then fold_left add a zero
  else if n <=? 128 then
    let '(r, rest) := add_blocks (n / 8 - 1) (take 8 a) (drop 8 a) in
    fold_left add rest (sum8 r)
  else
    match fuel with
    | O => zero
    | S fuel' =>
        let n2 := (n / 2 - (n / 2) mod 8)%nat in
        add (pairwise_sum fuel' (take n2 a)) (pairwise_sum fuel' (drop n2 a))
    end.

(** [np.sum]: the identity [0] is the start value of the reduction. *)
Definition sum (a : list float64) : float64 :=
  add zero (pairwise_sum (length a) a).

(** [np.nanmean]: NaN becomes [0], the total is divided by the number of
    elements that are not NaN; no element left gives [0/0], NaN. *)
Definition count_nonnan (a : list float64) : nat :=
  length (List.filter notnan a).

Definition nanmean (a : list float64) : result float64 :=
  let tot := sum (replace_nan zero a) in
  let cnt := count_nonnan a in
  Ok (true_divide tot (of_Z (Z.of_nat cnt))).

(** The array [[1.0, NaN, 3.0, Inf]]. *)
Definition one_nan_three_inf : list float64 := [of_Z 1; nan; of_Z 3; inf].

End np.

(** ** A state and error monad

    The destination is mutated in place: a computation takes the state
    and returns the state it leaves behind together with its result.
    When a step raises, the state reached so far is what the caller
    sees and the rest of the computation is not run. *)

Definition M (S A : Type) : Type := S -> S * result A.

Definition ret {S A} (a : A) : M S A := fun s => (s, Ok a).
Definition raise {S A} (e : error) : M S A := fun s => (s, Err e).

Definition bind {S A B} (m : M S A) (k : A -> M S B) : M S B :=
  fun s => match m s with
           | (s', Ok a) => k a s'
           | (s', Err e) => (s', Err e)
           end.

Declare Scope h5_scope.
Delimit Scope h5_scope with h5.
Notation "x <- m ;; k" := (bind m (fun x => k))
  (at level 100, m at next level, right associativity) : h5_scope.
Notation "m ;; k" := (bind m (fun _ => k))
  (at level 100, right associativity) : h5_scope.
Open Scope h5_scope.

(** A pure call that may raise. *)
Definition lift {S A} (r : result A) : M S A := fun s => (s, r).

Definition get {S} : M S S := fun s => (s, Ok s).
Definition modify {S} (f : S -> S) : M S unit := fun s => (f s, Ok tt).

(** [for x in l: body(x)] *)
Fixpoint for_each {S A} (l : list A) (body : A -> M S unit) : M S unit :=
  match l with
  | [] => ret tt
  | x :: l' => body x ;; for_each l' body
  end.

(** [if c: body] *)
Definition when {S} (c : bool) (body : M S unit) : M S unit :=
  if c then body else ret tt.

(** ** The HDF5 store *)

(** Names in a group, in the order in which iteration yields them. *)
Section Assoc.
Context {V : Type}.

Fixpoint assoc (k : string) (l : list (string * V)) : option V :=
  match l with
  | [] => None
  | (k', v) :: l' => if decide (k = k') then Some v else assoc k l'
  end.

Fixpoint assoc_set (k : string) (v : V) (l : list (string * V)) : list (string * V) :=
  match l with
  | [] => [(k, v)]
  | (k', v') :: l' =>
      if decide (k = k') then (k, v) :: l' else (k', v') :: assoc_set k v l'
  end.

Definition contains (k : string) (l : list (string * V)) : bool :=
  match assoc k l with Some _ => true | None => false end.

Definition keys (l : list (string * V)) : list string := map fst l.

End Assoc.

Inductive attr_value : Type :=
| AttrFloat (x : np.float64)
| AttrInt (z : Z)
| AttrText (s : string).

Abbreviation attributes := (gmap string attr_value).

(** Array elements and their type. *)
Inductive elem : Type :=
| Float (x : np.float64)
| Text (s : string).

Inductive h5type : Type := float64_t | string_t.

Definition fillvalue (t : h5type) : elem :=
  match t with float64_t => Float np.zero | string_t => Text "" end.

(** One entry of the filter pipeline of a dataset creation property
    list: [get_filter_by_id] returns [(flags, cd_values, name)]. *)
Record h5filter : Type := mk_filter {
  filter_id : Z;
  filter_flags : Z;
  cd_values : list Z;
  filter_name : string
}.

Record dataset : Type := mk_dataset {
  shape : list nat;
  dtype : h5type;
  chunks : option (list nat);
  filters : list h5filter;
  fletcher32 : bool;
  attrs : attributes;
  data : list elem           (* the elements in row-major order *)
}.

#[warnings="-register-all"]
Inductive h5obj : Type :=
| Dataset (d : dataset)
| Group (g_attrs : attributes) (g_members : list (string * h5obj)).

(** A group whose members are copied: [logs], [tables], [events]. *)
Record h5group : Type := mk_group {
  group_attrs : attributes;
  members : list (string * h5obj)
}.

(** The root of an .rtdc file: attributes and named groups. *)
Record h5file : Type := mk_file {
  file_attrs : attributes;
  groups : list (string * h5group)
}.

Definition set_attrs (a : attributes) (d : dataset) : dataset :=
  mk_dataset (shape d) (dtype d) (chunks d) (filters d) (fletcher32 d) a (data d).

Definition set_data (x : list elem) (d : dataset) : dataset :=
  mk_dataset (shape d) (dtype d) (chunks d) (filters d) (fletcher32 d) (attrs d) x.

Definition set_members (m : list (string * h5obj)) (g : h5group) : h5group :=
  mk_group (group_attrs g) m.

Definition set_groups (gs : list (string * h5group)) (f : h5file) : h5file :=
  mk_file (file_attrs f) gs.

Definition set_file_attrs (a : attributes) (f : h5file) : h5file :=
  mk_file a (groups f).

Definition empty_group : h5group := mk_group ∅ [].

(** *** Group and dataset primitives *)

(** [loc[name]] *)
Definition getitem (loc : h5group) (name : string) : result h5obj :=
  match assoc name (members loc) with
  | Some o => Ok o
  | None => Err (KeyError name)
  end.

(** Run a computation on the dataset behind the handle [loc[name]]: what
    it does to the dataset is seen through the group. *)
Definition on_dataset {A} (name : string) (m : M dataset A) : M h5group A :=
  fun loc =>
    match assoc name (members loc) with
    | Some (Dataset d) =>
        let '(d', r) := m d in
        (set_members (assoc_set name (Dataset d') (members loc)) loc, r)
    | Some (Group _ _) => (loc, Err (NotADatasetError name))
    | None => (loc, Err (KeyError name))
    end.

(** Run a computation on the group [file[name]]. *)
Definition on_group {A} (name : string) (m : M h5group A) : M h5file A :=
  fun file =>
    match assoc name (groups file) with
    | Some g =>
        let '(g', r) := m g in
        (set_groups (assoc_set name g' (groups file)) file, r)
    | None => (file, Err (KeyError name))
    end.

(** [file.require_group(name)]: the group is created when it is not
    there. *)
Definition require_group (name : string) : M h5file unit :=
  fun file =>
    if contains name (groups file) then (file, Ok tt)
    else (set_groups (assoc_set name empty_group (groups file)) file, Ok tt).

(** [h5py.h5o.copy]: the object, with all it carries, under a new name;
    the store refuses a name that is taken. *)
Definition h5o_copy (src_loc : h5group) (src_name dst_name : string) : M h5group unit :=
  fun dst_loc =>
    match assoc src_name (members src_loc) with
    | None => (dst_loc, Err (KeyError src_name))
    | Some o =>
        if contains dst_name (members dst_loc) then (dst_loc, Err (NameExists dst_name))
        else (set_members (assoc_set dst_name o (members dst_loc)) dst_loc, Ok tt)
    end.

Definition prod_shape (s : list nat) : nat := fold_right Nat.mul 1 s.

(** What the store accepts as an explicit chunk shape: the rank of the
    dataset, every extent positive, and none above the extent of the
    dataset (the check of [make_new_dset] that line 95 refers to). *)
Definition valid_chunks (shape chunks : list nat) : bool :=
  (length chunks =? length shape)
  && forallb (fun sc => (0 <? snd sc) && (snd sc <=? fst sc)) (zip shape chunks).

(** [hdf5plugin.Zstd(clevel)]: filter 32015 with the level as its first
    client value. *)
Definition zstd_id : Z := 32015.
Definition Zstd (clevel : Z) : h5filter := mk_filter zstd_id 1 [clevel] "zstd".

(** *** Chunk regions *)

(** The intervals of one axis of extent [s] tiled by [c]. *)
Definition axis_chunks (s c : nat) : list (nat * nat) :=
  map (fun j => (j * c, Nat.min ((j + 1) * c) s)) (seq 0 ((s + c - 1) / c)).

(** [Dataset.iter_chunks()]: one region (an interval per axis) for every
    chunk of the dataset, clipped to its extent. *)
Fixpoint chunk_regions (shape chunks : list nat) : list (list (nat * nat)) :=
  match shape, chunks with
  | [], [] => [[]]
  | s :: shape', c :: chunks' =>
      flat_map (fun iv => map (cons iv) (chunk_regions shape' chunks'))
               (axis_chunks s c)
  | _, _ => []
  end.

Definition iter_chunks (d : dataset) : list (list (nat * nat)) :=
  match chunks d with
  | Some c => chunk_regions (shape d) c
  | None => []
  end.

(** Whether the element at row-major position [i] lies in a region. *)
Fixpoint in_region (shape : list nat) (region : list (nat * nat)) (i : nat) : bool :=
  match shape, region with
  | [], [] => true
  | _ :: shape', (a, b) :: region' =>
      let stride := prod_shape shape' in
      (a <=? i / stride) && (i / stride <? b) && in_region shape' region' (i mod stride)
  | _, _ => false
  end.

(** [dst[chunk] = src[chunk]] on the elements of two arrays of one shape. *)
Definition setitem_region (shape : list nat) (region : list (nat * nat))
    (src dst : list elem) : list elem :=
  imap (fun i y => if in_region shape region i then default y (src !! i) else y) dst.

(** *** Attributes *)

(** [for key in src.attrs: dst.attrs[key] = src.attrs[key]] *)
Definition copy_attrs (src dst : attributes) : attributes :=
  fold_left (fun a kv => <[kv.1 := kv.2]> a) (map_to_list src) dst.


(** [np.asarray(dst)] for a reduction: the elements as numbers. The
    features of dclab are numbers; what numpy makes of an array of text
    is not followed, the reduction is taken to raise. *)
Fixpoint asarray (x : list elem) : result (list np.float64) :=
  match x with
  | [] => Ok []
  | Float v :: x' =>
      match asarray x' with Ok a => Ok (v :: a) | Err e => Err e end
  | Text _ :: _ => Err TypeError
  end.

(** ** The copier *)

(** [features: Literal['all', 'scalar', 'none']] *)
Inductive features_t : Type := all | scalar | none.

Definition features_eqb (a b : features_t) : bool :=
  match a, b with
  | all, all | scalar, scalar | none, none => true
  | _, _ => false
  end.

(** ** Files to run the copier on *)

(** A store that makes one chunk of the whole array when it is left the
    choice. *)
Definition store_chunks (shape : list nat) (dtype : h5type) : list nat := shape.

(** A registry of features: [deform] is scalar, [image] and [trace] are
    not, nothing else is a feature. *)
Definition known_feature (feat : string) (scalar_only : bool) : bool :=
  if decide (feat = "deform") then true
  else if decide (feat = "image") then negb scalar_only
  else if decide (feat = "trace") then negb scalar_only
  else false.

Definition known_scalar_feature (feat : string) : bool := known_feature feat true.

(** [deform]: the array [[1.0, NaN, 3.0, Inf]], stored without chunks,
    filters or attributes. *)
Definition deform_ds : dataset :=
  mk_dataset [4] float64_t None [] false ∅ (map Float np.one_nan_three_inf).

(** Ten numbers stored with Zstandard at level 5 in chunks of 100. *)
Definition deform_zstd_ds : dataset :=
  mk_dataset [10] float64_t (Some [100]) [Zstd 5] false ∅
             (map (fun n => Float (np.of_Z (Z.of_nat n))) (seq 1 10)).

(** The same numbers in chunks of 100 without any filter. *)
Definition deform_plain_ds : dataset :=
  mk_dataset [10] float64_t (Some [100]) [] false ∅
             (map (fun n => Float (np.of_Z (Z.of_nat n))) (seq 1 10)).

(** Two images of 2 by 3 pixels, Zstandard at level 3, chunks of 1 by 2
    by 2, one attribute. *)
Definition image_ds : dataset :=
  mk_dataset [2; 2; 3] float64_t (Some [1; 2; 2]) [Zstd 3] false
             {[ "units" := AttrText "a.u." ]}
             (map (fun n => Float (np.of_Z (Z.of_nat n))) (seq 1 12)).

(** A log of two lines. *)
Definition session_ds : dataset :=
  mk_dataset [2] string_t (Some [1]) [] false ∅ [Text "start"; Text "stop"].

Definition empty_file : h5file := mk_file ∅ [].

(** A measurement with a log, a scalar feature, an image feature and an
    entry of [events] that is no feature. *)
Definition example_logs : h5group :=
  mk_group ∅ [("session", Dataset session_ds)].

Definition example_events : h5group :=
  mk_group ∅ [("deform", Dataset deform_ds);
              ("image", Dataset image_ds);
              ("userdef0", Group ∅ [])].

Definition example_file : h5file :=
  mk_file {[ "setup:channel width" := AttrFloat (np.of_Z 20) ]}
    [("logs", example_logs); ("events", example_events)].

(** A measurement whose [trace] entry is a group of datasets. *)
Definition trace_events : h5group :=
  mk_group ∅ [("deform", Dataset deform_zstd_ds);
              ("trace", Group ∅ [("fl1_raw", Dataset deform_plain_ds)]);
              ("image", Dataset image_ds)].

Definition trace_file : h5file := mk_file ∅ [("events", trace_events)].

(** A measurement stored with Zstandard in chunks larger than it. *)
Definition zstd_events : h5group :=
  mk_group ∅ [("deform", Dataset deform_zstd_ds)].

Definition zstd_file : h5file := mk_file ∅ [("events", zstd_events)].

(** The same measurement stored without a filter. *)
Definition plain_events : h5group :=
  mk_group ∅ [("deform", Dataset deform_plain_ds)].

(** A file of attributes only. *)
Definition attrs_file : h5file :=
  mk_file {[ "setup:channel width" := AttrFloat (np.of_Z 20) ]} [].

Section Copier.

Set Default Proof Using "Type".

(** The chunk shape that the store chooses for a filtered dataset when
    none is given. *)
Variable guess_chunk : list nat -> h5type -> list nat.

(** [loc.create_dataset(name, shape, dtype, chunks, fletcher32,
    **compression)]: a new dataset of fill values. *)
Definition create_dataset (name : string) (shape : list nat) (dtype : h5type)
    (chunks : option (list nat)) (fletcher32 : bool) (compression : h5filter)
  : M h5group unit :=
  fun loc =>
    let new c :=
      mk_dataset shape dtype (Some c) [compression] fletcher32 ∅
                 (replicate (prod_shape shape) (fillvalue dtype)) in
    let add c :=
      if contains name (members loc) then (loc, Err (NameExists name))
      else (set_members (assoc_set name (Dataset (new c)) (members loc)) loc, Ok tt) in
    match shape with
    | [] => (loc, Err ScalarDataset)
    | _ :: _ =>
        match chunks with
        | Some c => if valid_chunks shape c then add c else (loc, Err BadChunkShape)
        | None => add (guess_chunk shape dtype)
        end
    end.


(** The predicates of [dclab.definitions]. *)
Variable feature_exists : string -> bool -> bool.
Variable scalar_feature_exists : string -> bool.

(** [create_plist.get_filter_by_id(filter_id)] *)
Definition get_filter_by_id (fid : Z) (h5obj : dataset) : option (Z * list Z * string) :=
  match List.find (fun f => (filter_id f =? fid)%Z) (filters h5obj) with
  | Some f => Some (filter_flags f, cd_values f, filter_name f)
  | None => None
  end.

(** Lines 140-156. [filter_args[1][0]] raises on an empty tuple of
    client values. *)
Definition is_properly_compressed (h5obj : dataset) : result bool :=
  let filter_args := get_filter_by_id 32015 h5obj in
  match filter_args with
  | Some (_, clevel :: _, _) => Ok (5 <=? clevel)%Z
  | Some (_, [], _) => Err IndexError
  | None => Ok false
  end.

(** Lines 97-110 of [h5ds_copy]: the chunk shape handed to
    [create_dataset]. *)
Definition plan_chunks (shape : list nat) (chunks : option (list nat))
  : result (option (list nat)) :=
  match chunks with
  | Some (c0 :: cs) =>
      match shape with
      | s0 :: _ => if s0 <? c0 then Ok (Some (s0 :: cs)) else Ok chunks
      | [] => Err IndexError
      end
  | _ => Ok chunks
  end.

(** [dst_name or src_name] *)
Definition or_name (dst_name : option string) (src_name : string) : string :=
  match dst_name with
  | Some n => if decide (n = "") then src_name else n
  | None => src_name
  end.

(** Lines 61-137. The state is the group [dst_loc]; the value returned
    is the handle [dst_loc[dst_name]], here the name it resolves. *)
Definition h5ds_copy (src_loc : h5group) (src_name : string)
    (dst_name : option string) (ensure_compression : bool) : M h5group string :=
  let compression_kwargs := Zstd 5 in
  let dst_name := or_name dst_name src_name in
  src <- lift (getitem src_loc src_name) ;;
  match src with
  | Dataset src =>
      recode <- lift (if ensure_compression
                      then match is_properly_compressed src with
                           | Ok b => Ok (negb b)
                           | Err e => Err e
                           end
                      else Ok false) ;;
      (if recode : bool then
         chunks <- lift (plan_chunks (shape src) (chunks src)) ;;
         create_dataset dst_name (shape src) (dtype src) chunks true
                        compression_kwargs ;;
         on_dataset dst_name (modify (fun dst =>
           match chunks with
           | None => set_data (data src) dst
           | Some _ =>
               set_data (fold_left (fun x chunk =>
                                      setitem_region (shape src) chunk (data src) x)
                                   (iter_chunks src) (data dst)) dst
           end)) ;;
         on_dataset dst_name (modify (fun dst =>
           set_attrs (copy_attrs (attrs src) (attrs dst)) dst))
       else
         h5o_copy src_loc src_name dst_name) ;;
      dst_loc <- get ;;
      _ <- lift (getitem dst_loc dst_name) ;;
      ret dst_name
  | Group _ _ => raise (NotADatasetError src_name)
  end.

(** Lines 53-58: [min], [max] and [mean] are complemented on the
    dataset behind the handle [dst]; [complement_one] is one round of
    the loop, [if attr not in dst.attrs: dst.attrs[attr] = ufunc(dst)]. *)
Definition ufuncs : list ((list np.float64 -> result np.float64) * string) :=
  [(np.nanmin, "min"); (np.nanmax, "max"); (np.nanmean, "mean")].

Definition complement_one (ua : (list np.float64 -> result np.float64) * string)
  : M dataset unit :=
  dst <- get ;;
  when (negb (bool_decide (is_Some (attrs dst !! ua.2)))) (
    a <- lift (asarray (data dst)) ;;
    v <- lift (ua.1 a) ;;
    modify (fun dst => set_attrs (<[ua.2 := AttrFloat v]> (attrs dst)) dst)).

Definition complement_stats : M dataset unit :=
  for_each ufuncs complement_one.

(** [src_h5file[name]] *)
Definition getgroup (file : h5file) (name : string) : result h5group :=
  match assoc name (groups file) with
  | Some g => Ok g
  | None => Err (KeyError name)
  end.

(** Lines 14-58. The state is the destination [dst_h5file]. *)
Definition rtdc_copy (src_h5file : h5file) (features : features_t)
    (include_logs include_tables : bool) (meta_prefix : string) : M h5file unit :=
  (* metadata *)
  modify (fun dst_h5file =>
    set_file_attrs (copy_attrs (file_attrs src_h5file) (file_attrs dst_h5file))
                   dst_h5file) ;;
  (* logs *)
  when (include_logs && contains "logs" (groups src_h5file)) (
    require_group "logs" ;;
    src_logs <- lift (getgroup src_h5file "logs") ;;
    for_each (keys (members src_logs)) (fun lkey =>
      _ <- on_group "logs"
             (h5ds_copy src_logs lkey (Some (String.append meta_prefix lkey)) true) ;;
      ret tt)) ;;
  (* tables *)
  when (include_tables && contains "tables" (groups src_h5file)) (
    require_group "tables" ;;
    src_tables <- lift (getgroup src_h5file "tables") ;;
    for_each (keys (members src_tables)) (fun tkey =>
      _ <- on_group "tables"
             (h5ds_copy src_tables tkey (Some (String.append meta_prefix tkey)) true) ;;
      ret tt)) ;;
  (* features *)
  when (negb (features_eqb features none)) (
    let scalar_only := features_eqb features scalar in
    require_group "events" ;;
    src_events <- lift (getgroup src_h5file "events") ;;
    for_each (keys (members src_events)) (fun feat =>
      when (feature_exists feat scalar_only) (
        dst <- on_group "events" (h5ds_copy src_events feat None true) ;;
        when (scalar_feature_exists feat) (
          on_group "events" (on_dataset dst complement_stats))))).


(** ** What a copy leaves behind

    The relation between a source dataset and the dataset that
    [h5ds_copy] leaves at the destination, read off the two branches of
    lines 94-133. *)

(** The branch of lines 128-133 is taken. *)
Definition verbatim (ensure_compression : bool) (src : dataset) : Prop :=
  ensure_compression = false \/ is_properly_compressed src = Ok true.

(** The chunk shape of a dataset created with [chunks]. *)
Definition created_chunks (src : dataset) (planned : option (list nat)) : list nat :=
  match planned with
  | Some c => c
  | None => guess_chunk (shape src) (dtype src)
  end.

(** The branch of lines 95-126 was taken and produced [dst]. *)
Definition recoded (src dst : dataset) : Prop :=
  shape src <> [] /\
  shape dst = shape src /\ dtype dst = dtype src /\
  filters dst = [Zstd 5] /\ fletcher32 dst = true /\
  attrs dst = attrs src /\
  (exists planned, plan_chunks (shape src) (chunks src) = Ok planned /\
     chunks dst = Some (created_chunks src planned) /\
     match planned with
     | Some c => valid_chunks (shape src) c = true
     | None => True
     end) /\
  (length (data src) = prod_shape (shape src) -> data dst = data src).

Definition copied (ensure_compression : bool) (src dst : dataset) : Prop :=
  (verbatim ensure_compression src /\ dst = src) \/
  (ensure_compression = true /\ is_properly_compressed src = Ok false /\
   recoded src dst).

(** ** The blocks of [rtdc_copy]

    The four commented blocks of lines 21-58 and the bodies of their
    loops, under names of their own; [rtdc_copy] is their sequence
    (lemma [rtdc_copy_blocks]). *)

(** Lines 29-32 and 38-41: one entry of [logs] or [tables]. *)
Definition copy_entry (G : string) (src_loc : h5group) (meta_prefix : string)
    (key : string) : M h5file unit :=
  _ <- on_group G
         (h5ds_copy src_loc key (Some (String.append meta_prefix key)) true) ;;
  ret tt.

(** Lines 47-58: one entry of [events]. *)
Definition copy_feature (src_events : h5group) (scalar_only : bool)
    (feat : string) : M h5file unit :=
  when (feature_exists feat scalar_only) (
    dst <- on_group "events" (h5ds_copy src_events feat None true) ;;
    when (scalar_feature_exists feat) (
      on_group "events" (on_dataset dst complement_stats))).

(** Lines 22-23. *)
Definition metadata_block (src_h5file : h5file) : M h5file unit :=
  modify (fun dst_h5file =>
    set_file_attrs (copy_attrs (file_attrs src_h5file) (file_attrs dst_h5file))
                   dst_h5file).

(** Lines 26-32 for [G = "logs"], lines 35-41 for [G = "tables"]. *)
Definition section_block (G : string) (include : bool) (src_h5file : h5file)
    (meta_prefix : string) : M h5file unit :=
  when (include && contains G (groups src_h5file)) (
    require_group G ;;
    src_loc <- lift (getgroup src_h5file G) ;;
    for_each (keys (members src_loc)) (copy_entry G src_loc meta_prefix)).

(** Lines 43-58. *)
Definition features_block (src_h5file : h5file) (features : features_t)
  : M h5file unit :=
  when (negb (features_eqb features none)) (
    let scalar_only := features_eqb features scalar in
    require_group "events" ;;
    src_events <- lift (getgroup src_h5file "events") ;;
    for_each (keys (members src_events)) (copy_feature src_events scalar_only)).

(** ** Reading and comparing files *)

(** [file[G][n]], when both are there. *)
Definition entry (G n : string) (file : h5file) : option h5obj :=
  match assoc G (groups file) with
  | Some g => assoc n (members g)
  | None => None
  end.

(** The file with the members of its group [G] replaced. *)
Definition with_members (G : string) (ms : list (string * h5obj)) (file : h5file)
  : h5file :=
  match assoc G (groups file) with
  | Some g => set_groups (assoc_set G (set_members ms g) (groups file)) file
  | None => file
  end.

(** The source without the entries of [events] that [feature_exists]
    turns down. *)
Definition select_features (scalar_only : bool) (src_h5file : h5file) : h5file :=
  match assoc "events" (groups src_h5file) with
  | Some g =>
      with_members "events"
        (List.filter (fun kv => feature_exists kv.1 scalar_only) (members g))
        src_h5file
  | None => src_h5file
  end.

(** Two states of a file that differ in the group [G] at most. *)
Definition only_group (G : string) (st st' : h5file) : Prop :=
  file_attrs st' = file_attrs st /\
  forall G', G' <> G -> assoc G' (groups st') = assoc G' (groups st).

(** Two states of a file of which the second has, in the group [G], all
    the entries of the first, and new entries under the names [T] at
    most; nothing else differs. *)
Definition extends (G : string) (T : list string) (st st' : h5file) : Prop :=
  only_group G st st' /\
  (is_Some (assoc G (groups st)) -> is_Some (assoc G (groups st'))) /\
  (forall n o, entry G n st = Some o -> entry G n st' = Some o) /\
  (forall n, n ∉ T -> entry G n st' = entry G n st).

(** Two states of a file of which the second has every entry of the
    first, in every group, unchanged. *)
Definition keeps_entries (st st' : h5file) : Prop :=
  forall G n o, entry G n st = Some o -> entry G n st' = Some o.

(** Two states of a file that differ in the groups [logs], [tables] and
    [events] at most. *)
Definition same_elsewhere (st st' : h5file) : Prop :=
  forall G, G <> "logs" -> G <> "tables" -> G <> "events" ->
            assoc G (groups st') = assoc G (groups st).

(** A group as the copier leaves it: one entry per name, and every
    entry a dataset that is properly compressed. *)
Definition well_kept (g : h5group) : Prop :=
  NoDup (keys (members g)) /\
  forall k o, assoc k (members g) = Some o ->
              exists d, o = Dataset d /\ is_properly_compressed d = Ok true.

(** ** Facts about the monad *)

Lemma bind_Ok {S A B} (m : M S A) (k : A -> M S B) s s1 a :
  m s = (s1, Ok a) -> bind m k s = k a s1.
Proof. intros H. unfold bind. by rewrite H. Qed.

Lemma bind_Err {S A B} (m : M S A) (k : A -> M S B) s s1 e :
  m s = (s1, Err e) -> bind m k s = (s1, Err e).
Proof. intros H. unfold bind. by rewrite H. Qed.

Lemma bind_Ok_inv {S A B} (m : M S A) (k : A -> M S B) s s' b :
  bind m k s = (s', Ok b) ->
  exists s1 a, m s = (s1, Ok a) /\ k a s1 = (s', Ok b).
Proof.
  unfold bind. destruct (m s) as [s1 [a|e]]; intros H.
  - by exists s1, a.
  - discriminate H.
Qed.

Lemma when_Ok_inv {S} (c : bool) (body : M S unit) s s' u :
  when c body s = (s', Ok u) ->
  (c = true /\ body s = (s', Ok u)) \/ (c = false /\ s' = s).
Proof.
  destruct c; simpl; intros H; [by left|right].
  unfold ret in H. by inversion H.
Qed.

Lemma for_each_app {S A} (l1 l2 : list A) (body : A -> M S unit) s :
  for_each (l1 ++ l2) body s =
  bind (for_each l1 body) (fun _ => for_each l2 body) s.
Proof.
  revert s. induction l1 as [|x l1 IH]; intros s; simpl; [done|].
  unfold bind in *. destruct (body x s) as [s1 [[]|e]]; [|done].
  apply IH.
Qed.

(** ** Facts about names in a group *)

Section AssocFacts.
Context {V : Type}.
Implicit Types (l : list (string * V)) (k : string) (v : V).

Lemma assoc_set_eq l k v : assoc k (assoc_set k v l) = Some v.
Proof.
  induction l as [|[k' v'] l IH]; simpl.
  - by rewrite decide_True.
  - destruct (decide (k = k')) as [->|Hne]; simpl.
    + by rewrite decide_True.
    + by rewrite decide_False.
Qed.

Lemma assoc_set_ne l k k' v : k <> k' -> assoc k' (assoc_set k v l) = assoc k' l.
Proof.
  intros Hne. induction l as [|[k0 v0] l IH]; simpl.
  - by rewrite decide_False.
  - destruct (decide (k = k0)) as [->|Hne0]; simpl.
    + by rewrite !decide_False.
    + destruct (decide (k' = k0)); [done|apply IH].
Qed.

Lemma assoc_set_lookup l k k' v :
  assoc k' (assoc_set k v l) = if decide (k = k') then Some v else assoc k' l.
Proof.
  destruct (decide (k = k')) as [->|Hne].
  - apply assoc_set_eq.
  - by apply assoc_set_ne.
Qed.

Lemma contains_false l k : contains k l = false <-> assoc k l = None.
Proof. unfold contains. destruct (assoc k l); split; congruence. Qed.

Lemma contains_true l k : contains k l = true <-> is_Some (assoc k l).
Proof.
  unfold contains. destruct (assoc k l); split; try done.
Qed.

Lemma assoc_Some_keys l k v : assoc k l = Some v -> k ∈ keys l.
Proof.
  induction l as [|[k' v'] l IH]; simpl; [done|].
  destruct (decide (k = k')) as [->|Hne]; intros H.
  - apply list_elem_of_here.
  - apply list_elem_of_further. by apply IH.
Qed.

Lemma assoc_None_keys l k : assoc k l = None <-> k ∉ keys l.
Proof.
  induction l as [|[k' v'] l IH]; simpl.
  - split; [intros _|done]. apply not_elem_of_nil.
  - rewrite not_elem_of_cons. destruct (decide (k = k')) as [->|Hne].
    + split; [done|]. intros [? _]. done.
    + rewrite IH. split; [by intros H; split|by intros [_ H]].
Qed.

(** Setting a name that is free appends it. *)
Lemma assoc_set_fresh l k v : assoc k l = None -> assoc_set k v l = l ++ [(k, v)].
Proof.
  induction l as [|[k' v'] l IH]; simpl; [done|].
  destruct (decide (k = k')); [done|]. intros H. by rewrite IH.
Qed.

End AssocFacts.

(** ** Facts about attributes *)

Lemma copy_attrs_lookup (src dst : attributes) (k : string) :
  copy_attrs src dst !! k =
  match src !! k with Some v => Some v | None => dst !! k end.
Proof.
  unfold copy_attrs.
  assert (Hnd : NoDup (map_to_list src).*1) by apply NoDup_fst_map_to_list.
  assert (Hin : forall v, (k, v) ∈ map_to_list src <-> src !! k = Some v)
    by (intros v; apply elem_of_map_to_list).
  revert dst Hnd Hin. generalize (src !! k) as o.
  induction (map_to_list src) as [|[k0 v0] l IH]; intros o dst Hnd Hin.
  - simpl. destruct o as [v|]; [|done].
    exfalso. eapply not_elem_of_nil. by apply Hin.
  - rewrite fmap_cons in Hnd. apply NoDup_cons in Hnd as [Hk0 Hnd].
    cbn [fold_left fst snd]. cbn [fst] in Hk0.
    destruct (decide (k0 = k)) as [->|Hne].
    + assert (o = Some v0) as -> by (apply Hin, list_elem_of_here).
      rewrite (IH None); [by rewrite lookup_insert_eq|done|].
      intros v. split; [|done]. intros Hv. exfalso. apply Hk0.
      apply list_elem_of_fmap. by exists (k, v).
    + rewrite (IH o); [|done|].
      * by rewrite lookup_insert_ne.
      * intros v. rewrite <- Hin. rewrite elem_of_cons. split; [by right|].
        intros [Heq|?]; [|done]. inversion Heq. done.
Qed.

Lemma copy_attrs_empty (src : attributes) : copy_attrs src ∅ = src.
Proof.
  apply map_eq. intros k. rewrite copy_attrs_lookup, lookup_empty.
  by destruct (src !! k).
Qed.

(** ** Facts about chunk regions *)

Lemma axis_chunks_cover (s c x : nat) :
  0 < c -> x < s ->
  exists a b, In (a, b) (axis_chunks s c) /\ a <= x /\ x < b.
Proof.
  intros Hc Hx. exists (x / c * c), (Nat.min ((x / c + 1) * c) s).
  assert (H1 : c * (x / c) <= x) by (apply Nat.Div0.mul_div_le).
  assert (H2 : x < c * S (x / c)) by (apply Nat.mul_succ_div_gt; lia).
  split; [|split; [lia|apply Nat.min_glb_lt; lia]].
  unfold axis_chunks. apply in_map_iff. exists (x / c). split; [done|].
  apply in_seq. split; [lia|]. simpl.
  assert (H3 : S (x / c) <= (s + c - 1) / c); [|lia].
  apply Nat.div_le_lower_bound; lia.
Qed.

Lemma chunk_regions_cover (sh cs : list nat) (i : nat) :
  length cs = length sh -> Forall (fun c => 0 < c) cs -> i < prod_shape sh ->
  exists r, In r (chunk_regions sh cs) /\ in_region sh r i = true.
Proof.
  revert cs i. induction sh as [|s sh IH]; intros [|c cs] i Hlen Hpos Hi;
    simpl in Hlen; try discriminate.
  - exists []. split; [by left|done].
  - simpl in Hi. inversion Hpos as [|? ? Hc Hcs]; subst.
    assert (Hst : 0 < prod_shape sh) by (destruct (prod_shape sh); lia).
    assert (Hx : i / prod_shape sh < s)
      by (apply Nat.Div0.div_lt_upper_bound; lia).
    assert (Hr : i mod prod_shape sh < prod_shape sh)
      by (apply Nat.mod_upper_bound; lia).
    destruct (IH cs (i mod prod_shape sh)) as (r & Hin & Hreg); [lia|done|done|].
    destruct (axis_chunks_cover s c (i / prod_shape sh)) as (a & b & Hab & Ha & Hb);
      [done|done|].
    exists ((a, b) :: r). split.
    + simpl. apply in_flat_map. exists (a, b). split; [done|].
      apply in_map_iff. by exists r.
    + simpl. rewrite Hreg.
      apply Nat.leb_le in Ha. apply Nat.ltb_lt in Hb. by rewrite Ha, Hb.
Qed.

Lemma fold_setitem_region_lookup (sh : list nat) (src : list elem)
    (rs : list (list (nat * nat))) (dst : list elem) (i : nat) :
  fold_left (fun x chunk => setitem_region sh chunk src x) rs dst !! i =
  (fun y => if existsb (fun r => in_region sh r i) rs
            then default y (src !! i) else y) <$> dst !! i.
Proof.
  revert dst. induction rs as [|r rs IH]; intros dst; simpl.
  - by destruct (dst !! i).
  - rewrite IH. unfold setitem_region. rewrite list_lookup_imap.
    destruct (dst !! i) as [y|]; simpl; [|done].
    destruct (in_region sh r i); simpl; [|done].
    destruct (existsb _ rs), (src !! i); done.
Qed.

(** Copying chunk by chunk fills the whole array: every element lies in
    the region of some chunk. *)
Lemma chunked_copy_data (sh cs : list nat) (src : list elem) (fill : elem) :
  length src = prod_shape sh -> length cs = length sh ->
  Forall (fun c => 0 < c) cs ->
  fold_left (fun x chunk => setitem_region sh chunk src x)
            (chunk_regions sh cs) (replicate (prod_shape sh) fill) = src.
Proof.
  intros Hsrc Hlen Hpos. apply list_eq. intros i.
  rewrite fold_setitem_region_lookup.
  destruct (decide (i < prod_shape sh)) as [Hi|Hi].
  - rewrite lookup_replicate_2 by done. simpl.
    destruct (chunk_regions_cover sh cs i) as (r & Hin & Hreg); [done..|].
    assert (He : existsb (fun r => in_region sh r i) (chunk_regions sh cs) = true)
      by (apply existsb_exists; by exists r).
    rewrite He. destruct (lookup_lt_is_Some_2 src i) as [v Hv]; [lia|].
    by rewrite Hv.
  - assert (Hn : replicate (prod_shape sh) fill !! i = None)
      by (apply lookup_replicate_None; lia).
    rewrite Hn. simpl. symmetry. apply lookup_ge_None. lia.
Qed.

(** ** Facts about [h5ds_copy] *)

Lemma assoc_app {V} (l1 l2 : list (string * V)) (k : string) :
  assoc k (l1 ++ l2) =
  match assoc k l1 with Some v => Some v | None => assoc k l2 end.
Proof.
  induction l1 as [|[k' v'] l1 IH]; simpl; [done|].
  by destruct (decide (k = k')).
Qed.

Lemma assoc_set_last {V} (l : list (string * V)) (k : string) (v v' : V) :
  assoc k l = None -> assoc_set k v' (l ++ [(k, v)]) = l ++ [(k, v')].
Proof.
  induction l as [|[k0 v0] l IH]; simpl.
  - by rewrite decide_True.
  - destruct (decide (k = k0)); [done|]. intros H. by rewrite IH.
Qed.

Lemma valid_chunks_spec (sh c : list nat) :
  valid_chunks sh c = true ->
  length c = length sh /\ Forall (fun x => 0 < x) c /\ Forall2 le c sh.
Proof.
  unfold valid_chunks. intros H. apply andb_true_iff in H as [Hlen H].
  apply Nat.eqb_eq in Hlen. split; [done|].
  revert c Hlen H. induction sh as [|s sh IH]; intros [|x c] Hlen H;
    simpl in Hlen; try discriminate.
  - split; constructor.
  - simpl in H. apply andb_true_iff in H as [Hx H].
    apply andb_true_iff in Hx as [H0 Hle].
    apply Nat.ltb_lt in H0. apply Nat.leb_le in Hle.
    destruct (IH c) as [Hp Hb]; [lia|done|].
    split; constructor; done.
Qed.

Lemma plan_chunks_Some (sh : list nat) (ch : option (list nat)) (c : list nat) :
  plan_chunks sh ch = Ok (Some c) -> valid_chunks sh c = true ->
  exists cs, ch = Some cs /\ length cs = length sh /\ Forall (fun x => 0 < x) cs.
Proof.
  intros Hplan Hv. apply valid_chunks_spec in Hv as (Hlen & Hpos & _).
  destruct ch as [[|c0 cs]|]; simpl in Hplan; [| |done].
  - inversion Hplan; subst. by exists [].
  - destruct sh as [|s0 sh]; [done|].
    destruct (s0 <? c0) eqn:Hlt; inversion Hplan; subst; clear Hplan.
    + apply Nat.ltb_lt in Hlt. exists (c0 :: cs). split; [done|].
      split; [done|]. inversion Hpos; subst. constructor; [lia|done].
    + by exists (c0 :: cs).
Qed.

Lemma create_dataset_inv (name : string) (sh : list nat) (t : h5type)
    (ch : option (list nat)) (fl : bool) (comp : h5filter) (loc loc' : h5group) :
  create_dataset name sh t ch fl comp loc = (loc', Ok tt) ->
  assoc name (members loc) = None /\
  sh <> [] /\
  match ch with Some c => valid_chunks sh c = true | None => True end /\
  loc' = set_members
           (members loc ++
            [(name, Dataset (mk_dataset sh t
                 (Some (match ch with Some c => c | None => guess_chunk sh t end))
                 [comp] fl ∅ (replicate (prod_shape sh) (fillvalue t))))]) loc.
Proof.
  unfold create_dataset. destruct sh as [|s sh]; [done|].
  destruct (contains name (members loc)) eqn:Hc.
  - destruct ch as [c|]; [destruct (valid_chunks _ c)|]; done.
  - apply contains_false in Hc.
    destruct ch as [c|]; [destruct (valid_chunks _ c) eqn:Hv; [|done]|];
      intros H; inversion H; subst; clear H;
      rewrite (assoc_set_fresh _ _ _ Hc); done.
Qed.

Lemma on_dataset_modify (name : string) (f : dataset -> dataset)
    (loc : h5group) (d : dataset) :
  assoc name (members loc) = Some (Dataset d) ->
  on_dataset name (modify f) loc =
  (set_members (assoc_set name (Dataset (f d)) (members loc)) loc, Ok tt).
Proof. intros H. unfold on_dataset. by rewrite H. Qed.

Lemma on_dataset_modify_last (name : string) (f : dataset -> dataset)
    (loc : h5group) (l : list (string * h5obj)) (d : dataset) :
  assoc name l = None ->
  on_dataset name (modify f) (set_members (l ++ [(name, Dataset d)]) loc) =
  (set_members (l ++ [(name, Dataset (f d))]) loc, Ok tt).
Proof.
  intros H. rewrite (on_dataset_modify name f _ d).
  - simpl. by rewrite assoc_set_last.
  - simpl. rewrite assoc_app, H. simpl. by rewrite decide_True.
Qed.

Lemma h5ds_copy_inv (src_loc : h5group) (src_name : string) (dst_name : option string)
    (ens : bool) (dst_loc dst_loc' : h5group) (h : string) :
  h5ds_copy src_loc src_name dst_name ens dst_loc = (dst_loc', Ok h) ->
  h = or_name dst_name src_name /\
  exists src dst,
    assoc src_name (members src_loc) = Some (Dataset src) /\
    assoc h (members dst_loc) = None /\
    dst_loc' = set_members (members dst_loc ++ [(h, Dataset dst)]) dst_loc /\
    copied ens src dst.
Proof.
  unfold h5ds_copy. intros H.
  apply bind_Ok_inv in H as (s1 & o & Hget & H).
  unfold lift, getitem in Hget.
  destruct (assoc src_name (members src_loc)) as [o'|] eqn:Hsrc; [|done].
  inversion Hget; subst s1 o'; clear Hget.
  destruct o as [src|]; [|done].
  apply bind_Ok_inv in H as (s1 & recode & Hrec & H).
  unfold lift in Hrec.
  apply bind_Ok_inv in H as (s2 & [] & Hbody & H).
  apply bind_Ok_inv in H as (s3 & dl & Hg & H).
  apply bind_Ok_inv in H as (s4 & o & Hget & H).
  unfold get in Hg. unfold lift in Hget. unfold ret in H.
  inversion Hg; subst; clear Hg. inversion Hget; subst; clear Hget. inversion H; subst; clear H.
  inversion Hrec; subst. clear Hrec. rename s1 into dst_loc.
  split; [done|]. set (n := or_name dst_name src_name) in *.
  exists src. destruct recode.
  - (* lines 95-126 *)
    assert (Hens : ens = true /\ is_properly_compressed src = Ok false).
    { destruct ens; [|done]. destruct (is_properly_compressed src) as [[]|]; done. }
    apply bind_Ok_inv in Hbody as (s1 & planned & Hplan & Hbody).
    unfold lift in Hplan. inversion Hplan as [[Hs Hp]]; subst s1; clear Hplan.
    apply bind_Ok_inv in Hbody as (s1 & [] & Hcreate & Hbody).
    apply create_dataset_inv in Hcreate as (Hfree & Hsh & Hv & ->).
    apply bind_Ok_inv in Hbody as (s2 & [] & Hdata & Hattrs).
    rewrite on_dataset_modify_last in Hdata by done.
    inversion Hdata; subst s2; clear Hdata.
    rewrite on_dataset_modify_last in Hattrs by done.
    inversion Hattrs; subst dst_loc'; clear Hattrs.
    eexists. split; [done|]. split; [done|]. split; [done|].
    right. destruct Hens as [-> Hipc]. split; [done|]. split; [done|].
    unfold recoded.
    destruct planned as [c|]; simpl;
      (split; [done|]; split; [done|]; split; [done|]; split; [done|]; split; [done|];
       split; [apply copy_attrs_empty|]; split; [by eexists|]).
    + intros Hlen.
      destruct (plan_chunks_Some _ _ _ Hp Hv) as (cs & Hcs & Hl & Hpos).
      unfold iter_chunks. rewrite Hcs. by apply chunked_copy_data.
    + done.
  - (* lines 128-133 *)
    unfold h5o_copy in Hbody. rewrite Hsrc in Hbody.
    destruct (contains n (members dst_loc)) eqn:Hc; [done|].
    apply contains_false in Hc. inversion Hbody; subst; clear Hbody.
    exists src. split; [done|]. split; [done|].
    rewrite (assoc_set_fresh _ _ _ Hc). split; [done|].
    left. split; [|done]. unfold verbatim.
    destruct ens; [right|by left].
    destruct (is_properly_compressed src) as [[]|]; done.
Qed.

(** ** The compression policy *)

Lemma get_filter_by_id_filters (fid : Z) (d d' : dataset) :
  filters d' = filters d -> get_filter_by_id fid d' = get_filter_by_id fid d.
Proof. intros H. unfold get_filter_by_id. by rewrite H. Qed.

Lemma get_filter_by_id_None (fid : Z) (d : dataset) :
  (forall f, In f (filters d) -> filter_id f <> fid) ->
  get_filter_by_id fid d = None.
Proof.
  intros H. unfold get_filter_by_id.
  destruct (find _ (filters d)) as [f|] eqn:Hf; [|done].
  apply find_some in Hf as [Hin Heq]. apply Z.eqb_eq in Heq.
  by destruct (H f Hin).
Qed.

(** C4. [is_properly_compressed] answers [true] exactly when the filter
    pipeline of the array holds the Zstandard filter (id 32015) with a
    compression level, its first client value, of at least 5; it answers
    [false] when the pipeline has no Zstandard filter (any other codec,
    or no filter at all) and when the level is below 5; and two arrays
    with the same filter pipeline get the same answer, whatever their
    content. *)
Theorem is_properly_compressed_spec (h5obj : dataset) :
  (is_properly_compressed h5obj = Ok true <->
     exists flags clevel cd name,
       get_filter_by_id zstd_id h5obj = Some (flags, clevel :: cd, name) /\
       (5 <= clevel)%Z) /\
  ((forall f, In f (filters h5obj) -> filter_id f <> zstd_id) ->
     is_properly_compressed h5obj = Ok false) /\
  (filters h5obj = [] -> is_properly_compressed h5obj = Ok false) /\
  (forall flags clevel cd name,
     get_filter_by_id zstd_id h5obj = Some (flags, clevel :: cd, name) ->
     (clevel < 5)%Z -> is_properly_compressed h5obj = Ok false) /\
  (forall other : dataset,
     filters other = filters h5obj ->
     is_properly_compressed other = is_properly_compressed h5obj).
Proof.
  unfold is_properly_compressed. change 32015%Z with zstd_id.
  repeat split.
  - destruct (get_filter_by_id zstd_id h5obj) as [[[flags [|clevel cd]] name]|];
      intros H; try done.
    exists flags, clevel, cd, name. split; [done|].
    inversion H as [Hle]. by apply Z.leb_le.
  - intros (flags & clevel & cd & name & -> & Hle).
    apply Z.leb_le in Hle. by rewrite Hle.
  - intros H. by rewrite (get_filter_by_id_None _ _ H).
  - intros H. rewrite get_filter_by_id_None; [done|].
    rewrite H. intros f [].
  - intros flags clevel cd name -> Hlt.
    apply Z.leb_gt in Hlt. by rewrite Hlt.
  - intros other H. by rewrite (get_filter_by_id_filters _ _ _ H).
Qed.

(** ** The chunk shape *)

(** C6. The chunk shape handed to [create_dataset]: an undefined source
    chunk shape stays undefined; a defined one whose first axis exceeds
    [shape[0]] gets its first axis replaced by [shape[0]], the other
    axes kept; any other defined chunk shape is returned as it is. *)
Theorem plan_chunks_spec (s0 : nat) (ss : list nat) :
  plan_chunks (s0 :: ss) None = Ok None /\
  (forall c0 cs, s0 < c0 ->
     plan_chunks (s0 :: ss) (Some (c0 :: cs)) = Ok (Some (s0 :: cs))) /\
  (forall c0 cs, c0 <= s0 ->
     plan_chunks (s0 :: ss) (Some (c0 :: cs)) = Ok (Some (c0 :: cs))).
Proof.
  split; [done|]. split; intros c0 cs H; simpl.
  - apply Nat.ltb_lt in H. by rewrite H.
  - apply Nat.ltb_ge in H. by rewrite H.
Qed.

(** ** The two branches of [h5ds_copy] *)

Lemma verbatim_not_recoded (ens : bool) (src : dataset) :
  verbatim ens src -> ens = true -> is_properly_compressed src = Ok false -> False.
Proof. intros [->| ->]; done. Qed.

Lemma h5ds_copy_entry (src_loc : h5group) (src_name : string)
    (dst_name : option string) (ens : bool) (dst_loc dst_loc' : h5group) (h : string) :
  h5ds_copy src_loc src_name dst_name ens dst_loc = (dst_loc', Ok h) ->
  exists src dst,
    assoc src_name (members src_loc) = Some (Dataset src) /\
    assoc h (members dst_loc') = Some (Dataset dst) /\
    copied ens src dst.
Proof.
  intros H. apply h5ds_copy_inv in H as (_ & src & dst & Hsrc & Hfree & -> & Hc).
  exists src, dst. split; [done|]. split; [|done].
  simpl. rewrite assoc_app, Hfree. simpl. by rewrite decide_True.
Qed.

(** C5. A call of [h5ds_copy] that returns leaves at the destination,
    when [ensure_compression] is off or the source is properly
    compressed, the source dataset itself, so with its filters, chunk
    shape and checksum flag; otherwise a dataset of the same shape and
    dtype, with the planned chunk shape (the choice of the store when
    none is planned), the Zstandard filter at level 5 alone, the
    checksum flag set, and the attributes of the source. *)
Theorem h5ds_copy_paths (src_loc : h5group) (src_name : string)
    (dst_name : option string) (ensure_compression : bool)
    (dst_loc dst_loc' : h5group) (h : string) :
  h5ds_copy src_loc src_name dst_name ensure_compression dst_loc = (dst_loc', Ok h) ->
  exists src dst,
    assoc src_name (members src_loc) = Some (Dataset src) /\
    h = or_name dst_name src_name /\
    assoc h (members dst_loc') = Some (Dataset dst) /\
    (ensure_compression = false \/ is_properly_compressed src = Ok true ->
       dst = src /\ filters dst = filters src /\ chunks dst = chunks src /\
       fletcher32 dst = fletcher32 src) /\
    (~ (ensure_compression = false \/ is_properly_compressed src = Ok true) ->
       shape dst = shape src /\ dtype dst = dtype src /\
       (exists planned,
          plan_chunks (shape src) (chunks src) = Ok planned /\
          chunks dst = Some (match planned with
                             | Some c => c
                             | None => guess_chunk (shape src) (dtype src)
                             end)) /\
       filters dst = [Zstd 5] /\ fletcher32 dst = true /\
       attrs dst = attrs src).
Proof.
  intros H. pose proof (h5ds_copy_inv _ _ _ _ _ _ _ H) as [Hh _].
  apply h5ds_copy_entry in H as (src & dst & Hsrc & Hdst & Hc).
  exists src, dst. split; [done|]. split; [done|]. split; [done|].
  destruct Hc as [[Hv ->]|(He & Hipc & Hr)].
  - split; [done|]. intros Hn. by destruct Hn.
  - split.
    + intros Hv. destruct (verbatim_not_recoded _ _ Hv He Hipc).
    + intros _.
      destruct Hr as (_ & Hs & Ht & Hf & Hfl & Ha & (planned & Hp & Hch & _) & _).
      repeat (split; [done|]). split; [|done]. by exists planned.
Qed.

(** C2, as the code has it. On the branch that creates the destination dataset
    anew, a defined source chunk shape gives a destination chunk shape
    whose first axis is at most [shape[0]], also when the source chunk
    shape exceeds it, and an undefined one leaves the chunk shape to the
    store; on the branch that copies the dataset as it is, the
    destination has the chunk shape and the shape of the source. *)
Theorem h5ds_copy_chunk_bound (src_loc : h5group) (src_name : string)
    (dst_name : option string) (ensure_compression : bool)
    (dst_loc dst_loc' : h5group) (h : string) :
  h5ds_copy src_loc src_name dst_name ensure_compression dst_loc = (dst_loc', Ok h) ->
  exists src dst,
    assoc src_name (members src_loc) = Some (Dataset src) /\
    assoc h (members dst_loc') = Some (Dataset dst) /\
    (verbatim ensure_compression src ->
       chunks dst = chunks src /\ shape dst = shape src) /\
    (~ verbatim ensure_compression src ->
       (forall cs, chunks src = Some cs ->
          exists c0 cs' s0 ss,
            chunks dst = Some (c0 :: cs') /\ shape dst = s0 :: ss /\ c0 <= s0) /\
       (chunks src = None ->
          chunks dst = Some (guess_chunk (shape src) (dtype src)))).
Proof.
  intros H. apply h5ds_copy_entry in H as (src & dst & Hsrc & Hdst & Hc).
  exists src, dst. split; [done|]. split; [done|].
  destruct Hc as [[Hv ->]|(He & Hipc & Hr)].
  - split; [done|]. intros Hn. by destruct Hn.
  - split; [intros Hv; destruct (verbatim_not_recoded _ _ Hv He Hipc)|].
    intros _.
    destruct Hr as (Hne & Hs & _ & _ & _ & _ & (planned & Hp & Hch & Hv) & _).
    split.
    + intros cs Hcs. rewrite Hcs in Hp.
      destruct planned as [c|].
      2: { destruct cs as [|c0 cs]; [done|]. simpl in Hp.
           destruct (shape src) as [|s0 ss]; [done|].
           by destruct (s0 <? c0). }
      apply valid_chunks_spec in Hv as (Hlen & _ & Hle).
      destruct Hle as [|c0 s0 cs' ss Hle0 Hle]; [done|].
      exists c0, cs', s0, ss. rewrite Hch, Hs. done.
    + intros Hnone. rewrite Hnone in Hp. inversion Hp; subst. done.
Qed.

(** ** Complementing the statistics *)

Lemma complement_one_cases ua (d : dataset) :
  complement_one ua d =
  match attrs d !! ua.2 with
  | Some _ => (d, Ok tt)
  | None =>
      match asarray (data d) with
      | Err e => (d, Err e)
      | Ok a =>
          match ua.1 a with
          | Err e => (d, Err e)
          | Ok v => (set_attrs (<[ua.2 := AttrFloat v]> (attrs d)) d, Ok tt)
          end
      end
  end.
Proof.
  unfold complement_one, bind, get, when, lift, modify, ret.
  destruct (attrs d !! ua.2) as [x|] eqn:Hx.
  - rewrite bool_decide_eq_true_2; [done|]. by exists x.
  - rewrite bool_decide_eq_false_2; [|by intros [? ?]]. simpl.
    destruct (asarray (data d)) as [a|e]; [|done].
    by destruct (ua.1 a).
Qed.

(** A round that returns leaves its attribute present, adds at most
    that attribute, and leaves the elements alone. *)
Lemma complement_one_Ok ua (d d' : dataset) :
  complement_one ua d = (d', Ok tt) ->
  is_Some (attrs d' !! ua.2) /\
  data d' = data d /\ shape d' = shape d /\ dtype d' = dtype d /\
  chunks d' = chunks d /\ filters d' = filters d /\
  fletcher32 d' = fletcher32 d /\
  (forall k, k <> ua.2 -> attrs d' !! k = attrs d !! k) /\
  (forall x, attrs d !! ua.2 = Some x -> attrs d' !! ua.2 = Some x) /\
  (attrs d !! ua.2 = None ->
     exists a v, asarray (data d) = Ok a /\ ua.1 a = Ok v /\
                 attrs d' !! ua.2 = Some (AttrFloat v)).
Proof.
  rewrite complement_one_cases.
  destruct (attrs d !! ua.2) as [x|] eqn:Hx.
  - intros H. inversion H; subst. rewrite Hx. repeat split; try done.
  - destruct (asarray (data d)) as [a|e]; [|done].
    destruct (ua.1 a) as [v|e] eqn:Hv; [|done].
    intros H. inversion H; subst; clear H. simpl.
    rewrite lookup_insert_eq. repeat split; try done.
    + intros k Hk. by rewrite lookup_insert_ne.
    + intros _. by exists a, v.
Qed.

Lemma for_each_complement_present (l : list _) (d : dataset) :
  (forall ua, ua ∈ l -> is_Some (attrs d !! ua.2)) ->
  for_each l complement_one d = (d, Ok tt).
Proof.
  induction l as [|ua l IH]; intros H; simpl; [done|].
  unfold bind. rewrite complement_one_cases.
  destruct (H ua) as [x ->]; [apply list_elem_of_here|].
  apply IH. intros ub Hub. apply H. by apply list_elem_of_further.
Qed.

Lemma for_each_complement_Ok (l : list _) (d d' : dataset) :
  for_each l complement_one d = (d', Ok tt) ->
  (forall ua, ua ∈ l -> is_Some (attrs d' !! ua.2)) /\
  (forall k, is_Some (attrs d !! k) -> attrs d' !! k = attrs d !! k) /\
  data d' = data d.
Proof.
  revert d. induction l as [|ua l IH]; intros d H; simpl in H.
  - inversion H; subst. split; [|done]. intros ua Hua.
    by apply not_elem_of_nil in Hua.
  - apply bind_Ok_inv in H as (d1 & [] & H1 & H).
    apply complement_one_Ok in H1
      as (Hp & Hd & _ & _ & _ & _ & _ & Hne & Hsame & _).
    apply IH in H as (Hall & Hkeep & Hdata).
    assert (Hkeep1 : forall k, is_Some (attrs d !! k) -> attrs d1 !! k = attrs d !! k).
    { intros k [x Hx]. destruct (decide (k = ua.2)) as [->|Hk].
      - rewrite Hx. by apply Hsame.
      - by apply Hne. }
    split; [|split].
    + intros ub Hub. apply elem_of_cons in Hub as [->|Hub]; [|by apply Hall].
      rewrite Hkeep; done.
    + intros k Hk. rewrite Hkeep; [by apply Hkeep1|].
      rewrite Hkeep1; done.
    + congruence.
Qed.

(** The reductions fail on the same arrays, the empty ones, and the mean
    on none. *)
Lemma nanmin_Ok_nanmax (a : list np.float64) v :
  np.nanmin a = Ok v -> exists w, np.nanmax a = Ok w.
Proof.
  unfold np.nanmin, np.nanmax. destruct a as [|x a]; [done|]. simpl.
  intros _. destruct (np.isnan x && forallb np.isnan a); by eexists.
Qed.

Lemma nanmean_Ok (a : list np.float64) : exists w, np.nanmean a = Ok w.
Proof. by eexists. Qed.

Lemma for_each_complement_Err (d d' : dataset) e :
  complement_stats d = (d', Err e) -> d' = d.
Proof.
  unfold complement_stats, ufuncs. cbn [for_each]. unfold bind, ret.
  rewrite (complement_one_cases (np.nanmin, "min")). simpl.
  destruct (attrs d !! "min") as [x|] eqn:Hmin.
  - rewrite (complement_one_cases (np.nanmax, "max")). simpl.
    destruct (attrs d !! "max") as [y|] eqn:Hmax.
    + rewrite (complement_one_cases (np.nanmean, "mean")). simpl.
      destruct (attrs d !! "mean"); [done|].
      destruct (asarray (data d)); [done|]. by intros [= <- _].
    + destruct (asarray (data d)) as [a|] eqn:Ha; [|by intros [= <- _]].
      destruct (np.nanmax a) as [w|]; [|by intros [= <- _]].
      rewrite (complement_one_cases (np.nanmean, "mean")). simpl.
      rewrite Ha. by destruct (_ !! "mean").
  - destruct (asarray (data d)) as [a|] eqn:Ha; [|by intros [= <- _]].
    destruct (np.nanmin a) as [v|] eqn:Hv; [|by intros [= <- _]].
    destruct (nanmin_Ok_nanmax _ _ Hv) as [w Hw].
    rewrite (complement_one_cases (np.nanmax, "max")). simpl.
    rewrite Ha, Hw.
    destruct (_ !! "max").
    + rewrite (complement_one_cases (np.nanmean, "mean")). simpl.
      rewrite Ha. by destruct (_ !! "mean").
    + rewrite (complement_one_cases (np.nanmean, "mean")). simpl.
      rewrite Ha. by destruct (_ !! "mean").
Qed.

(** C8. Complementing the statistics a second time changes nothing:
    after a run that returned, [min], [max] and [mean] are all present
    and the second run attaches none of them; after a run that raised,
    nothing had been attached and the second run raises alike. *)
Theorem complement_stats_idempotent (d d1 : dataset) (r : result unit) :
  complement_stats d = (d1, r) -> complement_stats d1 = (d1, r).
Proof.
  intros H. destruct r as [[]|e].
  - apply for_each_complement_Ok in H as (Hall & _ & _).
    by apply for_each_complement_present.
  - pose proof (for_each_complement_Err _ _ _ H) as ->. done.
Qed.

(** ** Facts about the blocks of [rtdc_copy] *)

Lemma rtdc_copy_blocks (src_h5file : h5file) (features : features_t)
    (include_logs include_tables : bool) (meta_prefix : string) :
  rtdc_copy src_h5file features include_logs include_tables meta_prefix =
  (metadata_block src_h5file ;;
   section_block "logs" include_logs src_h5file meta_prefix ;;
   section_block "tables" include_tables src_h5file meta_prefix ;;
   features_block src_h5file features).
Proof. reflexivity. Qed.

Lemma for_each_preserves {S A} (R : S -> S -> Prop) (l : list A)
    (body : A -> M S unit) :
  (forall s, R s s) -> (forall s1 s2 s3, R s1 s2 -> R s2 s3 -> R s1 s3) ->
  (forall x s1 s2 r, body x s1 = (s2, r) -> R s1 s2) ->
  forall s s' r, for_each l body s = (s', r) -> R s s'.
Proof.
  intros Hrefl Htrans Hbody. induction l as [|x l IH]; intros s s' r H; simpl in H.
  - inversion H; subst. apply Hrefl.
  - unfold bind in H. destruct (body x s) as [s1 [[]|e]] eqn:Hx.
    + eapply Htrans; [by eapply Hbody|by eapply IH].
    + inversion H; subst. by eapply Hbody.
Qed.

Lemma for_each_Ok_inv {S A} (R : S -> S -> Prop) (Q : A -> S -> Prop)
    (l : list A) (body : A -> M S unit) :
  (forall s, R s s) -> (forall s1 s2 s3, R s1 s2 -> R s2 s3 -> R s1 s3) ->
  (forall x s1 s2, Q x s1 -> R s1 s2 -> Q x s2) ->
  (forall x s1 s2, x ∈ l -> body x s1 = (s2, Ok tt) -> R s1 s2 /\ Q x s2) ->
  forall s s', for_each l body s = (s', Ok tt) ->
               R s s' /\ forall x, x ∈ l -> Q x s'.
Proof.
  intros Hrefl Htrans Hstable. induction l as [|x l IH]; intros Hbody s s' H;
    simpl in H.
  - inversion H; subst. split; [apply Hrefl|]. intros x Hx.
    by apply not_elem_of_nil in Hx.
  - apply bind_Ok_inv in H as (s1 & [] & Hx & H).
    destruct (Hbody x s s1) as [HR HQ]; [apply list_elem_of_here|done|].
    destruct (IH (fun y t1 t2 Hy => Hbody y t1 t2 (list_elem_of_further _ _ _ Hy)) s1 s' H)
      as [HR' HQ'].
    split; [by eapply Htrans|].
    intros y Hy. apply elem_of_cons in Hy as [->|Hy]; [|by apply HQ'].
    by eapply Hstable.
Qed.

Lemma only_group_refl (G : string) (st : h5file) : only_group G st st.
Proof. by split. Qed.

Lemma only_group_trans (G : string) (s1 s2 s3 : h5file) :
  only_group G s1 s2 -> only_group G s2 s3 -> only_group G s1 s3.
Proof.
  intros [Ha1 Hg1] [Ha2 Hg2]. split; [congruence|].
  intros G' HG. rewrite Hg2, Hg1; done.
Qed.

Lemma on_group_inv {A} (G : string) (m : M h5group A) (st st' : h5file)
    (r : result A) :
  on_group G m st = (st', r) ->
  (exists g g', assoc G (groups st) = Some g /\ m g = (g', r) /\
                st' = set_groups (assoc_set G g' (groups st)) st) \/
  (assoc G (groups st) = None /\ st' = st /\ r = Err (KeyError G)).
Proof.
  unfold on_group. destruct (assoc G (groups st)) as [g|] eqn:Hg.
  - destruct (m g) as [g' r'] eqn:Hm. intros H. inversion H; subst.
    left. by exists g, g'.
  - intros H. inversion H; subst. by right.
Qed.

Lemma set_groups_only_group (G : string) (g : h5group) (st : h5file) :
  only_group G st (set_groups (assoc_set G g (groups st)) st).
Proof.
  split; [done|]. intros G' HG. simpl. by apply assoc_set_ne.
Qed.

Lemma on_group_only_group {A} (G : string) (m : M h5group A) (st st' : h5file)
    (r : result A) :
  on_group G m st = (st', r) -> only_group G st st'.
Proof.
  intros H. apply on_group_inv in H as [(g & g' & _ & _ & ->)|(_ & -> & _)].
  - apply set_groups_only_group.
  - apply only_group_refl.
Qed.

Lemma require_group_cases (G : string) (st : h5file) :
  exists st', require_group G st = (st', Ok tt) /\
    only_group G st st' /\
    (forall n, entry G n st' = entry G n st) /\
    is_Some (assoc G (groups st')).
Proof.
  unfold require_group. destruct (contains G (groups st)) eqn:Hc.
  - exists st. split; [done|]. split; [apply only_group_refl|].
    split; [done|]. by apply contains_true.
  - eexists. split; [done|]. split; [apply set_groups_only_group|].
    apply contains_false in Hc. split.
    + intros n. unfold entry. simpl. by rewrite assoc_set_eq, Hc.
    + simpl. rewrite assoc_set_eq. by eexists.
Qed.

Lemma extends_refl (G : string) (T : list string) (st : h5file) :
  extends G T st st.
Proof. split; [apply only_group_refl|done]. Qed.

Lemma extends_trans (G : string) (T : list string) (s1 s2 s3 : h5file) :
  extends G T s1 s2 -> extends G T s2 s3 -> extends G T s1 s3.
Proof.
  intros (Ho1 & Hs1 & Hp1 & Hn1) (Ho2 & Hs2 & Hp2 & Hn2).
  split; [by eapply only_group_trans|]. split; [auto|]. split; [auto|].
  intros n Hn. rewrite Hn2, Hn1; done.
Qed.

Lemma extends_mono (G : string) (T T' : list string) (st st' : h5file) :
  (forall n, n ∈ T -> n ∈ T') -> extends G T st st' -> extends G T' st st'.
Proof.
  intros Hsub (Ho & Hs & Hp & Hn). repeat (split; [done|]).
  intros n Hn'. apply Hn. intros HT. by apply Hn', Hsub.
Qed.

Lemma entry_set_groups (G : string) (g : h5group) (st : h5file) (n : string) :
  entry G n (set_groups (assoc_set G g (groups st)) st) = assoc n (members g).
Proof. unfold entry. simpl. by rewrite assoc_set_eq. Qed.

Lemma or_name_append (p k : string) :
  or_name (Some (String.append p k)) k = String.append p k.
Proof.
  unfold or_name. destruct (decide (String.append p k = "")) as [He|]; [|done].
  destruct p; simpl in He; [by subst|discriminate].
Qed.

(** A copy into the group [G] of a file adds one entry, under a name
    that was free. *)
Lemma on_group_h5ds_copy (G : string) (src_loc : h5group) (k : string)
    (dn : option string) (ens : bool) (st st' : h5file) (h : string) :
  on_group G (h5ds_copy src_loc k dn ens) st = (st', Ok h) ->
  h = or_name dn k /\ extends G [h] st st' /\
  exists d d',
    assoc k (members src_loc) = Some (Dataset d) /\
    entry G h st = None /\
    entry G h st' = Some (Dataset d') /\
    copied ens d d'.
Proof.
  intros H. apply on_group_inv in H as [(g & g' & Hg & Hm & ->)|(_ & _ & [=])].
  apply h5ds_copy_inv in Hm as (Hh & d & d' & Hsrc & Hfree & -> & Hc).
  split; [done|].
  assert (He : forall n, entry G n st = assoc n (members g))
    by (intros n; unfold entry; by rewrite Hg).
  split.
  - split; [apply set_groups_only_group|]. split; [|split].
    + intros _. simpl. rewrite assoc_set_eq. by eexists.
    + intros n o Hn. rewrite entry_set_groups. simpl. rewrite assoc_app.
      rewrite He in Hn. by rewrite Hn.
    + intros n Hn. rewrite entry_set_groups, He. simpl. rewrite assoc_app.
      destruct (assoc n (members g)); [done|]. simpl.
      rewrite decide_False; [done|]. intros ->. apply Hn, list_elem_of_here.
  - exists d, d'. split; [done|]. split; [by rewrite He|]. split; [|done].
    rewrite entry_set_groups. simpl. rewrite assoc_app, Hfree. simpl.
    by rewrite decide_True.
Qed.

(** Complementing the statistics after the copy changes the dataset
    behind the handle, and nothing else. *)
Lemma on_group_complement (G h : string) (st st' : h5file) :
  on_group G (on_dataset h complement_stats) st = (st', Ok tt) ->
  only_group G st st' /\
  (is_Some (assoc G (groups st)) -> is_Some (assoc G (groups st'))) /\
  (forall n, n <> h -> entry G n st' = entry G n st) /\
  exists d d',
    entry G h st = Some (Dataset d) /\
    complement_stats d = (d', Ok tt) /\
    entry G h st' = Some (Dataset d').
Proof.
  intros H. apply on_group_inv in H as [(g & g' & Hg & Hm & ->)|(_ & _ & [=])].
  assert (He : forall n, entry G n st = assoc n (members g))
    by (intros n; unfold entry; by rewrite Hg).
  unfold on_dataset in Hm.
  destruct (assoc h (members g)) as [[d|]|] eqn:Hh; [|done..].
  destruct (complement_stats d) as [d' r] eqn:Hd.
  inversion Hm; subst; clear Hm.
  split; [apply set_groups_only_group|]. split; [|split].
  - intros _. simpl. rewrite assoc_set_eq. by eexists.
  - intros n Hn. rewrite entry_set_groups, He. simpl. by apply assoc_set_ne.
  - exists d, d'. split; [by rewrite He|]. split; [done|].
    rewrite entry_set_groups. simpl. by apply assoc_set_eq.
Qed.

(** One entry of [logs] or [tables]. *)
Lemma copy_entry_Ok (G : string) (src_loc : h5group) (p k : string)
    (st st' : h5file) :
  copy_entry G src_loc p k st = (st', Ok tt) ->
  extends G [String.append p k] st st' /\
  exists d d',
    assoc k (members src_loc) = Some (Dataset d) /\
    entry G (String.append p k) st = None /\
    entry G (String.append p k) st' = Some (Dataset d') /\
    copied true d d'.
Proof.
  unfold copy_entry. intros H. apply bind_Ok_inv in H as (s1 & h & H & Hret).
  inversion Hret; subst; clear Hret.
  apply on_group_h5ds_copy in H as (Hh & Hext & Hd).
  rewrite or_name_append in Hh. by subst h.
Qed.

(** One entry of [events]. *)
Lemma copy_feature_Ok (src_events : h5group) (scalar_only : bool) (feat : string)
    (st st' : h5file) :
  copy_feature src_events scalar_only feat st = (st', Ok tt) ->
  extends "events" (if feature_exists feat scalar_only then [feat] else []) st st' /\
  (feature_exists feat scalar_only = true ->
   exists d d' d'',
     assoc feat (members src_events) = Some (Dataset d) /\
     entry "events" feat st = None /\
     copied true d d' /\
     (if scalar_feature_exists feat
      then complement_stats d' = (d'', Ok tt) else d'' = d') /\
     entry "events" feat st' = Some (Dataset d'')).
Proof.
  unfold copy_feature. destruct (feature_exists feat scalar_only); simpl.
  2: { intros H. inversion H; subst. split; [apply extends_refl|done]. }
  intros H. apply bind_Ok_inv in H as (s1 & h & H & Hann).
  apply on_group_h5ds_copy in H as (Hh & Hext & d & d' & Hsrc & Hfree & Hd' & Hc).
  simpl in Hh. subst h.
  destruct (scalar_feature_exists feat); simpl in Hann.
  - apply on_group_complement in Hann as (Ho & Hs & Hn & d1 & d'' & Hd1 & Hcs & Hd'').
    rewrite Hd' in Hd1. inversion Hd1; subst d1; clear Hd1.
    destruct Hext as (Ho1 & Hs1 & Hp1 & Hn1). split.
    + split; [by eapply only_group_trans|]. split; [auto|]. split.
      * intros n o Hno. destruct (decide (n = feat)) as [->|Hne].
        -- congruence.
        -- rewrite Hn by done. by apply Hp1.
      * intros n Hnot. rewrite Hn, Hn1; [done..|].
        intros ->. apply Hnot, list_elem_of_here.
    + intros _. by exists d, d', d''.
  - inversion Hann; subst. split; [done|]. intros _. by exists d, d', d'.
Qed.

(** The block of [logs] or of [tables], when it returns. *)
Lemma section_block_Ok (G : string) (inc : bool) (src : h5file) (p : string)
    (st st' : h5file) :
  section_block G inc src p st = (st', Ok tt) ->
  only_group G st st' /\
  (forall n o, entry G n st = Some o -> entry G n st' = Some o) /\
  (inc = true ->
   forall src_loc k o,
     assoc G (groups src) = Some src_loc ->
     assoc k (members src_loc) = Some o ->
     exists d d', o = Dataset d /\
       entry G (String.append p k) st' = Some (Dataset d') /\
       copied true d d').
Proof.
  unfold section_block. intros H.
  apply when_Ok_inv in H as [[Hc H]|[Hc ->]].
  2: { split; [apply only_group_refl|]. split; [done|].
       intros -> src_loc k o Hg _. simpl in Hc.
       apply contains_false in Hc. congruence. }
  apply andb_true_iff in Hc as [-> Hc].
  apply bind_Ok_inv in H as (s1 & [] & Hreq & H).
  destruct (require_group_cases G st) as (s1' & Hreq' & Ho1 & He1 & Hs1).
  rewrite Hreq' in Hreq. inversion Hreq; subst s1'; clear Hreq Hreq'.
  apply bind_Ok_inv in H as (s2 & src_loc & Hget & H).
  unfold lift, getgroup in Hget.
  destruct (assoc G (groups src)) as [g|] eqn:Hg; [|done].
  inversion Hget; subst s2 g; clear Hget.
  apply (for_each_Ok_inv
           (extends G (map (String.append p) (keys (members src_loc))))
           (fun k s => exists d d',
                assoc k (members src_loc) = Some (Dataset d) /\
                entry G (String.append p k) s = Some (Dataset d') /\
                copied true d d')) in H as [(Ho & _ & Hp & _) HQ].
  - split; [by eapply only_group_trans|]. split.
    + intros n o Hn. apply Hp. by rewrite He1.
    + intros _ src_loc' k o [= <-] Hk.
      destruct (HQ k) as (d & d' & Hd & Hd' & Hcp); [by eapply assoc_Some_keys|].
      exists d, d'. split; [congruence|done].
  - apply extends_refl.
  - apply extends_trans.
  - intros k s s' (d & d' & Hd & Hd' & Hcp) (_ & _ & Hp & _).
    exists d, d'. auto.
  - intros k s s' Hk Hstep. apply copy_entry_Ok in Hstep as [Hext Hd].
    split.
    + eapply extends_mono; [|done]. intros n Hn.
      apply list_elem_of_singleton in Hn as ->.
      apply list_elem_of_fmap. by exists k.
    + destruct Hd as (d & d' & Hd & _ & Hd' & Hcp). by exists d, d'.
Qed.

(** The block of [events], when it returns. *)
Lemma features_block_Ok (src : h5file) (features : features_t) (st st' : h5file) :
  features_block src features st = (st', Ok tt) ->
  only_group "events" st st' /\
  (forall n o, entry "events" n st = Some o -> entry "events" n st' = Some o) /\
  (features = none -> st' = st) /\
  (features <> none ->
   exists src_events,
     assoc "events" (groups src) = Some src_events /\
     forall feat o,
       assoc feat (members src_events) = Some o ->
       (feature_exists feat (features_eqb features scalar) = true ->
        exists d d' d'',
          o = Dataset d /\ copied true d d' /\
          (if scalar_feature_exists feat
           then complement_stats d' = (d'', Ok tt) else d'' = d') /\
          entry "events" feat st' = Some (Dataset d'')) /\
       (feature_exists feat (features_eqb features scalar) = false ->
        entry "events" feat st' = entry "events" feat st)).
Proof.
  unfold features_block. intros H.
  apply when_Ok_inv in H as [[Hc H]|[Hc ->]].
  2: { split; [apply only_group_refl|]. split; [done|]. split; [done|].
       intros Hn. by destruct features. }
  apply bind_Ok_inv in H as (s1 & [] & Hreq & H).
  destruct (require_group_cases "events" st) as (s1' & Hreq' & Ho1 & He1 & Hs1).
  rewrite Hreq' in Hreq. inversion Hreq; subst s1'; clear Hreq Hreq'.
  apply bind_Ok_inv in H as (s2 & src_events & Hget & H).
  unfold lift, getgroup in Hget.
  destruct (assoc "events" (groups src)) as [g|] eqn:Hg; [|done].
  inversion Hget; subst s2 g; clear Hget.
  set (so := features_eqb features scalar) in *.
  apply (for_each_Ok_inv
           (extends "events"
              (List.filter (fun k => feature_exists k so) (keys (members src_events))))
           (fun feat s =>
              feature_exists feat so = true ->
              exists d d' d'',
                assoc feat (members src_events) = Some (Dataset d) /\
                copied true d d' /\
                (if scalar_feature_exists feat
                 then complement_stats d' = (d'', Ok tt) else d'' = d') /\
                entry "events" feat s = Some (Dataset d''))) in H
    as [(Ho & _ & Hp & Hn) HQ].
  - split; [by eapply only_group_trans|]. split.
    { intros n o Hno. apply Hp. by rewrite He1. }
    split; [intros ->; done|].
    intros _. exists src_events. split; [done|]. intros feat o Hfeat. split.
    + intros Hfe.
      destruct (HQ feat) as (d & d' & d'' & Hd & Hcp & Hst & He);
        [by eapply assoc_Some_keys|done|].
      exists d, d', d''. split; [congruence|done].
    + intros Hfe. rewrite Hn, He1; [done|].
      intros Hin. apply list_elem_of_In, filter_In in Hin as [_ Hin]. congruence.
  - apply extends_refl.
  - apply extends_trans.
  - intros k s s' HQ (_ & _ & Hp & _) Hfe.
    destruct (HQ Hfe) as (d & d' & d'' & ? & ? & ? & ?).
    exists d, d', d''. auto.
  - intros k s s' Hk Hstep. apply copy_feature_Ok in Hstep as [Hext Hd].
    split.
    + eapply extends_mono; [|done]. intros n Hn.
      destruct (feature_exists k so) eqn:Hfe; [|by apply not_elem_of_nil in Hn].
      apply list_elem_of_singleton in Hn as ->.
      apply list_elem_of_In, filter_In. split; [by apply list_elem_of_In|done].
    + intros Hfe. destruct (Hd Hfe) as (d & d' & d'' & ? & ? & ? & ? & ?).
      by exists d, d', d''.
Qed.

(** ** The copy as a whole *)

Lemma only_group_entry (G G' n : string) (st st' : h5file) :
  only_group G st st' -> G' <> G -> entry G' n st' = entry G' n st.
Proof. intros [_ H] Hne. unfold entry. by rewrite H. Qed.

Lemma rtdc_copy_Ok_inv (src : h5file) (features : features_t)
    (il it : bool) (p : string) (dst dst' : h5file) :
  rtdc_copy src features il it p dst = (dst', Ok tt) ->
  exists s0 s1 s2,
    metadata_block src dst = (s0, Ok tt) /\
    section_block "logs" il src p s0 = (s1, Ok tt) /\
    section_block "tables" it src p s1 = (s2, Ok tt) /\
    features_block src features s2 = (dst', Ok tt).
Proof.
  rewrite rtdc_copy_blocks. intros H.
  apply bind_Ok_inv in H as (s0 & [] & H0 & H).
  apply bind_Ok_inv in H as (s1 & [] & H1 & H).
  apply bind_Ok_inv in H as (s2 & [] & H2 & H).
  by exists s0, s1, s2.
Qed.

Lemma metadata_block_entry (src st st' : h5file) (r : result unit) :
  metadata_block src st = (st', r) ->
  r = Ok tt /\ groups st' = groups st /\
  file_attrs st' = copy_attrs (file_attrs src) (file_attrs st).
Proof. unfold metadata_block, modify. intros H. by inversion H. Qed.

(** What a copy keeps of the source dataset, on either branch. *)
Lemma copied_content (ens : bool) (d d' : dataset) :
  copied ens d d' ->
  shape d' = shape d /\ dtype d' = dtype d /\ attrs d' = attrs d /\
  (length (data d) = prod_shape (shape d) -> data d' = data d).
Proof.
  intros [[_ ->]|(_ & _ & Hr)]; [done|].
  destruct Hr as (_ & Hs & Ht & _ & _ & Ha & _ & Hd). done.
Qed.

(** C9. After a copy that returns, every entry [key] of the [logs]
    group of the source (when [include_logs] is set), and of its
    [tables] group (when [include_tables] is set), is a dataset and
    the destination holds, in the group of the same name, under the
    name [meta_prefix + key], a dataset of the same shape, dtype and
    attributes and, the source array holding as many elements as its
    shape says, the same elements. *)
Theorem rtdc_copy_prefix (src_h5file : h5file) (features : features_t)
    (include_logs include_tables : bool) (meta_prefix : string)
    (dst_h5file dst' : h5file) :
  rtdc_copy src_h5file features include_logs include_tables meta_prefix dst_h5file
    = (dst', Ok tt) ->
  forall (G : string) (src_loc : h5group) (key : string) (o : h5obj),
    (G = "logs" /\ include_logs = true) \/
    (G = "tables" /\ include_tables = true) ->
    assoc G (groups src_h5file) = Some src_loc ->
    assoc key (members src_loc) = Some o ->
    exists d d',
      o = Dataset d /\
      entry G (String.append meta_prefix key) dst' = Some (Dataset d') /\
      shape d' = shape d /\ dtype d' = dtype d /\ attrs d' = attrs d /\
      (length (data d) = prod_shape (shape d) -> data d' = data d).
Proof.
  intros H G src_loc key o HG Hg Hkey.
  apply rtdc_copy_Ok_inv in H as (s0 & s1 & s2 & _ & Hl & Ht & Hf).
  apply section_block_Ok in Hl as (_ & _ & Hl).
  apply section_block_Ok in Ht as (Hto & Htp & Ht).
  apply features_block_Ok in Hf as (Hfo & _).
  destruct HG as [[-> ->]|[-> ->]].
  - destruct (Hl eq_refl _ _ _ Hg Hkey) as (d & d' & -> & He & Hc).
    exists d, d'. split; [done|]. split; [|by eapply copied_content].
    rewrite (only_group_entry _ _ _ _ _ Hfo) by done.
    by rewrite (only_group_entry _ _ _ _ _ Hto).
  - destruct (Ht eq_refl _ _ _ Hg Hkey) as (d & d' & -> & He & Hc).
    exists d, d'. split; [done|]. split; [|by eapply copied_content].
    by rewrite (only_group_entry _ _ _ _ _ Hfo).
Qed.

(** ** The statistics of scalar features *)

Lemma for_each_complement_values (l : list _) (d d' : dataset) :
  NoDup (l.*2) ->
  for_each l complement_one d = (d', Ok tt) ->
  forall ua, ua ∈ l ->
    (forall x, attrs d !! ua.2 = Some x -> attrs d' !! ua.2 = Some x) /\
    (attrs d !! ua.2 = None ->
     exists a v, asarray (data d) = Ok a /\ ua.1 a = Ok v /\
                 attrs d' !! ua.2 = Some (AttrFloat v)).
Proof.
  revert d. induction l as [|ua l IH]; intros d Hnd H ub Hub.
  { by apply not_elem_of_nil in Hub. }
  rewrite fmap_cons in Hnd. apply NoDup_cons in Hnd as [Hua Hnd].
  simpl in H. apply bind_Ok_inv in H as (d1 & [] & H1 & H).
  apply complement_one_Ok in H1
    as (Hp & Hd & _ & _ & _ & _ & _ & Hne & Hsame & Hnew).
  pose proof (for_each_complement_Ok _ _ _ H) as (_ & Hkeep & _).
  apply elem_of_cons in Hub as [->|Hub].
  - split.
    + intros x Hx. rewrite Hkeep; [by apply Hsame|].
      rewrite (Hsame _ Hx). by eexists.
    + intros Hx. destruct (Hnew Hx) as (a & v & Ha & Hv & Hav).
      exists a, v. split; [done|]. split; [done|].
      rewrite Hkeep; [done|]. rewrite Hav. by eexists.
  - assert (Hk : ub.2 <> ua.2).
    { intros Heq. apply Hua. rewrite <- Heq. apply list_elem_of_fmap. by exists ub. }
    destruct (IH d1 Hnd H ub Hub) as [Hs Hn].
    rewrite (Hne _ Hk) in Hs, Hn. rewrite Hd in Hn. done.
Qed.

Lemma complement_stats_Ok (d d' : dataset) :
  complement_stats d = (d', Ok tt) ->
  data d' = data d /\
  forall ufunc attr, (ufunc, attr) ∈ ufuncs ->
    (forall x, attrs d !! attr = Some x -> attrs d' !! attr = Some x) /\
    (attrs d !! attr = None ->
     exists a v, asarray (data d) = Ok a /\ ufunc a = Ok v /\
                 attrs d' !! attr = Some (AttrFloat v)).
Proof.
  intros H. split; [by apply for_each_complement_Ok in H as (_ & _ & ?)|].
  intros ufunc attr Hin.
  apply (for_each_complement_values ufuncs d d') in Hin; [done| |done].
  unfold ufuncs. simpl.
  apply (bool_decide_unpack _). by vm_compute.
Qed.

(** The recursion of [np.sum] ends before its fuel does: any fuel of
    at least the length of the array gives the same sum. *)
Lemma pairwise_sum_fuel (f1 f2 : nat) (a : list np.float64) :
  length a <= f1 -> length a <= f2 ->
  np.pairwise_sum f1 a = np.pairwise_sum f2 a.
Proof.
  revert f2 a. induction f1 as [|f1 IH]; intros f2 a H1 H2.
  - destruct a; [|simpl in H1; lia]. by destruct f2.
  - destruct f2 as [|f2]; [destruct a; [done|simpl in H2; lia]|].
    cbn [np.pairwise_sum].
    destruct (length a <? 8) eqn:H8; [done|].
    destruct (length a <=? 128) eqn:H128; [done|].
    apply Nat.leb_gt in H128.
    pose proof (Nat.Div0.div_le_upper_bound (length a) 2 (length a)) as Hhalf.
    pose proof (Nat.div_le_lower_bound (length a) 2 64) as Hlow.
    pose proof (Nat.mod_upper_bound (length a / 2) 8) as Hmod.
    pose proof (Nat.Div0.div_lt_upper_bound (length a) 2 (length a)) as Hlt.
    f_equal; apply IH; rewrite ?length_take, ?length_drop; lia.
Qed.

(** The reductions of numpy and NaN. *)

Lemma minimum_inf_r (acc : np.float64) :
  np.isnan acc = false -> np.minimum acc np.inf = acc.
Proof. by destruct acc as [[]|[]| |[] ? ?]. Qed.

Lemma minimum_inf_l (y : np.float64) :
  np.isnan y = false -> np.minimum np.inf y = y.
Proof. by destruct y as [[]|[]| |[] ? ?]. Qed.

Lemma minimum_notnan (acc y : np.float64) :
  np.isnan acc = false -> np.isnan y = false -> np.isnan (np.minimum acc y) = false.
Proof. intros Ha Hy. unfold np.minimum. by destruct (_ || _). Qed.

Lemma maximum_ninf_r (acc : np.float64) :
  np.isnan acc = false -> np.maximum acc np.ninf = acc.
Proof. by destruct acc as [[]|[]| |[] ? ?]. Qed.

Lemma maximum_ninf_l (y : np.float64) :
  np.isnan y = false -> np.maximum np.ninf y = y.
Proof. by destruct y as [[]|[]| |[] ? ?]. Qed.

Lemma maximum_notnan (acc y : np.float64) :
  np.isnan acc = false -> np.isnan y = false -> np.isnan (np.maximum acc y) = false.
Proof. intros Ha Hy. unfold np.maximum. by destruct (_ || _). Qed.

Lemma fold_minimum_replace_nan (xs : list np.float64) (acc : np.float64) :
  np.isnan acc = false ->
  fold_left np.minimum (np.replace_nan np.inf xs) acc =
  fold_left np.minimum (List.filter np.notnan xs) acc.
Proof.
  revert acc. induction xs as [|x xs IH]; intros acc Hacc; simpl; [done|].
  unfold np.notnan at 1. destruct (np.isnan x) eqn:Hx; simpl.
  - rewrite minimum_inf_r by done. by apply IH.
  - apply IH. by apply minimum_notnan.
Qed.

Lemma fold_maximum_replace_nan (xs : list np.float64) (acc : np.float64) :
  np.isnan acc = false ->
  fold_left np.maximum (np.replace_nan np.ninf xs) acc =
  fold_left np.maximum (List.filter np.notnan xs) acc.
Proof.
  revert acc. induction xs as [|x xs IH]; intros acc Hacc; simpl; [done|].
  unfold np.notnan at 1. destruct (np.isnan x) eqn:Hx; simpl.
  - rewrite maximum_ninf_r by done. by apply IH.
  - apply IH. by apply maximum_notnan.
Qed.

Lemma amin_replace_nan (a : list np.float64) :
  existsb np.notnan a = true ->
  np.amin (np.replace_nan np.inf a) = np.amin (List.filter np.notnan a).
Proof.
  induction a as [|x a IH]; [done|]. simpl.
  unfold np.notnan at 1 3. destruct (np.isnan x) eqn:Hx; simpl.
  - intros Ha. specialize (IH Ha). destruct a as [|y a]; [done|].
    simpl in *. unfold np.notnan at 1 in IH. unfold np.notnan at 1.
    destruct (np.isnan y) eqn:Hy; simpl in *.
    + rewrite minimum_inf_r by done.
      destruct (List.filter np.notnan a); [done|]. by inversion IH.
    + rewrite minimum_inf_l by done. by inversion IH.
  - intros _. f_equal. by apply fold_minimum_replace_nan.
Qed.

Lemma amax_replace_nan (a : list np.float64) :
  existsb np.notnan a = true ->
  np.amax (np.replace_nan np.ninf a) = np.amax (List.filter np.notnan a).
Proof.
  induction a as [|x a IH]; [done|]. simpl.
  unfold np.notnan at 1 3. destruct (np.isnan x) eqn:Hx; simpl.
  - intros Ha. specialize (IH Ha). destruct a as [|y a]; [done|].
    simpl in *. unfold np.notnan at 1 in IH. unfold np.notnan at 1.
    destruct (np.isnan y) eqn:Hy; simpl in *.
    + rewrite maximum_ninf_r by done.
      destruct (List.filter np.notnan a); [done|]. by inversion IH.
    + rewrite maximum_ninf_l by done. by inversion IH.
  - intros _. f_equal. by apply fold_maximum_replace_nan.
Qed.

Lemma existsb_notnan (a : list np.float64) :
  existsb np.notnan a = true ->
  forallb np.isnan a = false /\ List.filter np.notnan a <> [].
Proof.
  induction a as [|x a IH]; [done|]. simpl. unfold np.notnan at 1 3.
  destruct (np.isnan x); simpl; [|done]. intros H. by apply IH.
Qed.

(** [np.nanmin] and [np.nanmax] of an array that has an element other
    than NaN are the minimum and the maximum of its elements other than
    NaN. *)
Lemma nanmin_notnan (a : list np.float64) :
  existsb np.notnan a = true ->
  np.nanmin a = np.amin (List.filter np.notnan a).
Proof.
  intros H. unfold np.nanmin. rewrite amin_replace_nan by done.
  destruct (existsb_notnan a H) as [-> Hne].
  by destruct (List.filter np.notnan a).
Qed.

Lemma nanmax_notnan (a : list np.float64) :
  existsb np.notnan a = true ->
  np.nanmax a = np.amax (List.filter np.notnan a).
Proof.
  intros H. unfold np.nanmax. rewrite amax_replace_nan by done.
  destruct (existsb_notnan a H) as [-> Hne].
  by destruct (List.filter np.notnan a).
Qed.

(** C1, as the code has it. After a copy that returns, the destination dataset
    of every copied scalar feature keeps each of [min], [max], [mean]
    that the source dataset had and carries, for each that the source
    lacked, the value of [np.nanmin], [np.nanmax], [np.nanmean] on its
    elements. These reductions leave NaN elements out: the minimum and
    the maximum are those of the elements other than NaN, the mean is
    the sum with NaN counted as zero over the number of elements other
    than NaN. Infinite elements are elements like any other: for
    [[1.0, NaN, 3.0, Inf]] the values are [min = 1.0], [max = Inf],
    [mean = Inf]. *)
Theorem rtdc_copy_stats :
  (forall (src_h5file : h5file) (features : features_t)
          (include_logs include_tables : bool) (meta_prefix : string)
          (dst_h5file dst' : h5file) (src_events : h5group) (feat : string)
          (d : dataset),
     rtdc_copy src_h5file features include_logs include_tables meta_prefix
               dst_h5file = (dst', Ok tt) ->
     features <> none ->
     assoc "events" (groups src_h5file) = Some src_events ->
     assoc feat (members src_events) = Some (Dataset d) ->
     feature_exists feat (features_eqb features scalar) = true ->
     scalar_feature_exists feat = true ->
     exists dst : dataset,
       entry "events" feat dst' = Some (Dataset dst) /\
       (length (data d) = prod_shape (shape d) -> data dst = data d) /\
       forall ufunc attr, (ufunc, attr) ∈ ufuncs ->
         (forall x, attrs d !! attr = Some x -> attrs dst !! attr = Some x) /\
         (attrs d !! attr = None ->
          exists a v, asarray (data dst) = Ok a /\ ufunc a = Ok v /\
                      attrs dst !! attr = Some (AttrFloat v))) /\
  (forall a : list np.float64,
     existsb np.notnan a = true ->
     np.nanmin a = np.amin (List.filter np.notnan a) /\
     np.nanmax a = np.amax (List.filter np.notnan a)) /\
  (forall a : list np.float64,
     np.nanmean a =
     Ok (np.true_divide (np.sum (np.replace_nan np.zero a))
                        (np.of_Z (Z.of_nat (length (List.filter np.notnan a)))))) /\
  (np.nanmin np.one_nan_three_inf = Ok (np.of_Z 1) /\
   np.nanmax np.one_nan_three_inf = Ok np.inf /\
   np.nanmean np.one_nan_three_inf = Ok np.inf).
Proof.
  split; [|split; [|split]].
  - intros src features il it p dst dst' src_events feat d H Hf Hg Hfeat Hfe Hsfe.
    apply rtdc_copy_Ok_inv in H as (s0 & s1 & s2 & _ & _ & _ & H).
    apply features_block_Ok in H as (_ & _ & _ & H).
    destruct (H Hf) as (g & Hg' & Hall). rewrite Hg in Hg'.
    inversion Hg'; subst g; clear Hg'.
    destruct (Hall _ _ Hfeat) as [Hcopy _].
    destruct (Hcopy Hfe) as (d0 & d' & d'' & Hd0 & Hc & Hst & He).
    inversion Hd0; subst d0; clear Hd0. rewrite Hsfe in Hst.
    apply copied_content in Hc as (_ & _ & Ha & Hd).
    apply complement_stats_Ok in Hst as [Hdata Hvals].
    exists d''. split; [done|]. split; [rewrite Hdata; done|].
    intros ufunc attr Hin. rewrite <- Ha, Hdata. by apply Hvals.
  - intros a Ha. split; [by apply nanmin_notnan|by apply nanmax_notnan].
  - done.
  - by vm_compute.
Qed.

(** ** The selection of features *)

Lemma for_each_ext {S A} (l : list A) (b1 b2 : A -> M S unit) :
  (forall x, x ∈ l -> forall s, b1 x s = b2 x s) ->
  forall s, for_each l b1 s = for_each l b2 s.
Proof.
  induction l as [|x l IH]; intros H s; simpl; [done|].
  unfold bind. rewrite (H x) by apply list_elem_of_here.
  destruct (b2 x s) as [s1 [[]|e]]; [|done].
  apply IH. intros y Hy. apply H. by apply list_elem_of_further.
Qed.

Lemma bind_ext_r {S A B} (m : M S A) (k1 k2 : A -> M S B) (s : S) :
  (forall a s', k1 a s' = k2 a s') -> bind m k1 s = bind m k2 s.
Proof. intros H. unfold bind. destruct (m s) as [s' [a|e]]; [apply H|done]. Qed.

(** [h5ds_copy] reads its source group at the one name only. *)
Lemma h5ds_copy_ext (g g' : h5group) (k : string) (dn : option string) (ens : bool) :
  assoc k (members g) = assoc k (members g') ->
  h5ds_copy g k dn ens = h5ds_copy g' k dn ens.
Proof.
  intros H. unfold h5ds_copy, h5o_copy, getitem. by rewrite H.
Qed.

Lemma copy_feature_ext (g g' : h5group) (so : bool) (k : string) :
  assoc k (members g) = assoc k (members g') ->
  copy_feature g so k = copy_feature g' so k.
Proof.
  intros H. unfold copy_feature. by rewrite (h5ds_copy_ext g g' k None true H).
Qed.

Lemma copy_entry_ext (G : string) (g g' : h5group) (p k : string) :
  assoc k (members g) = assoc k (members g') ->
  copy_entry G g p k = copy_entry G g' p k.
Proof.
  intros H. unfold copy_entry.
  by rewrite (h5ds_copy_ext g g' k _ true H).
Qed.

Lemma assoc_filter_key {V} (P : string -> bool) (l : list (string * V)) (k : string) :
  P k = true -> assoc k (List.filter (fun kv => P kv.1) l) = assoc k l.
Proof.
  intros HP. induction l as [|[k' v] l IH]; simpl; [done|].
  destruct (decide (k = k')) as [->|Hne].
  - rewrite HP. simpl. by rewrite decide_True.
  - destruct (P k'); simpl; [by rewrite decide_False|done].
Qed.

Lemma keys_filter_key {V} (P : string -> bool) (l : list (string * V)) (k : string) :
  k ∈ keys (List.filter (fun kv => P kv.1) l) -> P k = true.
Proof.
  unfold keys. intros H. apply list_elem_of_fmap in H as ([k' v] & -> & H).
  apply list_elem_of_In, filter_In in H as [_ H]. done.
Qed.

Lemma for_each_copy_feature_filter (g : h5group) (so : bool)
    (ms : list (string * h5obj)) (st : h5file) :
  for_each (keys ms) (copy_feature g so) st =
  for_each (keys (List.filter (fun kv => feature_exists kv.1 so) ms))
           (copy_feature g so) st.
Proof.
  revert st. induction ms as [|[k o] ms IH]; intros st; simpl; [done|].
  destruct (feature_exists k so) eqn:Hfe; simpl.
  - by apply bind_ext_r.
  - unfold bind, copy_feature at 1. rewrite Hfe. simpl. apply IH.
Qed.

Lemma section_block_ext (G : string) (inc : bool) (src src' : h5file) (p : string) :
  assoc G (groups src') = assoc G (groups src) ->
  section_block G inc src' p = section_block G inc src p.
Proof. intros H. unfold section_block, contains, getgroup. by rewrite H. Qed.

Lemma with_members_other (G G' : string) (ms : list (string * h5obj)) (src : h5file) :
  G' <> G -> assoc G' (groups (with_members G ms src)) = assoc G' (groups src).
Proof.
  intros Hne. unfold with_members. destruct (assoc G (groups src)); [|done].
  simpl. by apply assoc_set_ne.
Qed.

Lemma with_members_same (G : string) (ms : list (string * h5obj)) (src : h5file)
    (g : h5group) :
  assoc G (groups src) = Some g ->
  assoc G (groups (with_members G ms src)) = Some (set_members ms g).
Proof.
  intros H. unfold with_members. rewrite H. simpl. by apply assoc_set_eq.
Qed.

Lemma with_members_attrs (G : string) (ms : list (string * h5obj)) (src : h5file) :
  file_attrs (with_members G ms src) = file_attrs src.
Proof. unfold with_members. by destruct (assoc G (groups src)). Qed.

Lemma features_block_select (src : h5file) (features : features_t) (st : h5file) :
  features_block (select_features (features_eqb features scalar) src) features st =
  features_block src features st.
Proof.
  unfold select_features.
  destruct (assoc "events" (groups src)) as [g|] eqn:Hg; [|done].
  unfold features_block.
  destruct (negb (features_eqb features none)); [|done]. simpl.
  apply bind_ext_r. intros [] s1. unfold getgroup.
  rewrite (with_members_same _ _ _ _ Hg), Hg.
  unfold bind, lift. simpl.
  rewrite (for_each_copy_feature_filter g). symmetry.
  apply for_each_ext. intros k Hk s.
  rewrite (copy_feature_ext g (set_members
     (List.filter (fun kv => feature_exists kv.1 (features_eqb features scalar))
        (members g)) g)); [done|].
  simpl. symmetry. apply (assoc_filter_key (fun k => feature_exists k _)).
  by apply (keys_filter_key (fun k => feature_exists k _)) in Hk.
Qed.

Lemma rtdc_copy_select (src : h5file) (features : features_t) (il it : bool)
    (p : string) (dst : h5file) :
  rtdc_copy src features il it p dst =
  rtdc_copy (select_features (features_eqb features scalar) src)
            features il it p dst.
Proof.
  rewrite !rtdc_copy_blocks.
  set (src' := select_features _ src).
  assert (Ha : file_attrs src' = file_attrs src).
  { unfold src', select_features.
    destruct (assoc "events" (groups src)); [apply with_members_attrs|done]. }
  assert (Hg : forall G, G <> "events" ->
                 assoc G (groups src') = assoc G (groups src)).
  { intros G HG. unfold src', select_features.
    destruct (assoc "events" (groups src)); [by apply with_members_other|done]. }
  rewrite (section_block_ext "logs" il src src' p) by (by apply Hg).
  rewrite (section_block_ext "tables" it src src' p) by (by apply Hg).
  unfold metadata_block at 2. rewrite Ha. fold (metadata_block src).
  apply bind_ext_r. intros [] s0. apply bind_ext_r. intros [] s1.
  apply bind_ext_r. intros [] s2. symmetry. apply features_block_select.
Qed.

Lemma copy_entry_only_group (G : string) (src_loc : h5group) (p k : string)
    (st st' : h5file) (r : result unit) :
  copy_entry G src_loc p k st = (st', r) -> only_group G st st'.
Proof.
  unfold copy_entry, bind.
  destruct (on_group G _ st) as [s1 [h|e]] eqn:H; intros Hr;
    inversion Hr; subst; by eapply on_group_only_group.
Qed.

Lemma section_block_only_group (G : string) (inc : bool) (src : h5file)
    (p : string) (st st' : h5file) (r : result unit) :
  section_block G inc src p st = (st', r) -> only_group G st st'.
Proof.
  unfold section_block. destruct (inc && contains G (groups src)); simpl.
  2: { intros H. inversion H; subst. apply only_group_refl. }
  unfold bind. destruct (require_group_cases G st) as (s1 & -> & Ho & _).
  unfold lift at 1. destruct (getgroup src G) as [g|e].
  - intros H. eapply only_group_trans; [done|].
    eapply (for_each_preserves (only_group G)); [| | |done].
    + apply only_group_refl.
    + apply only_group_trans.
    + intros k s1' s2 r'. apply copy_entry_only_group.
  - intros H. by inversion H; subst.
Qed.

Lemma for_each_complement_frame (l : list _) (d d' : dataset) :
  for_each l complement_one d = (d', Ok tt) ->
  shape d' = shape d /\ dtype d' = dtype d /\ chunks d' = chunks d /\
  filters d' = filters d /\ fletcher32 d' = fletcher32 d /\ data d' = data d.
Proof.
  revert d. induction l as [|ua l IH]; intros d H; simpl in H.
  - by inversion H.
  - apply bind_Ok_inv in H as (d1 & [] & H1 & H).
    apply complement_one_Ok in H1 as (_ & ? & ? & ? & ? & ? & ? & _).
    apply IH in H as (? & ? & ? & ? & ? & ?).
    repeat split; congruence.
Qed.

(** C7. [features] selects the entries of [events] that are copied.
    With ['none'] the [events] group of the destination is left as it
    was, whatever else the copy does. With ['all'] and ['scalar'],
    after a copy that returns, every entry for which [feature_exists]
    holds (with [scalar_only] set for ['scalar']) is a dataset and the
    destination holds a dataset of its shape, dtype and elements under
    the same name, and every entry for which it does not hold leaves
    the destination, under that name, as it was. Such an entry is
    skipped without an error or any other effect: the copy does the same
    as on a source that has no such entry. *)
Theorem rtdc_copy_features (src_h5file : h5file) (include_logs include_tables : bool)
    (meta_prefix : string) (dst_h5file : h5file) :
  (forall st r,
     rtdc_copy src_h5file none include_logs include_tables meta_prefix dst_h5file
       = (st, r) ->
     assoc "events" (groups st) = assoc "events" (groups dst_h5file)) /\
  (forall features dst',
     features <> none ->
     rtdc_copy src_h5file features include_logs include_tables meta_prefix
               dst_h5file = (dst', Ok tt) ->
     exists src_events,
       assoc "events" (groups src_h5file) = Some src_events /\
       forall feat o,
         assoc feat (members src_events) = Some o ->
         (feature_exists feat (features_eqb features scalar) = true ->
          exists d d',
            o = Dataset d /\
            entry "events" feat dst' = Some (Dataset d') /\
            shape d' = shape d /\ dtype d' = dtype d /\
            (length (data d) = prod_shape (shape d) -> data d' = data d)) /\
         (feature_exists feat (features_eqb features scalar) = false ->
          entry "events" feat dst' = entry "events" feat dst_h5file)) /\
  (forall features,
     rtdc_copy src_h5file features include_logs include_tables meta_prefix
               dst_h5file =
     rtdc_copy (select_features (features_eqb features scalar) src_h5file)
               features include_logs include_tables meta_prefix dst_h5file).
Proof.
  split; [|split].
  - intros st r. rewrite rtdc_copy_blocks. unfold bind.
    destruct (metadata_block src_h5file dst_h5file) as [s0 r0] eqn:H0.
    apply metadata_block_entry in H0 as (-> & Hg0 & _).
    destruct (section_block "logs" _ _ _ s0) as [s1 r1] eqn:H1.
    apply section_block_only_group in H1 as [_ H1].
    destruct r1 as [[]|e1].
    2: { intros H. inversion H; subst. by rewrite H1, Hg0. }
    destruct (section_block "tables" _ _ _ s1) as [s2 r2] eqn:H2.
    apply section_block_only_group in H2 as [_ H2].
    destruct r2 as [[]|e2]; intros H; inversion H; subst;
      by rewrite H2, H1, Hg0.
  - intros features dst' Hf H.
    apply rtdc_copy_Ok_inv in H as (s0 & s1 & s2 & H0 & H1 & H2 & H).
    apply metadata_block_entry in H0 as (_ & Hg0 & _).
    apply section_block_only_group in H1 as [_ H1].
    apply section_block_only_group in H2 as [_ H2].
    assert (He : forall n, entry "events" n s2 = entry "events" n dst_h5file).
    { intros n. unfold entry. by rewrite H2, H1, Hg0. }
    apply features_block_Ok in H as (_ & _ & _ & H).
    destruct (H Hf) as (g & Hg & Hall). exists g. split; [done|].
    intros feat o Ho. destruct (Hall feat o Ho) as [Hyes Hno]. split.
    + intros Hfe. destruct (Hyes Hfe) as (d & d' & d'' & -> & Hc & Hst & Hd'').
      exists d, d''. split; [done|]. split; [done|].
      apply copied_content in Hc as (Hs & Ht & _ & Hd).
      destruct (scalar_feature_exists feat); [|by subst d''].
      apply for_each_complement_frame in Hst as (Hs' & Ht' & _ & _ & _ & Hd').
      rewrite Hs', Ht', Hd'. done.
    + intros Hfe. rewrite <- He. by apply Hno.
  - intros features. apply rtdc_copy_select.
Qed.

(** ** An entry that is not a dataset *)

Lemma h5ds_copy_group (src_loc : h5group) (src_name : string)
    (dst_name : option string) (ens : bool) (dst_loc : h5group)
    (a : attributes) (m : list (string * h5obj)) :
  assoc src_name (members src_loc) = Some (Group a m) ->
  h5ds_copy src_loc src_name dst_name ens dst_loc =
  (dst_loc, Err (NotADatasetError src_name)).
Proof.
  intros H. unfold h5ds_copy, bind, lift, getitem. by rewrite H.
Qed.

Lemma assoc_set_same {V} (l : list (string * V)) (k : string) (v : V) :
  assoc k l = Some v -> assoc_set k v l = l.
Proof.
  induction l as [|[k' v'] l IH]; simpl; [done|].
  destruct (decide (k = k')) as [->|Hne].
  - by intros [= ->].
  - intros H. by rewrite IH.
Qed.

(** A computation that leaves the group as it was leaves the file as it
    was. *)
Lemma on_group_unchanged {A} (G : string) (m : M h5group A) (st : h5file)
    (g : h5group) (r : result A) :
  assoc G (groups st) = Some g -> m g = (g, r) -> on_group G m st = (st, r).
Proof.
  intros Hg Hm. unfold on_group. rewrite Hg, Hm.
  rewrite (assoc_set_same _ _ _ Hg). by destruct st.
Qed.

Lemma keys_app {V} (l1 l2 : list (string * V)) : keys (l1 ++ l2) = keys l1 ++ keys l2.
Proof. unfold keys. apply map_app. Qed.

Lemma assoc_app_l {V} (l1 l2 : list (string * V)) (k : string) :
  k ∈ keys l1 -> assoc k (l1 ++ l2) = assoc k l1.
Proof.
  intros Hk. rewrite assoc_app. destruct (assoc k l1) eqn:H; [done|].
  by apply assoc_None_keys in H.
Qed.

Lemma assoc_app_r {V} (l1 l2 : list (string * V)) (k : string) :
  k ∉ keys l1 -> assoc k (l1 ++ l2) = assoc k l2.
Proof.
  intros Hk. rewrite assoc_app. apply assoc_None_keys in Hk. by rewrite Hk.
Qed.

Lemma for_each_copy_entry_extends (G : string) (g : h5group) (p : string)
    (ks : list string) (s s' : h5file) :
  for_each ks (copy_entry G g p) s = (s', Ok tt) ->
  extends G (map (String.append p) ks) s s'.
Proof.
  intros H.
  apply (for_each_Ok_inv (extends G (map (String.append p) ks)) (fun _ _ => True))
    in H as [H _]; [done|apply extends_refl|apply extends_trans|done|].
  intros k s1 s2 Hk Hstep. apply copy_entry_Ok in Hstep as [Hext _].
  split; [|done]. eapply extends_mono; [|done]. intros n Hn.
  apply list_elem_of_singleton in Hn as ->.
  apply list_elem_of_fmap. by exists k.
Qed.

Lemma for_each_copy_feature_extends (g : h5group) (so : bool)
    (ks : list string) (s s' : h5file) :
  for_each ks (copy_feature g so) s = (s', Ok tt) ->
  extends "events" ks s s'.
Proof.
  intros H.
  apply (for_each_Ok_inv (extends "events" ks) (fun _ _ => True))
    in H as [H _]; [done|apply extends_refl|apply extends_trans|done|].
  intros k s1 s2 Hk Hstep. apply copy_feature_Ok in Hstep as [Hext _].
  split; [|done]. eapply extends_mono; [|done]. intros n Hn.
  destruct (feature_exists k so); [|by apply not_elem_of_nil in Hn].
  by apply list_elem_of_singleton in Hn as ->.
Qed.

(** The block of [logs] or [tables] stops at the first entry that is a
    group, in the state that the entries before it have led to. *)
Lemma section_block_abort (G : string) (src : h5file) (p : string)
    (g : h5group) (ms1 ms2 : list (string * h5obj)) (k : string)
    (ga : attributes) (gm : list (string * h5obj)) (st st1 : h5file) :
  assoc G (groups src) = Some g ->
  members g = ms1 ++ (k, Group ga gm) :: ms2 ->
  k ∉ keys ms1 ->
  section_block G true (with_members G ms1 src) p st = (st1, Ok tt) ->
  section_block G true src p st = (st1, Err (NotADatasetError k)).
Proof.
  intros Hg Hms Hk H. unfold section_block in *.
  assert (Hc : contains G (groups src) = true) by (apply contains_true; by eexists).
  assert (Hc1 : contains G (groups (with_members G ms1 src)) = true).
  { apply contains_true. rewrite (with_members_same _ _ _ _ Hg). by eexists. }
  rewrite Hc. rewrite Hc1 in H. simpl in *.
  apply bind_Ok_inv in H as (s1 & [] & Hreq & H).
  rewrite (bind_Ok _ _ _ _ _ Hreq).
  unfold getgroup in *. rewrite (with_members_same _ _ _ _ Hg) in H. rewrite Hg.
  unfold bind at 1, lift at 1. unfold bind at 1, lift at 1 in H.
  simpl in H. rewrite Hms, keys_app. simpl. rewrite for_each_app.
  assert (Hpre : for_each (keys ms1) (copy_entry G g p) s1 = (st1, Ok tt)).
  { rewrite <- H. apply for_each_ext. intros k' Hk' s.
    rewrite (copy_entry_ext G g (set_members ms1 g) p k'); [done|].
    simpl. rewrite Hms. by apply assoc_app_l. }
  rewrite (bind_Ok _ _ _ _ _ Hpre). simpl.
  apply bind_Err. unfold copy_entry. apply bind_Err.
  destruct (require_group_cases G st) as (s1' & Hreq' & _ & _ & Hs1).
  rewrite Hreq in Hreq'. inversion Hreq'; subst s1'; clear Hreq'.
  apply for_each_copy_entry_extends in Hpre as (_ & Hsome & _).
  destruct (Hsome Hs1) as [g1 Hg1].
  apply (on_group_unchanged _ _ _ g1); [done|].
  apply (h5ds_copy_group _ _ _ _ _ ga gm).
  rewrite Hms, assoc_app_r by done. simpl. by rewrite decide_True.
Qed.

(** The block of [events] likewise, at an entry that [feature_exists]
    lets through. *)
Lemma features_block_abort (src : h5file) (features : features_t)
    (g : h5group) (ms1 ms2 : list (string * h5obj)) (k : string)
    (ga : attributes) (gm : list (string * h5obj)) (st st1 : h5file) :
  assoc "events" (groups src) = Some g ->
  members g = ms1 ++ (k, Group ga gm) :: ms2 ->
  k ∉ keys ms1 ->
  features <> none ->
  feature_exists k (features_eqb features scalar) = true ->
  features_block (with_members "events" ms1 src) features st = (st1, Ok tt) ->
  features_block src features st = (st1, Err (NotADatasetError k)).
Proof.
  intros Hg Hms Hk Hf Hfe H. unfold features_block in *.
  assert (Hn : negb (features_eqb features none) = true) by (by destruct features).
  rewrite Hn in *. simpl in *.
  apply bind_Ok_inv in H as (s1 & [] & Hreq & H).
  rewrite (bind_Ok _ _ _ _ _ Hreq).
  unfold getgroup in *. rewrite (with_members_same _ _ _ _ Hg) in H. rewrite Hg.
  unfold bind at 1, lift at 1. unfold bind at 1, lift at 1 in H.
  simpl in H. rewrite Hms, keys_app. simpl. rewrite for_each_app.
  set (so := features_eqb features scalar) in *.
  assert (Hpre : for_each (keys ms1) (copy_feature g so) s1 = (st1, Ok tt)).
  { rewrite <- H. apply for_each_ext. intros k' Hk' s.
    rewrite (copy_feature_ext g (set_members ms1 g) so k'); [done|].
    simpl. rewrite Hms. by apply assoc_app_l. }
  rewrite (bind_Ok _ _ _ _ _ Hpre). simpl.
  apply bind_Err. unfold copy_feature. rewrite Hfe. simpl. apply bind_Err.
  destruct (require_group_cases "events" st) as (s1' & Hreq' & _ & _ & Hs1).
  rewrite Hreq in Hreq'. inversion Hreq'; subst s1'; clear Hreq'.
  apply for_each_copy_feature_extends in Hpre as (_ & Hsome & _).
  destruct (Hsome Hs1) as [g1 Hg1].
  apply (on_group_unchanged _ _ _ g1); [done|].
  apply (h5ds_copy_group _ _ _ _ _ ga gm).
  rewrite Hms, assoc_app_r by done. simpl. by rewrite decide_True.
Qed.

Lemma metadata_block_ext (src src' : h5file) :
  file_attrs src' = file_attrs src -> metadata_block src' = metadata_block src.
Proof. intros H. unfold metadata_block. by rewrite H. Qed.

Lemma section_block_off (G : string) (src : h5file) (p : string) (st st' : h5file)
    (r : result unit) :
  section_block G false src p st = (st', r) -> st' = st /\ r = Ok tt.
Proof. unfold section_block. simpl. intros H. by inversion H. Qed.

Lemma features_block_none (src : h5file) (st st' : h5file) (r : result unit) :
  features_block src none st = (st', r) -> st' = st /\ r = Ok tt.
Proof. unfold features_block. simpl. intros H. by inversion H. Qed.

(** C3. [h5ds_copy] called on a name that is a group raises the error of
    line 135 and leaves the destination group as it was. In [rtdc_copy]
    the error is not caught: when an entry of [logs], of [tables], or an
    entry of [events] that [feature_exists] lets through, is a group,
    the copy stops there with that error, in the state that the copy of
    the entries before it has led to; the entries after it and the
    blocks after it are not copied. That state is given as the state in
    which the copy of the source cut off before the entry, with the
    later blocks switched off, returns. *)
Theorem rtdc_copy_not_a_dataset :
  (forall (src_loc : h5group) (src_name : string) (dst_name : option string)
          (ensure_compression : bool) (dst_loc : h5group)
          (a : attributes) (m : list (string * h5obj)),
     assoc src_name (members src_loc) = Some (Group a m) ->
     h5ds_copy src_loc src_name dst_name ensure_compression dst_loc =
     (dst_loc, Err (NotADatasetError src_name))) /\
  (forall (src_h5file : h5file) (features : features_t)
          (include_logs include_tables : bool) (meta_prefix : string)
          (dst_h5file st1 : h5file) (G : string) (g : h5group)
          (ms1 ms2 : list (string * h5obj)) (k : string)
          (ga : attributes) (gm : list (string * h5obj)),
     assoc G (groups src_h5file) = Some g ->
     members g = ms1 ++ (k, Group ga gm) :: ms2 ->
     k ∉ keys ms1 ->
     (G = "logs" ->
      rtdc_copy (with_members "logs" ms1 src_h5file) none true false meta_prefix
                dst_h5file = (st1, Ok tt) ->
      rtdc_copy src_h5file features true include_tables meta_prefix dst_h5file
        = (st1, Err (NotADatasetError k))) /\
     (G = "tables" ->
      rtdc_copy (with_members "tables" ms1 src_h5file) none include_logs true
                meta_prefix dst_h5file = (st1, Ok tt) ->
      rtdc_copy src_h5file features include_logs true meta_prefix dst_h5file
        = (st1, Err (NotADatasetError k))) /\
     (G = "events" ->
      features <> none ->
      feature_exists k (features_eqb features scalar) = true ->
      rtdc_copy (with_members "events" ms1 src_h5file) features include_logs
                include_tables meta_prefix dst_h5file = (st1, Ok tt) ->
      rtdc_copy src_h5file features include_logs include_tables meta_prefix
                dst_h5file = (st1, Err (NotADatasetError k)))).
Proof.
  split; [intros; by eapply h5ds_copy_group|].
  intros src features il it p dst st1 G g ms1 ms2 k ga gm Hg Hms Hk.
  split; [|split].
  - intros -> H.
    apply rtdc_copy_Ok_inv in H as (s0 & s1 & s2 & H0 & H1 & H2 & H3).
    apply section_block_off in H2 as [-> _].
    apply features_block_none in H3 as [-> _].
    rewrite (metadata_block_ext src) in H0 by apply with_members_attrs.
    rewrite rtdc_copy_blocks. rewrite (bind_Ok _ _ _ _ _ H0).
    apply bind_Err. by eapply section_block_abort.
  - intros -> H.
    apply rtdc_copy_Ok_inv in H as (s0 & s1 & s2 & H0 & H1 & H2 & H3).
    apply features_block_none in H3 as [-> _].
    rewrite (metadata_block_ext src) in H0 by apply with_members_attrs.
    rewrite (section_block_ext "logs" il src) in H1
      by (by apply with_members_other).
    rewrite rtdc_copy_blocks. rewrite (bind_Ok _ _ _ _ _ H0).
    rewrite (bind_Ok _ _ _ _ _ H1).
    apply bind_Err. by eapply section_block_abort.
  - intros -> Hf Hfe H.
    apply rtdc_copy_Ok_inv in H as (s0 & s1 & s2 & H0 & H1 & H2 & H3).
    rewrite (metadata_block_ext src) in H0 by apply with_members_attrs.
    rewrite (section_block_ext "logs" il src) in H1
      by (by apply with_members_other).
    rewrite (section_block_ext "tables" it src) in H2
      by (by apply with_members_other).
    rewrite rtdc_copy_blocks. rewrite (bind_Ok _ _ _ _ _ H0).
    rewrite (bind_Ok _ _ _ _ _ H1). rewrite (bind_Ok _ _ _ _ _ H2).
    by eapply features_block_abort.
Qed.

(** ** A source without [events], [logs] or [tables] *)

Lemma features_block_no_events (src : h5file) (features : features_t)
    (st : h5file) :
  assoc "events" (groups src) = None -> features <> none ->
  features_block src features st =
  ((require_group "events" st).1, Err (KeyError "events")).
Proof.
  intros Hg Hf. unfold features_block.
  assert (Hn : negb (features_eqb features none) = true) by (by destruct features).
  rewrite Hn. simpl.
  destruct (require_group_cases "events" st) as (s1 & Hreq & _).
  rewrite (bind_Ok _ _ _ _ _ Hreq), Hreq. simpl.
  unfold bind, lift, getgroup. by rewrite Hg.
Qed.

Lemma section_block_missing (G : string) (inc : bool) (src : h5file) (p : string) :
  assoc G (groups src) = None ->
  section_block G inc src p = section_block G false src p.
Proof.
  intros H. apply contains_false in H. unfold section_block.
  by rewrite H, andb_false_r.
Qed.

(** C10. When the source has no [events] group and [features] is
    ['all'] or ['scalar'], the copy never returns: once the metadata,
    [logs] and [tables] blocks are through, so in the state that the
    copy with ['none'] leaves, with the [events] group of the
    destination made ready, the lookup [src_h5file["events"]] raises
    KeyError. A source without a [logs] group, or without a [tables]
    group, is copied as with [include_logs], respectively
    [include_tables], switched off, and a source that has neither is
    copied with ['none'] without any error: its attributes are copied
    and nothing else is done. *)
Theorem rtdc_copy_missing_sections (src_h5file : h5file) (features : features_t)
    (include_logs include_tables : bool) (meta_prefix : string)
    (dst_h5file : h5file) :
  (assoc "events" (groups src_h5file) = None -> features <> none ->
   (forall st,
      rtdc_copy src_h5file features include_logs include_tables meta_prefix
                dst_h5file <> (st, Ok tt)) /\
   (forall st1,
      rtdc_copy src_h5file none include_logs include_tables meta_prefix
                dst_h5file = (st1, Ok tt) ->
      rtdc_copy src_h5file features include_logs include_tables meta_prefix
                dst_h5file =
      ((require_group "events" st1).1, Err (KeyError "events")))) /\
  (assoc "logs" (groups src_h5file) = None ->
   rtdc_copy src_h5file features true include_tables meta_prefix dst_h5file =
   rtdc_copy src_h5file features false include_tables meta_prefix dst_h5file) /\
  (assoc "tables" (groups src_h5file) = None ->
   rtdc_copy src_h5file features include_logs true meta_prefix dst_h5file =
   rtdc_copy src_h5file features include_logs false meta_prefix dst_h5file) /\
  (assoc "logs" (groups src_h5file) = None ->
   assoc "tables" (groups src_h5file) = None ->
   rtdc_copy src_h5file none include_logs include_tables meta_prefix dst_h5file =
   (set_file_attrs (copy_attrs (file_attrs src_h5file) (file_attrs dst_h5file))
                   dst_h5file, Ok tt)).
Proof.
  split; [|split; [|split]].
  - intros Hg Hf. split.
    + intros st H.
      apply rtdc_copy_Ok_inv in H as (s0 & s1 & s2 & _ & _ & _ & H).
      by rewrite features_block_no_events in H.
    + intros st1 H.
      apply rtdc_copy_Ok_inv in H as (s0 & s1 & s2 & H0 & H1 & H2 & H3).
      apply features_block_none in H3 as [-> _].
      rewrite rtdc_copy_blocks. rewrite (bind_Ok _ _ _ _ _ H0).
      rewrite (bind_Ok _ _ _ _ _ H1). rewrite (bind_Ok _ _ _ _ _ H2).
      by apply features_block_no_events.
  - intros H. rewrite !rtdc_copy_blocks.
    by rewrite (section_block_missing "logs" true _ _ H).
  - intros H. rewrite !rtdc_copy_blocks.
    by rewrite (section_block_missing "tables" true _ _ H).
  - intros Hl Ht. rewrite rtdc_copy_blocks.
    rewrite (section_block_missing "logs" _ _ _ Hl).
    rewrite (section_block_missing "tables" _ _ _ Ht). reflexivity.
Qed.


(** ** More on [h5ds_copy] *)

Lemma create_dataset_Err (name : string) (sh : list nat) (t : h5type)
    (ch : option (list nat)) (fl : bool) (comp : h5filter) (loc loc' : h5group)
    (e : error) :
  create_dataset name sh t ch fl comp loc = (loc', Err e) -> loc' = loc.
Proof.
  unfold create_dataset. destruct sh as [|s sh]; [by intros [= <- _]|].
  destruct ch as [c|]; [destruct (valid_chunks _ c)|];
    destruct (contains name (members loc)); by intros [= <- _].
Qed.

Lemma h5ds_copy_Err (src_loc : h5group) (src_name : string)
    (dst_name : option string) (ens : bool) (dst_loc dst_loc' : h5group)
    (e : error) :
  h5ds_copy src_loc src_name dst_name ens dst_loc = (dst_loc', Err e) ->
  dst_loc' = dst_loc.
Proof.
  unfold h5ds_copy, getitem. unfold bind at 1, lift at 1.
  destruct (assoc src_name (members src_loc)) as [[src|]|] eqn:Hsrc;
    [|by intros [= <- _]..].
  unfold bind at 1, lift at 1.
  destruct (if ens then _ else _) as [recode|e0]; [|by intros [= <- _]].
  unfold bind at 1.
  destruct recode.
  - unfold bind at 1, lift at 1.
    destruct (plan_chunks (shape src) (chunks src)) as [planned|e0];
      [|by intros [= <- _]].
    unfold bind at 1.
    destruct (create_dataset _ _ _ _ _ _ dst_loc) as [s1 [[]|e1]] eqn:Hc.
    + apply create_dataset_inv in Hc as (Hfree & _ & _ & ->).
      unfold bind at 1. rewrite on_dataset_modify_last by done.
      rewrite on_dataset_modify_last by done.
      unfold bind, get, lift, getitem, ret. simpl.
      rewrite assoc_app, Hfree. simpl. rewrite decide_True by done. done.
    + apply create_dataset_Err in Hc as ->. by intros [= <- _].
  - unfold h5o_copy. rewrite Hsrc.
    destruct (contains _ (members dst_loc)) eqn:Hc; [by intros [= <- _]|].
    apply contains_false in Hc.
    unfold bind, get, lift, getitem, ret. simpl.
    rewrite assoc_set_eq. done.
Qed.

(** X1: a copy that returns leaves, under the name it returns, a dataset
    with the shape, the dtype and the attributes of the source and, the
    source holding as many elements as its shape says, its elements;
    the destination group keeps its attributes and every other entry. *)
Theorem h5ds_copy_round_trip (src_loc : h5group) (src_name : string)
    (dst_name : option string) (ensure_compression : bool)
    (dst_loc dst_loc' : h5group) (h : string) :
  h5ds_copy src_loc src_name dst_name ensure_compression dst_loc = (dst_loc', Ok h) ->
  exists src dst,
    assoc src_name (members src_loc) = Some (Dataset src) /\
    assoc h (members dst_loc') = Some (Dataset dst) /\
    shape dst = shape src /\ dtype dst = dtype src /\ attrs dst = attrs src /\
    (length (data src) = prod_shape (shape src) -> data dst = data src) /\
    group_attrs dst_loc' = group_attrs dst_loc /\
    (forall n, n <> h -> assoc n (members dst_loc') = assoc n (members dst_loc)).
Proof.
  intros H. apply h5ds_copy_inv in H as (_ & src & dst & Hsrc & Hfree & -> & Hc).
  exists src, dst. split; [done|]. simpl.
  split; [rewrite assoc_app, Hfree; simpl; by rewrite decide_True|].
  apply copied_content in Hc as (? & ? & ? & ?).
  repeat (split; [done|]).
  intros n Hn. rewrite assoc_app. destruct (assoc n (members dst_loc)); [done|].
  simpl. by rewrite decide_False.
Qed.

(** X2: a call that raises leaves the destination group as it was:
    nothing is created before the source has been found to be a
    dataset, its filter read, and the store has accepted the name and
    the chunk shape. *)
Theorem h5ds_copy_raises_clean (src_loc : h5group) (src_name : string)
    (dst_name : option string) (ensure_compression : bool)
    (dst_loc dst_loc' : h5group) (e : error) :
  h5ds_copy src_loc src_name dst_name ensure_compression dst_loc = (dst_loc', Err e) ->
  dst_loc' = dst_loc.
Proof. apply h5ds_copy_Err. Qed.

(** X3: an entry of the destination is never overwritten. A call whose
    destination name is taken raises and changes nothing; in
    particular, after a call that returned, the same call again raises
    the error of the store for a name that exists. *)
Theorem h5ds_copy_no_overwrite (src_loc : h5group) (src_name : string)
    (dst_name : option string) (ensure_compression : bool) (dst_loc : h5group) :
  (is_Some (assoc (or_name dst_name src_name) (members dst_loc)) ->
   exists e,
     h5ds_copy src_loc src_name dst_name ensure_compression dst_loc =
     (dst_loc, Err e)) /\
  (forall dst_loc' h,
     h5ds_copy src_loc src_name dst_name ensure_compression dst_loc =
       (dst_loc', Ok h) ->
     h5ds_copy src_loc src_name dst_name ensure_compression dst_loc' =
       (dst_loc', Err (NameExists h))).
Proof.
  split.
  - intros [o Ho].
    destruct (h5ds_copy src_loc src_name dst_name ensure_compression dst_loc)
      as [s' [h|e]] eqn:H.
    + apply h5ds_copy_inv in H as (-> & _ & _ & _ & Hfree & _). congruence.
    + exists e. by rewrite (h5ds_copy_Err _ _ _ _ _ _ _ H).
  - intros dst_loc' h H.
    apply h5ds_copy_inv in H as (-> & src & dst & Hsrc & Hfree & -> & Hc).
    set (n := or_name dst_name src_name) in *.
    assert (Hin : contains n (members dst_loc ++ [(n, Dataset dst)]) = true).
    { apply contains_true. rewrite assoc_app, Hfree. simpl.
      rewrite decide_True by done. by eexists. }
    unfold h5ds_copy, getitem. fold n. unfold bind at 1, lift at 1.
    rewrite Hsrc. unfold bind at 1, lift at 1.
    destruct Hc as [[Hv ->]|(-> & Hipc & Hr)].
    + assert (Hdec : (if ensure_compression
                      then match is_properly_compressed src with
                           | Ok b => Ok (negb b)
                           | Err e => Err e
                           end
                      else Ok false) = Ok false).
      { destruct Hv as [->| ->]; [done|]. by destruct ensure_compression. }
      rewrite Hdec. unfold bind at 1, h5o_copy. rewrite Hsrc. simpl.
      by rewrite Hin.
    + rewrite Hipc. simpl. unfold bind at 1.
      destruct Hr as (Hne & _ & _ & _ & _ & _ & (planned & Hp & _ & Hv) & _).
      unfold bind at 1, lift at 1. rewrite Hp. unfold bind at 1.
      unfold create_dataset. simpl.
      destruct (shape src) as [|s0 ss]; [done|]. rewrite Hin.
      destruct planned as [c|]; [by rewrite Hv|done].
Qed.

Lemma h5ds_copy_verbatim (src_loc : h5group) (src_name : string)
    (dst_name : option string) (ensure_compression : bool) (dst_loc : h5group)
    (src : dataset) :
  assoc src_name (members src_loc) = Some (Dataset src) ->
  ensure_compression = false \/ is_properly_compressed src = Ok true ->
  assoc (or_name dst_name src_name) (members dst_loc) = None ->
  h5ds_copy src_loc src_name dst_name ensure_compression dst_loc =
  (set_members (members dst_loc ++ [(or_name dst_name src_name, Dataset src)])
               dst_loc,
   Ok (or_name dst_name src_name)).
Proof.
  intros Hsrc Hv Hfree.
  unfold h5ds_copy, getitem. unfold bind at 1, lift at 1. rewrite Hsrc.
  unfold bind at 1, lift at 1.
  assert (Hdec : (if ensure_compression
                  then match is_properly_compressed src with
                       | Ok b => Ok (negb b)
                       | Err e => Err e
                       end
                  else Ok false) = Ok false).
  { destruct Hv as [->| ->]; [done|]. by destruct ensure_compression. }
  rewrite Hdec. unfold bind at 1, h5o_copy. rewrite Hsrc.
  apply contains_false in Hfree as Hc. rewrite Hc.
  rewrite (assoc_set_fresh _ _ _ Hfree).
  unfold bind, get, lift, getitem, ret. simpl.
  rewrite assoc_app, Hfree. simpl. by rewrite decide_True.
Qed.


(** X5: with [ensure_compression] on, the dataset that a copy leaves is
    properly compressed, on either branch, and a copy made of it later
    with [ensure_compression] on is that dataset itself. *)
Theorem h5ds_copy_compressed (src_loc : h5group) (src_name : string)
    (dst_name : option string) (dst_loc dst_loc' : h5group) (h : string) :
  h5ds_copy src_loc src_name dst_name true dst_loc = (dst_loc', Ok h) ->
  exists dst,
    assoc h (members dst_loc') = Some (Dataset dst) /\
    is_properly_compressed dst = Ok true /\
    forall (dst_name2 : option string) (loc2 loc2' : h5group) (h2 : string),
      h5ds_copy dst_loc' h dst_name2 true loc2 = (loc2', Ok h2) ->
      assoc h2 (members loc2') = Some (Dataset dst).
Proof.
  intros H. apply h5ds_copy_entry in H as (src & dst & _ & Hdst & Hc).
  assert (Hipc : is_properly_compressed dst = Ok true).
  { destruct Hc as [[[?|Hipc] ->]|(_ & _ & Hr)]; [done|done|].
    destruct Hr as (_ & _ & _ & Hf & _).
    unfold is_properly_compressed, get_filter_by_id. by rewrite Hf. }
  exists dst. split; [done|]. split; [done|].
  intros dn2 loc2 loc2' h2 H2.
  apply h5ds_copy_entry in H2 as (src2 & dst2 & Hsrc2 & Hdst2 & Hc2).
  rewrite Hdst in Hsrc2. injection Hsrc2 as <-.
  destruct Hc2 as [[_ ->]|(_ & Hipc2 & _)]; [done|congruence].
Qed.

(** ** More on [rtdc_copy]: what any copy leaves alone *)

Lemma bind_preserves {S A B} (R : S -> S -> Prop) (m : M S A) (k : A -> M S B) :
  (forall s1 s2 s3, R s1 s2 -> R s2 s3 -> R s1 s3) ->
  (forall s s' r, m s = (s', r) -> R s s') ->
  (forall a s s' r, k a s = (s', r) -> R s s') ->
  forall s s' r, bind m k s = (s', r) -> R s s'.
Proof.
  intros Htrans Hm Hk s s' r. unfold bind.
  destruct (m s) as [s1 [a|e]] eqn:H1.
  - intros H2. eapply Htrans; [by eapply Hm|by eapply Hk].
  - intros [= <- _]. by eapply Hm.
Qed.

Lemma h5ds_copy_keeps (src_loc : h5group) (src_name : string)
    (dst_name : option string) (ens : bool) (g g' : h5group) (r : result string) :
  h5ds_copy src_loc src_name dst_name ens g = (g', r) ->
  forall n o, assoc n (members g) = Some o -> assoc n (members g') = Some o.
Proof.
  intros H n o Hn. destruct r as [h|e].
  - apply h5ds_copy_inv in H as (_ & _ & dst & _ & _ & -> & _).
    simpl. by rewrite assoc_app, Hn.
  - by rewrite (h5ds_copy_Err _ _ _ _ _ _ _ H).
Qed.

Lemma on_group_keeps {A} (G : string) (m : M h5group A) (st st' : h5file)
    (r : result A) :
  (forall g g' r', m g = (g', r') ->
     forall n o, assoc n (members g) = Some o -> assoc n (members g') = Some o) ->
  on_group G m st = (st', r) ->
  forall G' n o, entry G' n st = Some o -> entry G' n st' = Some o.
Proof.
  intros Hm H G' n o Hn.
  apply on_group_inv in H as [(g & g' & Hg & Hr & ->)|(_ & -> & _)]; [|done].
  destruct (decide (G' = G)) as [->|Hne].
  - rewrite entry_set_groups. unfold entry in Hn. rewrite Hg in Hn.
    by eapply Hm.
  - unfold entry in *. simpl. by rewrite assoc_set_ne.
Qed.

(** Whatever happens to the dataset behind a handle, the other entries
    stay. *)
Lemma on_group_on_dataset_others {A} (G h : string) (m : M dataset A)
    (st st' : h5file) (r : result A) :
  on_group G (on_dataset h m) st = (st', r) ->
  forall G' n, (G' = G -> n <> h) -> entry G' n st' = entry G' n st.
Proof.
  intros H G' n Hn.
  apply on_group_inv in H as [(g & g' & Hg & Hr & ->)|(_ & -> & _)]; [|done].
  destruct (decide (G' = G)) as [->|Hne].
  - rewrite entry_set_groups. unfold entry. rewrite Hg.
    unfold on_dataset in Hr.
    destruct (assoc h (members g)) as [[d|]|]; [|by inversion Hr..].
    destruct (m d) as [d' r']. inversion Hr; subst. simpl.
    apply assoc_set_ne. intros ->. by apply Hn.
  - unfold entry. simpl. by rewrite assoc_set_ne.
Qed.

Lemma copy_entry_keeps (G : string) (src_loc : h5group) (p k : string)
    (st st' : h5file) (r : result unit) :
  copy_entry G src_loc p k st = (st', r) ->
  forall G' n o, entry G' n st = Some o -> entry G' n st' = Some o.
Proof.
  unfold copy_entry, bind.
  destruct (on_group G _ st) as [s1 [h|e]] eqn:H; intros Hr;
    inversion Hr; subst; eapply on_group_keeps; try done;
    intros g g' r'; apply h5ds_copy_keeps.
Qed.

Lemma copy_feature_keeps (src_events : h5group) (so : bool) (feat : string)
    (st st' : h5file) (r : result unit) :
  copy_feature src_events so feat st = (st', r) ->
  forall G' n o, entry G' n st = Some o -> entry G' n st' = Some o.
Proof.
  unfold copy_feature. destruct (feature_exists feat so); simpl.
  2: { by intros [= <- _]. }
  unfold bind.
  destruct (on_group "events" _ st) as [s1 [h|e]] eqn:H.
  - intros Hann G' n o Hn.
    assert (Hk : entry G' n s1 = Some o).
    { eapply on_group_keeps; [|done..]. intros g g' r'. apply h5ds_copy_keeps. }
    apply on_group_h5ds_copy in H as (_ & _ & _ & _ & _ & Hfree & _).
    destruct (scalar_feature_exists feat); simpl in Hann.
    + rewrite (on_group_on_dataset_others _ _ _ _ _ _ Hann); [done|].
      intros -> ->. congruence.
    + by inversion Hann; subst.
  - intros [= <- _]. eapply on_group_keeps; [|done].
    intros g g' r'. apply h5ds_copy_keeps.
Qed.

Lemma copy_feature_only_group (src_events : h5group) (so : bool) (feat : string)
    (st st' : h5file) (r : result unit) :
  copy_feature src_events so feat st = (st', r) -> only_group "events" st st'.
Proof.
  unfold copy_feature. destruct (feature_exists feat so); simpl.
  2: { intros [= <- _]. apply only_group_refl. }
  unfold bind.
  destruct (on_group "events" _ st) as [s1 [h|e]] eqn:H.
  - apply on_group_only_group in H.
    destruct (scalar_feature_exists feat); simpl.
    + intros Hann. apply on_group_only_group in Hann.
      by eapply only_group_trans.
    + by intros [= <- _].
  - intros [= <- _]. by eapply on_group_only_group.
Qed.

Lemma require_group_keeps (G : string) (st st' : h5file) (r : result unit) :
  require_group G st = (st', r) ->
  only_group G st st' /\
  forall G' n o, entry G' n st = Some o -> entry G' n st' = Some o.
Proof.
  destruct (require_group_cases G st) as (s1 & -> & Ho & He & _).
  intros [= <- _]. split; [done|]. intros G' n o Hn.
  destruct (decide (G' = G)) as [->|Hne]; [by rewrite He|].
  by rewrite (only_group_entry _ _ _ _ _ Ho).
Qed.

Lemma keeps_entries_refl (st : h5file) : keeps_entries st st.
Proof. by intros G n o. Qed.

Lemma keeps_entries_trans (s1 s2 s3 : h5file) :
  keeps_entries s1 s2 -> keeps_entries s2 s3 -> keeps_entries s1 s3.
Proof. intros H1 H2 G n o Hn. by apply H2, H1. Qed.

Lemma section_block_keeps (G : string) (inc : bool) (src : h5file) (p : string)
    (st st' : h5file) (r : result unit) :
  section_block G inc src p st = (st', r) -> keeps_entries st st'.
Proof.
  unfold section_block. destruct (inc && contains G (groups src)); simpl.
  2: { intros [= <- _]. apply keeps_entries_refl. }
  apply (bind_preserves keeps_entries); [apply keeps_entries_trans| |].
  - intros s s' r' H. apply require_group_keeps in H as [_ H]. exact H.
  - intros [] s s' r'. unfold bind, lift.
    destruct (getgroup src G) as [g|e]; [|intros [= <- _]; apply keeps_entries_refl].
    apply (for_each_preserves keeps_entries);
      [apply keeps_entries_refl|apply keeps_entries_trans|].
    intros k s1 s2 r2 H G' n o. by eapply copy_entry_keeps.
Qed.

Lemma features_block_keeps (src : h5file) (features : features_t)
    (st st' : h5file) (r : result unit) :
  features_block src features st = (st', r) ->
  keeps_entries st st' /\ only_group "events" st st'.
Proof.
  unfold features_block. destruct (negb (features_eqb features none)); simpl.
  2: { intros [= <- _]. split; [apply keeps_entries_refl|apply only_group_refl]. }
  apply (bind_preserves (fun s s' => keeps_entries s s' /\ only_group "events" s s')).
  - intros s1 s2 s3 [? ?] [? ?].
    split; [by eapply keeps_entries_trans|by eapply only_group_trans].
  - intros s s' r' H. apply require_group_keeps in H as [? ?]. done.
  - intros [] s s' r'. unfold bind, lift.
    destruct (getgroup src "events") as [g|e].
    2: { intros [= <- _]. split; [apply keeps_entries_refl|apply only_group_refl]. }
    apply (for_each_preserves
             (fun s s' => keeps_entries s s' /\ only_group "events" s s')).
    + intros s0. split; [apply keeps_entries_refl|apply only_group_refl].
    + intros s1 s2 s3 [? ?] [? ?].
      split; [by eapply keeps_entries_trans|by eapply only_group_trans].
    + intros k s1 s2 r2 H. split.
      * intros G n o. by eapply copy_feature_keeps.
      * by eapply copy_feature_only_group.
Qed.

Lemma only_group_same_elsewhere (G : string) (st st' : h5file) :
  G = "logs" \/ G = "tables" \/ G = "events" ->
  only_group G st st' -> same_elsewhere st st'.
Proof.
  intros HG [_ H] G' H1 H2 H3. apply H. intros ->.
  destruct HG as [->|[->| ->]]; done.
Qed.

Lemma same_elsewhere_trans (s1 s2 s3 : h5file) :
  same_elsewhere s1 s2 -> same_elsewhere s2 s3 -> same_elsewhere s1 s3.
Proof. intros H1 H2 G ? ? ?. rewrite H2, H1; done. Qed.

(** What every block of the copy keeps, whatever its outcome. *)
Lemma rtdc_copy_any (src : h5file) (features : features_t) (il it : bool)
    (p : string) (dst st : h5file) (r : result unit) :
  rtdc_copy src features il it p dst = (st, r) ->
  keeps_entries dst st /\ same_elsewhere dst st /\
  file_attrs st = copy_attrs (file_attrs src) (file_attrs dst).
Proof.
  rewrite rtdc_copy_blocks. unfold bind at 1.
  destruct (metadata_block src dst) as [s0 r0] eqn:H0.
  apply metadata_block_entry in H0 as (-> & Hg0 & Ha0).
  assert (Hk0 : keeps_entries dst s0).
  { intros G n o. unfold entry. by rewrite Hg0. }
  assert (He0 : same_elsewhere dst s0).
  { intros G _ _ _. by rewrite Hg0. }
  set (R := fun s s' : h5file =>
              keeps_entries s s' /\ same_elsewhere s s' /\
              file_attrs s' = file_attrs s).
  assert (Htrans : forall s1 s2 s3, R s1 s2 -> R s2 s3 -> R s1 s3).
  { intros s1 s2 s3 (? & ? & ?) (? & ? & ?). split; [|split].
    - by eapply keeps_entries_trans.
    - by eapply same_elsewhere_trans.
    - congruence. }
  assert (Hsec : forall G inc s s' r',
             G = "logs" \/ G = "tables" ->
             section_block G inc src p s = (s', r') -> R s s').
  { intros G inc s s' r' HG H. split; [by eapply section_block_keeps|].
    apply section_block_only_group in H as Ho. split; [|by destruct Ho].
    eapply only_group_same_elsewhere; [|done]. destruct HG; auto. }
  intros H.
  assert (HR : R s0 st).
  { revert H. apply (bind_preserves R); [done| |].
    - intros s s' r'. apply Hsec. by left.
    - intros [] s s' r'. apply (bind_preserves R); [done| |].
      + intros s1 s2 r2. apply Hsec. by right.
      + intros [] s1 s2 r2 Hf.
        apply features_block_keeps in Hf as [Hk Ho].
        split; [done|]. split; [|by destruct Ho].
        eapply only_group_same_elsewhere; [|done]. auto. }
  destruct HR as (Hk & He & Ha). split; [|split].
  - by eapply keeps_entries_trans.
  - by eapply same_elsewhere_trans.
  - congruence.
Qed.

(** X6: whether the copy returns or raises, the root attributes of the
    destination are afterwards those of the source, and those it had
    itself under names that the source does not use. *)
Theorem rtdc_copy_root_attrs (src_h5file : h5file) (features : features_t)
    (include_logs include_tables : bool) (meta_prefix : string)
    (dst_h5file st : h5file) (r : result unit) :
  rtdc_copy src_h5file features include_logs include_tables meta_prefix dst_h5file
    = (st, r) ->
  forall akey,
    file_attrs st !! akey =
    match file_attrs src_h5file !! akey with
    | Some v => Some v
    | None => file_attrs dst_h5file !! akey
    end.
Proof.
  intros H akey. apply rtdc_copy_any in H as (_ & _ & ->).
  apply copy_attrs_lookup.
Qed.

(** X7: whether the copy returns or raises, every entry that the
    destination had, in whatever group, is still there unchanged, and
    the groups other than [logs], [tables] and [events] are as they
    were: the copy adds, it does not replace or remove. *)
Theorem rtdc_copy_keeps_entries (src_h5file : h5file) (features : features_t)
    (include_logs include_tables : bool) (meta_prefix : string)
    (dst_h5file st : h5file) (r : result unit) :
  rtdc_copy src_h5file features include_logs include_tables meta_prefix dst_h5file
    = (st, r) ->
  (forall G n o, entry G n dst_h5file = Some o -> entry G n st = Some o) /\
  (forall G, G <> "logs" -> G <> "tables" -> G <> "events" ->
             assoc G (groups st) = assoc G (groups dst_h5file)).
Proof.
  intros H. apply rtdc_copy_any in H as (Hk & He & _). done.
Qed.

(** X8: nothing is rolled back. When the copy of the metadata, the logs
    and the tables alone returns, the whole copy, whether its [events]
    block returns or raises, leaves the root attributes and every group
    but [events] as that copy leaves them, and keeps every entry of it. *)
Theorem rtdc_copy_no_rollback (src_h5file : h5file) (features : features_t)
    (include_logs include_tables : bool) (meta_prefix : string)
    (dst_h5file st1 st : h5file) (r : result unit) :
  rtdc_copy src_h5file none include_logs include_tables meta_prefix dst_h5file
    = (st1, Ok tt) ->
  rtdc_copy src_h5file features include_logs include_tables meta_prefix dst_h5file
    = (st, r) ->
  file_attrs st = file_attrs st1 /\
  (forall G, G <> "events" -> assoc G (groups st) = assoc G (groups st1)) /\
  (forall G n o, entry G n st1 = Some o -> entry G n st = Some o).
Proof.
  intros H1 H.
  apply rtdc_copy_Ok_inv in H1 as (s0 & s1 & s2 & H0 & Hl & Ht & Hf).
  apply features_block_none in Hf as [-> _].
  rewrite rtdc_copy_blocks in H.
  rewrite (bind_Ok _ _ _ _ _ H0) in H. rewrite (bind_Ok _ _ _ _ _ Hl) in H.
  rewrite (bind_Ok _ _ _ _ _ Ht) in H.
  apply features_block_keeps in H as [Hk [Ha Hg]]. done.
Qed.

Lemma copied_compressed (src dst : dataset) :
  copied true src dst -> is_properly_compressed dst = Ok true.
Proof.
  intros [[[?|Hipc] ->]|(_ & _ & Hr)]; [done|done|].
  destruct Hr as (_ & _ & _ & Hf & _).
  unfold is_properly_compressed, get_filter_by_id. by rewrite Hf.
Qed.

(** X9: after a copy that returns, every dataset that it has copied, from
    [logs], [tables] and [events], is properly compressed in the
    destination, whatever the filters of the source were. *)
Theorem rtdc_copy_compressed (src_h5file : h5file) (features : features_t)
    (include_logs include_tables : bool) (meta_prefix : string)
    (dst_h5file dst' : h5file) :
  rtdc_copy src_h5file features include_logs include_tables meta_prefix dst_h5file
    = (dst', Ok tt) ->
  (forall G src_loc key o,
     (G = "logs" /\ include_logs = true) \/
     (G = "tables" /\ include_tables = true) ->
     assoc G (groups src_h5file) = Some src_loc ->
     assoc key (members src_loc) = Some o ->
     exists d',
       entry G (String.append meta_prefix key) dst' = Some (Dataset d') /\
       is_properly_compressed d' = Ok true) /\
  (forall src_events feat o,
     features <> none ->
     assoc "events" (groups src_h5file) = Some src_events ->
     assoc feat (members src_events) = Some o ->
     feature_exists feat (features_eqb features scalar) = true ->
     exists d',
       entry "events" feat dst' = Some (Dataset d') /\
       is_properly_compressed d' = Ok true).
Proof.
  intros H.
  apply rtdc_copy_Ok_inv in H as (s0 & s1 & s2 & _ & Hl & Ht & Hf).
  apply section_block_Ok in Hl as (_ & _ & Hl).
  apply section_block_Ok in Ht as (Hto & _ & Ht).
  apply features_block_Ok in Hf as (Hfo & _ & _ & Hf).
  split.
  - intros G src_loc key o HG Hg Hkey. destruct HG as [[-> ->]|[-> ->]].
    + destruct (Hl eq_refl _ _ _ Hg Hkey) as (d & d' & _ & He & Hc).
      exists d'. split; [|by eapply copied_compressed].
      rewrite (only_group_entry _ _ _ _ _ Hfo) by done.
      by rewrite (only_group_entry _ _ _ _ _ Hto).
    + destruct (Ht eq_refl _ _ _ Hg Hkey) as (d & d' & _ & He & Hc).
      exists d'. split; [|by eapply copied_compressed].
      by rewrite (only_group_entry _ _ _ _ _ Hfo).
  - intros src_events feat o Hn Hg Hfeat Hfe.
    destruct (Hf Hn) as (g & Hg' & Hall). rewrite Hg in Hg'.
    injection Hg' as <-.
    destruct (Hall _ _ Hfeat) as [Hyes _].
    destruct (Hyes Hfe) as (d & d' & d'' & _ & Hc & Hst & He).
    exists d''. split; [done|].
    apply copied_compressed in Hc.
    destruct (scalar_feature_exists feat); [|by subst].
    apply for_each_complement_frame in Hst as (_ & _ & _ & Hfil & _).
    unfold is_properly_compressed, get_filter_by_id in *. by rewrite Hfil.
Qed.

(** ** More on the statistics *)

Lemma nanmin_nonempty (a : list np.float64) :
  a <> [] -> exists v, np.nanmin a = Ok v.
Proof.
  destruct a as [|x a]; [done|]. intros _. unfold np.nanmin. simpl.
  destruct (np.isnan x && forallb np.isnan a); by eexists.
Qed.

Lemma nanmax_nonempty (a : list np.float64) :
  a <> [] -> exists v, np.nanmax a = Ok v.
Proof.
  destruct a as [|x a]; [done|]. intros _. unfold np.nanmax. simpl.
  destruct (np.isnan x && forallb np.isnan a); by eexists.
Qed.

Lemma complement_one_returns ua (d : dataset) (a : list np.float64) :
  asarray (data d) = Ok a ->
  (exists v, ua.1 a = Ok v) ->
  exists d', complement_one ua d = (d', Ok tt).
Proof.
  intros Ha [v Hv]. rewrite complement_one_cases, Ha, Hv.
  destruct (attrs d !! ua.2); by eexists.
Qed.

Lemma for_each_complement_returns (l : list _) (d : dataset)
    (a : list np.float64) :
  asarray (data d) = Ok a ->
  (forall ua, ua ∈ l -> exists v, ua.1 a = Ok v) ->
  exists d', for_each l complement_one d = (d', Ok tt).
Proof.
  revert d. induction l as [|ua l IH]; intros d Ha Hl; simpl.
  - by eexists.
  - destruct (complement_one_returns ua d a Ha) as [d1 H1];
      [apply Hl, list_elem_of_here|].
    rewrite (bind_Ok _ _ _ _ _ H1).
    apply IH.
    + apply complement_one_Ok in H1 as (_ & -> & _). done.
    + intros ub Hub. by apply Hl, list_elem_of_further.
Qed.

(** X10: on an array of numbers that is not empty the statistics are
    complemented without an error, all of [min], [max] and [mean] are
    present afterwards and the elements are as before. On an empty
    array of numbers that lacks [min] or [max] the reduction raises and
    no attribute is attached. *)
Theorem complement_stats_returns (d : dataset) (a : list np.float64) :
  asarray (data d) = Ok a ->
  (a <> [] ->
   exists d',
     complement_stats d = (d', Ok tt) /\ data d' = data d /\
     is_Some (attrs d' !! "min") /\ is_Some (attrs d' !! "max") /\
     is_Some (attrs d' !! "mean")) /\
  (a = [] -> attrs d !! "min" = None \/ attrs d !! "max" = None ->
   complement_stats d = (d, Err EmptyReduction)).
Proof.
  intros Ha. split.
  - intros Hne.
    destruct (for_each_complement_returns ufuncs d a Ha) as [d' Hd'].
    { intros ua Hua. unfold ufuncs in Hua.
      rewrite !elem_of_cons, elem_of_nil in Hua.
      destruct Hua as [->|[->|[->|[]]]]; simpl.
      - by apply nanmin_nonempty.
      - by apply nanmax_nonempty.
      - apply nanmean_Ok. }
    exists d'. split; [done|].
    apply for_each_complement_Ok in Hd' as (Hall & _ & Hdata).
    split; [done|].
    split; [apply (Hall (np.nanmin, "min")), list_elem_of_here|].
    split; [apply (Hall (np.nanmax, "max")),
              list_elem_of_further, list_elem_of_here|].
    apply (Hall (np.nanmean, "mean")).
    do 2 apply list_elem_of_further. apply list_elem_of_here.
  - intros -> Hmiss. unfold complement_stats, ufuncs. cbn [for_each].
    unfold bind. rewrite (complement_one_cases (np.nanmin, "min")). simpl.
    destruct (attrs d !! "min") as [x|] eqn:Hmin.
    + destruct Hmiss as [?|Hmax]; [done|].
      rewrite (complement_one_cases (np.nanmax, "max")). simpl.
      by rewrite Hmax, Ha.
    + by rewrite Ha.
Qed.

Lemma fold_left_add_closed (P : np.float64 -> Prop) (a : list np.float64)
    (acc : np.float64) :
  (forall x y, P x -> P y -> P (np.add x y)) ->
  P acc -> Forall P a -> P (fold_left np.add a acc).
Proof.
  intros Hadd. revert acc. induction a as [|x a IH]; intros acc Hacc Ha; simpl.
  - done.
  - inversion Ha; subst. apply IH; [by apply Hadd|done].
Qed.

Lemma zip_with_add_closed (P : np.float64 -> Prop) (l k : list np.float64) :
  (forall x y, P x -> P y -> P (np.add x y)) ->
  Forall P l -> Forall P k -> Forall P (zip_with np.add l k).
Proof.
  intros Hadd Hl. revert k. induction Hl as [|x l Hx Hl IH]; intros k Hk; simpl.
  - constructor.
  - destruct Hk as [|y k Hy Hk]; constructor; [by apply Hadd|by apply IH].
Qed.

Lemma add_blocks_closed (P : np.float64 -> Prop) (n : nat) (r a : list np.float64) :
  (forall x y, P x -> P y -> P (np.add x y)) ->
  Forall P r -> Forall P a ->
  Forall P (np.add_blocks n r a).1 /\ Forall P (np.add_blocks n r a).2.
Proof.
  intros Hadd. revert r a. induction n as [|n IH]; intros r a Hr Ha; simpl.
  - done.
  - apply IH; [|by apply Forall_drop].
    apply zip_with_add_closed; [done..|by apply Forall_take].
Qed.

Lemma sum8_closed (P : np.float64 -> Prop) (r : list np.float64) :
  P np.zero -> (forall x y, P x -> P y -> P (np.add x y)) ->
  Forall P r -> P (np.sum8 r).
Proof.
  intros Hz Hadd Hr. unfold np.sum8.
  repeat (destruct Hr as [|? r ? Hr]; [done|]).
  destruct Hr; [|done]. auto 10.
Qed.

(** The sum stays within anything that holds the zero and is closed
    under addition. *)
Lemma pairwise_sum_closed (P : np.float64 -> Prop) (fuel : nat)
    (a : list np.float64) :
  P np.zero -> (forall x y, P x -> P y -> P (np.add x y)) ->
  Forall P a -> P (np.pairwise_sum fuel a).
Proof.
  intros Hz Hadd. revert a. induction fuel as [|fuel IH]; intros a Ha;
    cbn [np.pairwise_sum];
    (destruct (length a <? 8); [by apply fold_left_add_closed|]);
    (destruct (length a <=? 128);
     [destruct (add_blocks_closed P (length a / 8 - 1) (take 8 a) (drop 8 a))
        as [Hr Hrest]; [done|by apply Forall_take|by apply Forall_drop|];
      destruct (np.add_blocks _ _ _) as [r rest]; simpl in *;
      apply fold_left_add_closed; [done|by apply sum8_closed|done]|]).
  - done.
  - apply Hadd; apply IH; [by apply Forall_take|by apply Forall_drop].
Qed.

Lemma replace_nan_all_nan (val : np.float64) (a : list np.float64) :
  forallb np.isnan a = true -> Forall (fun x => x = val) (np.replace_nan val a).
Proof.
  induction a as [|x a IH]; simpl; [constructor|].
  intros H. apply andb_true_iff in H as [Hx Ha]. rewrite Hx.
  constructor; [done|by apply IH].
Qed.

Lemma filter_notnan_all_nan (a : list np.float64) :
  forallb np.isnan a = true -> List.filter np.notnan a = [].
Proof.
  induction a as [|x a IH]; simpl; [done|].
  intros H. apply andb_true_iff in H as [Hx Ha]. unfold np.notnan at 1.
  rewrite Hx. simpl. by apply IH.
Qed.

(** The reductions on an array without a number. An array of NaN only
    that is not empty has the minimum, the maximum and the mean NaN,
    without an error; the empty array has the mean NaN, and its minimum
    and maximum raise. *)
Lemma nan_reductions_without_numbers :
  (forall a : list np.float64,
     a <> [] -> forallb np.isnan a = true ->
     np.nanmin a = Ok np.nan /\ np.nanmax a = Ok np.nan /\
     np.nanmean a = Ok np.nan) /\
  np.nanmin [] = Err EmptyReduction /\ np.nanmax [] = Err EmptyReduction /\
  np.nanmean [] = Ok np.nan.
Proof.
  split; [|by vm_compute].
  intros a Hne Hall. split; [|split].
  - unfold np.nanmin. rewrite Hall. by destruct a.
  - unfold np.nanmax. rewrite Hall. by destruct a.
  - unfold np.nanmean, np.count_nonnan.
    rewrite (filter_notnan_all_nan a Hall). simpl.
    assert (Hsum : np.sum (np.replace_nan np.zero a) = np.zero).
    { unfold np.sum.
      rewrite (pairwise_sum_closed (fun x => x = np.zero)); [done|done| |].
      - by intros x y -> ->.
      - by apply replace_nan_all_nan. }
    rewrite Hsum. done.
Qed.

(** X11: a scalar feature that holds NaN only, and at least one, is
    complemented without an error, and each of [min], [max], [mean]
    that it lacked is NaN afterwards. *)
Theorem complement_stats_all_nan (d : dataset) (a : list np.float64) :
  asarray (data d) = Ok a -> a <> [] -> forallb np.isnan a = true ->
  exists d',
    complement_stats d = (d', Ok tt) /\
    forall ufunc attr, (ufunc, attr) ∈ ufuncs ->
      attrs d !! attr = None -> attrs d' !! attr = Some (AttrFloat np.nan).
Proof.
  intros Ha Hne Hall.
  destruct (proj1 nan_reductions_without_numbers a Hne Hall) as (Hmin & Hmax & Hmean).
  destruct (for_each_complement_returns ufuncs d a Ha) as [d' Hd'].
  { intros ua Hua. unfold ufuncs in Hua.
    rewrite !elem_of_cons, elem_of_nil in Hua.
    destruct Hua as [->|[->|[->|[]]]]; simpl; by eexists. }
  exists d'. split; [done|].
  intros ufunc attr Hin Hnone.
  destruct (complement_stats_Ok d d' Hd') as [_ Hvals].
  destruct (Hvals ufunc attr Hin) as [_ Hnew].
  destruct (Hnew Hnone) as (a0 & v & Ha0 & Hv & Hattr).
  rewrite Ha in Ha0. injection Ha0 as <-.
  unfold ufuncs in Hin. rewrite !elem_of_cons, elem_of_nil in Hin.
  destruct Hin as [Heq|[Heq|[Heq|[]]]]; injection Heq as -> ->; congruence.
Qed.

(** ** More on the compression check and on chunks *)

(** X12: only the Zstandard entry of the filter pipeline counts, wherever
    it stands in the pipeline: its first client value is compared with
    5, and an entry without client values makes the check raise rather
    than answer. *)
Theorem is_properly_compressed_pipeline (h5obj : dataset)
    (fs1 fs2 : list h5filter) (f : h5filter) :
  filters h5obj = fs1 ++ f :: fs2 ->
  filter_id f = zstd_id ->
  (forall g, In g fs1 -> filter_id g <> zstd_id) ->
  is_properly_compressed h5obj =
  match cd_values f with
  | clevel :: _ => Ok (5 <=? clevel)%Z
  | [] => Err IndexError
  end.
Proof.
  intros Hf Hid Hfs1.
  unfold is_properly_compressed, get_filter_by_id. rewrite Hf.
  change 32015%Z with zstd_id.
  assert (Hfind : find (fun f0 => (filter_id f0 =? zstd_id)%Z) (fs1 ++ f :: fs2)
                  = Some f).
  { clear Hf. induction fs1 as [|g fs1 IH]; simpl.
    - by rewrite Hid, Z.eqb_refl.
    - destruct (filter_id g =? zstd_id)%Z eqn:Hg.
      + apply Z.eqb_eq in Hg. destruct (Hfs1 g); [by left|done].
      + apply IH. intros g' Hg'. apply Hfs1. by right. }
  rewrite Hfind. by destruct (cd_values f).
Qed.

(** X13: the chunk shape that is planned has the first axis cut down to
    [shape[0]] and the other axes as they are, planning it again changes
    nothing, and the store accepts it whenever the array is not empty
    along its first axis and the other axes of the source chunk shape
    were acceptable: a first axis that is too large is no obstacle to
    the copy. *)
Theorem plan_chunks_accepted (s0 : nat) (ss : list nat) (c0 : nat) (cs : list nat) :
  plan_chunks (s0 :: ss) (Some (c0 :: cs)) = Ok (Some (Nat.min c0 s0 :: cs)) /\
  plan_chunks (s0 :: ss) (Some (Nat.min c0 s0 :: cs)) =
    Ok (Some (Nat.min c0 s0 :: cs)) /\
  (0 < c0 -> 0 < s0 -> valid_chunks ss cs = true ->
   valid_chunks (s0 :: ss) (Nat.min c0 s0 :: cs) = true).
Proof.
  split; [|split].
  - simpl. destruct (s0 <? c0) eqn:H.
    + apply Nat.ltb_lt in H. by rewrite Nat.min_r by lia.
    + apply Nat.ltb_ge in H. by rewrite Nat.min_l by lia.
  - simpl. assert (H : (s0 <? Nat.min c0 s0) = false) by (apply Nat.ltb_ge; lia).
    by rewrite H.
  - intros Hc Hs Hv. unfold valid_chunks in *. simpl.
    apply andb_true_iff in Hv as [Hlen Hall].
    apply andb_true_iff. split; [done|]. simpl.
    apply andb_true_iff. split; [|done].
    apply andb_true_iff. split; [apply Nat.ltb_lt|apply Nat.leb_le]; lia.
Qed.






(** ** More on [rtdc_copy]: names that are taken *)

Lemma for_each_copy_entry_free (G : string) (g : h5group) (p : string)
    (ks : list string) (s s' : h5file) :
  for_each ks (copy_entry G g p) s = (s', Ok tt) ->
  forall k, k ∈ ks -> entry G (String.append p k) s = None.
Proof.
  revert s. induction ks as [|k0 ks IH]; intros s H k Hk.
  { by apply not_elem_of_nil in Hk. }
  simpl in H. apply bind_Ok_inv in H as (s1 & [] & H0 & H).
  apply elem_of_cons in Hk as [->|Hk].
  - by apply copy_entry_Ok in H0 as (_ & _ & _ & _ & Hfree & _).
  - specialize (IH _ H k Hk).
    destruct (entry G (String.append p k) s) as [o|] eqn:Ho; [|done].
    apply (copy_entry_keeps _ _ _ _ _ _ _ H0) in Ho. congruence.
Qed.

Lemma for_each_copy_feature_free (g : h5group) (so : bool)
    (ks : list string) (s s' : h5file) :
  for_each ks (copy_feature g so) s = (s', Ok tt) ->
  forall k, k ∈ ks -> feature_exists k so = true -> entry "events" k s = None.
Proof.
  revert s. induction ks as [|k0 ks IH]; intros s H k Hk Hfe.
  { by apply not_elem_of_nil in Hk. }
  simpl in H. apply bind_Ok_inv in H as (s1 & [] & H0 & H).
  apply elem_of_cons in Hk as [->|Hk].
  - apply copy_feature_Ok in H0 as [_ H0].
    by destruct (H0 Hfe) as (_ & _ & _ & _ & Hfree & _).
  - specialize (IH _ H k Hk Hfe).
    destruct (entry "events" k s) as [o|] eqn:Ho; [|done].
    apply (copy_feature_keeps _ _ _ _ _ _ H0) in Ho. congruence.
Qed.

Lemma section_block_free (G : string) (src : h5file) (p : string)
    (st st' : h5file) (src_loc : h5group) (k : string) (o : h5obj) :
  section_block G true src p st = (st', Ok tt) ->
  assoc G (groups src) = Some src_loc ->
  assoc k (members src_loc) = Some o ->
  entry G (String.append p k) st = None.
Proof.
  unfold section_block. intros H Hg Hk.
  assert (Hc : contains G (groups src) = true) by (apply contains_true; by eexists).
  rewrite Hc in H. simpl in H.
  apply bind_Ok_inv in H as (s1 & [] & Hreq & H).
  destruct (require_group_cases G st) as (s1' & Hreq' & _ & He1 & _).
  rewrite Hreq' in Hreq. inversion Hreq; subst s1'; clear Hreq Hreq'.
  apply bind_Ok_inv in H as (s2 & g & Hget & H).
  unfold lift, getgroup in Hget. rewrite Hg in Hget.
  inversion Hget; subst s2 g; clear Hget.
  rewrite <- He1. eapply for_each_copy_entry_free; [done|].
  by eapply assoc_Some_keys.
Qed.

(** X15: the copy does not write under a name that is taken. It returns
    only if, in the destination it was given, the name
    [meta_prefix + key] was free in [logs] and [tables] for every entry
    it copies from them, and the name of every feature it copies was
    free in [events]; with one of them taken it raises. *)
Theorem rtdc_copy_free_names (src_h5file : h5file) (features : features_t)
    (include_logs include_tables : bool) (meta_prefix : string)
    (dst_h5file dst' : h5file) :
  rtdc_copy src_h5file features include_logs include_tables meta_prefix dst_h5file
    = (dst', Ok tt) ->
  (forall G src_loc key o,
     (G = "logs" /\ include_logs = true) \/
     (G = "tables" /\ include_tables = true) ->
     assoc G (groups src_h5file) = Some src_loc ->
     assoc key (members src_loc) = Some o ->
     entry G (String.append meta_prefix key) dst_h5file = None) /\
  (forall src_events feat o,
     features <> none ->
     assoc "events" (groups src_h5file) = Some src_events ->
     assoc feat (members src_events) = Some o ->
     feature_exists feat (features_eqb features scalar) = true ->
     entry "events" feat dst_h5file = None).
Proof.
  intros H.
  apply rtdc_copy_Ok_inv in H as (s0 & s1 & s2 & H0 & Hl & Ht & Hf).
  apply metadata_block_entry in H0 as (_ & Hg0 & _).
  assert (He0 : forall G n, entry G n s0 = entry G n dst_h5file).
  { intros G n. unfold entry. by rewrite Hg0. }
  pose proof (section_block_only_group _ _ _ _ _ _ _ Hl) as Hlo.
  pose proof (section_block_only_group _ _ _ _ _ _ _ Ht) as Hto.
  split.
  - intros G src_loc key o HG Hg Hkey. destruct HG as [[-> ->]|[-> ->]].
    + rewrite <- He0. by eapply section_block_free.
    + rewrite <- He0, <- (only_group_entry _ _ _ _ _ Hlo) by done.
      by eapply section_block_free.
  - intros g feat o Hn Hg Hfeat Hfe.
    rewrite <- He0, <- (only_group_entry _ _ _ _ _ Hlo) by done.
    rewrite <- (only_group_entry _ _ _ _ _ Hto) by done.
    unfold features_block in Hf.
    assert (Hnb : negb (features_eqb features none) = true) by (by destruct features).
    rewrite Hnb in Hf. simpl in Hf.
    apply bind_Ok_inv in Hf as (s3 & [] & Hreq & Hf).
    destruct (require_group_cases "events" s2) as (s3' & Hreq' & _ & He3 & _).
    rewrite Hreq' in Hreq. inversion Hreq; subst s3'; clear Hreq Hreq'.
    apply bind_Ok_inv in Hf as (s4 & g' & Hget & Hf).
    unfold lift, getgroup in Hget. rewrite Hg in Hget.
    inversion Hget; subst s4 g'; clear Hget.
    rewrite <- He3. eapply for_each_copy_feature_free; [done| |done].
    by eapply assoc_Some_keys.
Qed.

(** ** More on [rtdc_copy]: when it returns *)

Lemma append_inj (p k1 k2 : string) :
  String.append p k1 = String.append p k2 -> k1 = k2.
Proof. induction p as [|c p IH]; simpl; [done|]. intros [= H]. by apply IH. Qed.

Lemma on_group_Ok {A} (G : string) (m : M h5group A) (st : h5file)
    (g g' : h5group) (a : A) :
  assoc G (groups st) = Some g -> m g = (g', Ok a) ->
  on_group G m st = (set_groups (assoc_set G g' (groups st)) st, Ok a).
Proof. intros Hg Hm. unfold on_group. by rewrite Hg, Hm. Qed.

Lemma copy_entry_returns (G : string) (src_loc : h5group) (p k : string)
    (st : h5file) (d : dataset) :
  assoc k (members src_loc) = Some (Dataset d) ->
  is_properly_compressed d = Ok true ->
  is_Some (assoc G (groups st)) ->
  entry G (String.append p k) st = None ->
  exists st', copy_entry G src_loc p k st = (st', Ok tt).
Proof.
  intros Hk Hipc [g Hg] Hfree. unfold entry in Hfree. rewrite Hg in Hfree.
  unfold copy_entry.
  rewrite (bind_Ok _ _ _ _ _
             (on_group_Ok G _ st g _ _ Hg
                (h5ds_copy_verbatim src_loc k _ true g d Hk (or_intror Hipc)
                   ltac:(by rewrite or_name_append)))).
  by eexists.
Qed.

Lemma for_each_copy_entry_returns (G : string) (g : h5group) (p : string)
    (ks : list string) (s : h5file) :
  NoDup ks ->
  (forall k, k ∈ ks ->
     exists d, assoc k (members g) = Some (Dataset d) /\
               is_properly_compressed d = Ok true) ->
  is_Some (assoc G (groups s)) ->
  (forall k, k ∈ ks -> entry G (String.append p k) s = None) ->
  exists s', for_each ks (copy_entry G g p) s = (s', Ok tt).
Proof.
  revert s. induction ks as [|k0 ks IH]; intros s Hnd Hks Hs Hfree; simpl.
  { by eexists. }
  apply NoDup_cons in Hnd as [Hk0 Hnd].
  destruct (Hks k0) as (d & Hd & Hipc); [apply list_elem_of_here|].
  destruct (copy_entry_returns G g p k0 s d) as [s1 H1];
    [done|done|done|apply Hfree, list_elem_of_here|].
  rewrite (bind_Ok _ _ _ _ _ H1).
  apply copy_entry_Ok in H1 as [(_ & Hsome & _ & Hother) _].
  apply IH; [done| |by apply Hsome|].
  - intros k Hk. by apply Hks, list_elem_of_further.
  - intros k Hk. rewrite Hother; [by apply Hfree, list_elem_of_further|].
    intros Hin. apply list_elem_of_singleton in Hin.
    apply append_inj in Hin as ->. done.
Qed.

Lemma copy_feature_returns (src_events : h5group) (so : bool) (feat : string)
    (st : h5file) :
  (feature_exists feat so = true ->
   exists d, assoc feat (members src_events) = Some (Dataset d) /\
     is_properly_compressed d = Ok true /\
     (scalar_feature_exists feat = true ->
      exists a, asarray (data d) = Ok a /\ a <> [])) ->
  is_Some (assoc "events" (groups st)) ->
  (feature_exists feat so = true -> entry "events" feat st = None) ->
  exists st', copy_feature src_events so feat st = (st', Ok tt).
Proof.
  intros Hd [g Hg] Hfree. unfold copy_feature.
  destruct (feature_exists feat so); simpl; [|by eexists].
  destruct (Hd eq_refl) as (d & Hfeat & Hipc & Hnum).
  specialize (Hfree eq_refl). unfold entry in Hfree. rewrite Hg in Hfree.
  rewrite (bind_Ok _ _ _ _ _
             (on_group_Ok "events" _ st g _ _ Hg
                (h5ds_copy_verbatim src_events feat None true g d Hfeat
                   (or_intror Hipc) Hfree))).
  simpl. destruct (scalar_feature_exists feat); simpl; [|by eexists].
  destruct (Hnum eq_refl) as (a & Ha & Hne).
  destruct (for_each_complement_returns ufuncs d a Ha) as [d' Hd'].
  { intros ua Hua. unfold ufuncs in Hua.
    rewrite !elem_of_cons, elem_of_nil in Hua.
    destruct Hua as [->|[->|[->|[]]]]; simpl.
    - by apply nanmin_nonempty.
    - by apply nanmax_nonempty.
    - apply nanmean_Ok. }
  unfold on_group. simpl. rewrite assoc_set_eq.
  unfold on_dataset. simpl. rewrite assoc_app, Hfree. simpl.
  rewrite decide_True by done. fold complement_stats.
  change (for_each ufuncs complement_one d) with (complement_stats d) in Hd'.
  rewrite Hd'. by eexists.
Qed.

Lemma for_each_copy_feature_returns (g : h5group) (so : bool)
    (ks : list string) (s : h5file) :
  NoDup ks ->
  (forall k, k ∈ ks -> feature_exists k so = true ->
     exists d, assoc k (members g) = Some (Dataset d) /\
       is_properly_compressed d = Ok true /\
       (scalar_feature_exists k = true ->
        exists a, asarray (data d) = Ok a /\ a <> [])) ->
  is_Some (assoc "events" (groups s)) ->
  (forall k, k ∈ ks -> feature_exists k so = true -> entry "events" k s = None) ->
  exists s', for_each ks (copy_feature g so) s = (s', Ok tt).
Proof.
  revert s. induction ks as [|k0 ks IH]; intros s Hnd Hks Hs Hfree; simpl.
  { by eexists. }
  apply NoDup_cons in Hnd as [Hk0 Hnd].
  destruct (copy_feature_returns g so k0 s) as [s1 H1];
    [apply Hks, list_elem_of_here|done|apply Hfree, list_elem_of_here|].
  rewrite (bind_Ok _ _ _ _ _ H1).
  apply copy_feature_Ok in H1 as [(_ & Hsome & _ & Hother) _].
  apply IH; [done| |by apply Hsome|].
  - intros k Hk. by apply Hks, list_elem_of_further.
  - intros k Hk Hfe. rewrite Hother; [by apply Hfree; [apply list_elem_of_further|]|].
    intros Hin. destruct (feature_exists k0 so); [|by apply not_elem_of_nil in Hin].
    apply list_elem_of_singleton in Hin as ->. done.
Qed.

Lemma keys_assoc_Some {V} (l : list (string * V)) (k : string) :
  k ∈ keys l -> is_Some (assoc k l).
Proof.
  intros Hk. destruct (assoc k l) eqn:E; [by eexists|].
  by apply assoc_None_keys in E.
Qed.

Lemma section_block_returns (G : string) (inc : bool) (src : h5file) (p : string)
    (st : h5file) :
  (inc = true -> forall g, assoc G (groups src) = Some g ->
     well_kept g /\
     forall k, k ∈ keys (members g) -> entry G (String.append p k) st = None) ->
  exists st', section_block G inc src p st = (st', Ok tt).
Proof.
  intros Hsrc. unfold section_block.
  destruct (inc && contains G (groups src)) eqn:Hc; simpl; [|by eexists].
  apply andb_true_iff in Hc as [-> Hc].
  apply contains_true in Hc as [g Hg].
  destruct (Hsrc eq_refl g Hg) as ((Hnd & Hds) & Hfree).
  destruct (require_group_cases G st) as (s1 & Hreq & _ & He1 & Hs1).
  rewrite (bind_Ok _ _ _ _ _ Hreq).
  unfold lift, getgroup. rewrite Hg.
  unfold bind at 1.
  apply for_each_copy_entry_returns; [done| |done|].
  - intros k Hk. apply keys_assoc_Some in Hk as [o Ho].
    destruct (Hds k o Ho) as (d & -> & Hipc). by exists d.
  - intros k Hk. rewrite He1. by apply Hfree.
Qed.

Lemma features_block_returns (src : h5file) (features : features_t) (st : h5file) :
  (features <> none ->
   exists g, assoc "events" (groups src) = Some g /\
     well_kept g /\
     forall k d, assoc k (members g) = Some (Dataset d) ->
       feature_exists k (features_eqb features scalar) = true ->
       entry "events" k st = None /\
       (scalar_feature_exists k = true ->
        exists a, asarray (data d) = Ok a /\ a <> [])) ->
  exists st', features_block src features st = (st', Ok tt).
Proof.
  intros Hsrc. unfold features_block.
  destruct (negb (features_eqb features none)) eqn:Hc; simpl; [|by eexists].
  destruct Hsrc as (g & Hg & (Hnd & Hds) & Hfeat); [by destruct features|].
  destruct (require_group_cases "events" st) as (s1 & Hreq & _ & He1 & Hs1).
  rewrite (bind_Ok _ _ _ _ _ Hreq).
  unfold getgroup. rewrite Hg. unfold bind at 1, lift at 1.
  apply for_each_copy_feature_returns; [done| |done|].
  - intros k Hk Hfe. apply keys_assoc_Some in Hk as [o Ho].
    destruct (Hds k o Ho) as (d & -> & Hipc). exists d.
    split; [done|]. split; [done|]. by apply (Hfeat k d).
  - intros k Hk Hfe. rewrite He1. apply keys_assoc_Some in Hk as [o Ho].
    destruct (Hds k o Ho) as (d & -> & Hipc). by apply (Hfeat k d).
Qed.

(** X16: when the copy returns. Let the groups [logs], [tables] and
    [events] of the source, as far as they are copied, hold under
    distinct names nothing but datasets that are properly compressed,
    let every scalar feature that is copied hold an array of numbers
    that is not empty, and let the names that the copy writes be free in
    the destination. Then the copy returns. *)
Theorem rtdc_copy_returns (src_h5file : h5file) (features : features_t)
    (include_logs include_tables : bool) (meta_prefix : string)
    (dst_h5file : h5file) :
  (forall G src_loc,
     (G = "logs" /\ include_logs = true) \/
     (G = "tables" /\ include_tables = true) ->
     assoc G (groups src_h5file) = Some src_loc ->
     well_kept src_loc /\
     forall key, key ∈ keys (members src_loc) ->
       entry G (String.append meta_prefix key) dst_h5file = None) ->
  (features <> none ->
   exists src_events,
     assoc "events" (groups src_h5file) = Some src_events /\
     well_kept src_events /\
     forall feat d,
       assoc feat (members src_events) = Some (Dataset d) ->
       feature_exists feat (features_eqb features scalar) = true ->
       entry "events" feat dst_h5file = None /\
       (scalar_feature_exists feat = true ->
        exists a, asarray (data d) = Ok a /\ a <> [])) ->
  exists dst',
    rtdc_copy src_h5file features include_logs include_tables meta_prefix
      dst_h5file = (dst', Ok tt).
Proof.
  intros Hmeta Hev. rewrite rtdc_copy_blocks.
  destruct (metadata_block src_h5file dst_h5file) as [s0 r0] eqn:H0.
  pose proof (metadata_block_entry _ _ _ _ H0) as (-> & Hg0 & _).
  assert (He0 : forall G n, entry G n s0 = entry G n dst_h5file).
  { intros G n. unfold entry. by rewrite Hg0. }
  rewrite (bind_Ok _ _ _ _ _ H0).
  destruct (section_block_returns "logs" include_logs src_h5file meta_prefix s0)
    as [s1 Hl].
  { intros -> g Hg. destruct (Hmeta "logs" g) as [Hwk Hfree]; [by left|done|].
    split; [done|]. intros k Hk. rewrite He0. by apply Hfree. }
  rewrite (bind_Ok _ _ _ _ _ Hl).
  pose proof (section_block_only_group _ _ _ _ _ _ _ Hl) as Hlo.
  destruct (section_block_returns "tables" include_tables src_h5file meta_prefix s1)
    as [s2 Ht].
  { intros -> g Hg. destruct (Hmeta "tables" g) as [Hwk Hfree]; [by right|done|].
    split; [done|]. intros k Hk.
    rewrite (only_group_entry _ _ _ _ _ Hlo), He0 by done. by apply Hfree. }
  rewrite (bind_Ok _ _ _ _ _ Ht).
  pose proof (section_block_only_group _ _ _ _ _ _ _ Ht) as Hto.
  apply features_block_returns. intros Hn.
  destruct (Hev Hn) as (g & Hg & Hwk & Hfeat). exists g.
  split; [done|]. split; [done|]. intros k d Hk Hfe.
  rewrite (only_group_entry _ _ _ _ _ Hto) by done.
  rewrite (only_group_entry _ _ _ _ _ Hlo), He0 by done.
  by apply Hfeat.
Qed.

End Copier.

(** ** The copier at work

    The statements above applied to the files at the head of this
    development, with [store_chunks] for the store and [known_feature]
    for the registry of features. *)

Abbreviation run_copy := (rtdc_copy store_chunks known_feature known_scalar_feature).
Abbreviation run_h5ds_copy := (h5ds_copy store_chunks).

(** C1, on [example_file]: [deform] is copied and its elements are those
    of the source. *)
Lemma rtdc_copy_stats_witness :
  run_copy example_file all true true "exp1_" empty_file =
    ((run_copy example_file all true true "exp1_" empty_file).1, Ok tt) /\
  exists dst : dataset,
    entry "events" "deform"
          (run_copy example_file all true true "exp1_" empty_file).1
      = Some (Dataset dst) /\
    data dst = data deform_ds.
Proof.
  split; [by vm_compute|].
  edestruct (proj1 (rtdc_copy_stats store_chunks known_feature known_scalar_feature)
               example_file all true true "exp1_" empty_file
               (run_copy example_file all true true "exp1_" empty_file).1
               example_events "deform" deform_ds)
    as (dst & He & Hd & _).
  - by vm_compute.
  - done.
  - reflexivity.
  - reflexivity.
  - reflexivity.
  - reflexivity.
  - exists dst. split; [exact He|]. apply Hd. reflexivity.
Defined.

(** C1, the array [[1.0, NaN, 3.0, Inf]]: the copy attaches [max = Inf] and
    [mean = Inf] to [[1.0, NaN, 3.0, Inf]], not [3.0] and [2.0]. *)
Lemma rtdc_copy_stats_inf :
  exists (dst' : h5file) (dst : dataset),
    run_copy example_file all true true "" empty_file = (dst', Ok tt) /\
    entry "events" "deform" dst' = Some (Dataset dst) /\
    data dst = map Float [np.of_Z 1; np.nan; np.of_Z 3; np.inf] /\
    attrs dst !! "min" = Some (AttrFloat (np.of_Z 1)) /\
    attrs dst !! "max" = Some (AttrFloat np.inf) /\
    attrs dst !! "mean" = Some (AttrFloat np.inf) /\
    AttrFloat np.inf <> AttrFloat (np.of_Z 3) /\
    AttrFloat np.inf <> AttrFloat (np.of_Z 2).
Proof.
  eexists _, _. split; [by vm_compute|]. split; [by vm_compute|].
  repeat split; by vm_compute.
Qed.

(** C2, on a dataset without filter whose chunks are larger than it:
    the dataset is created anew. *)
Lemma h5ds_copy_chunk_bound_witness :
  run_h5ds_copy plain_events "deform" None true empty_group =
    ((run_h5ds_copy plain_events "deform" None true empty_group).1, Ok "deform") /\
  exists src dst : dataset,
    assoc "deform" (members plain_events) = Some (Dataset src) /\
    assoc "deform"
          (members (run_h5ds_copy plain_events "deform" None true empty_group).1)
      = Some (Dataset dst).
Proof.
  split; [by vm_compute|].
  destruct (h5ds_copy_chunk_bound store_chunks plain_events "deform" None true
              empty_group
              (run_h5ds_copy plain_events "deform" None true empty_group).1
              "deform")
    as (src & dst & Hsrc & Hdst & _); [by vm_compute|].
  by exists src, dst.
Defined.

(** C2, the branch that copies the dataset as it is: ten elements
    stored with Zstandard at level 5 in chunks of 100 arrive with chunks
    of 100. *)
Lemma h5ds_copy_keeps_source_chunks :
  exists (dst' : h5file) (dst : dataset),
    is_properly_compressed deform_zstd_ds = Ok true /\
    run_h5ds_copy zstd_events "deform" None true empty_group =
      (mk_group ∅ [("deform", Dataset deform_zstd_ds)], Ok "deform") /\
    run_copy zstd_file all true true "" empty_file = (dst', Ok tt) /\
    entry "events" "deform" dst' = Some (Dataset dst) /\
    chunks dst = Some [100] /\ shape dst = [10] /\ ~ (100 <= 10).
Proof.
  eexists _, _. split; [by vm_compute|]. split; [by vm_compute|].
  split; [by vm_compute|]. split; [by vm_compute|].
  split; [by vm_compute|]. split; [by vm_compute|]. lia.
Qed.

(** C3, on [trace_file]: the copy stops at [trace]. *)
Lemma rtdc_copy_not_a_dataset_witness :
  run_copy (with_members "events" [("deform", Dataset deform_zstd_ds)] trace_file)
           all true true "" empty_file =
    ((run_copy (with_members "events" [("deform", Dataset deform_zstd_ds)] trace_file)
               all true true "" empty_file).1, Ok tt) /\
  run_copy trace_file all true true "" empty_file =
    ((run_copy (with_members "events" [("deform", Dataset deform_zstd_ds)] trace_file)
               all true true "" empty_file).1, Err (NotADatasetError "trace")).
Proof.
  split; [by vm_compute|].
  apply (proj2 (proj2
           (proj2 (rtdc_copy_not_a_dataset store_chunks known_feature
                     known_scalar_feature)
              trace_file all true true "" empty_file _ "events" trace_events
              [("deform", Dataset deform_zstd_ds)] [("image", Dataset image_ds)]
              "trace" ∅ [("fl1_raw", Dataset deform_plain_ds)]
              eq_refl eq_refl
              ltac:(intros H; apply list_elem_of_singleton in H; discriminate H)))).
  - reflexivity.
  - discriminate.
  - reflexivity.
  - by vm_compute.
Defined.

(** C4, on a dataset stored with Zstandard at level 5. *)
Lemma is_properly_compressed_spec_witness :
  (5 <= 5)%Z /\ is_properly_compressed deform_zstd_ds = Ok true.
Proof.
  split; [lia|].
  apply (proj2 (proj1 (is_properly_compressed_spec deform_zstd_ds))).
  exists 1%Z, 5%Z, [], "zstd". split; [reflexivity|lia].
Defined.

(** C5, on a dataset without filter. *)
Lemma h5ds_copy_paths_witness :
  run_h5ds_copy plain_events "deform" None true empty_group =
    ((run_h5ds_copy plain_events "deform" None true empty_group).1, Ok "deform") /\
  exists src dst : dataset,
    assoc "deform" (members plain_events) = Some (Dataset src) /\
    assoc "deform"
          (members (run_h5ds_copy plain_events "deform" None true empty_group).1)
      = Some (Dataset dst).
Proof.
  split; [by vm_compute|].
  destruct (h5ds_copy_paths store_chunks plain_events "deform" None true
              empty_group
              (run_h5ds_copy plain_events "deform" None true empty_group).1
              "deform")
    as (src & dst & Hsrc & _ & Hdst & _); [by vm_compute|].
  by exists src, dst.
Defined.

(** C6, a chunk of 100 for an array of 10. *)
Lemma plan_chunks_spec_witness :
  10 < 100 /\ plan_chunks [10] (Some [100]) = Ok (Some [10]).
Proof.
  split; [lia|]. apply (proj1 (proj2 (plan_chunks_spec 10 []))). lia.
Defined.

(** C7, on [example_file] with ['scalar']: [image] is not copied. *)
Lemma rtdc_copy_features_witness :
  scalar <> none /\
  run_copy example_file scalar true true "exp1_" empty_file =
    ((run_copy example_file scalar true true "exp1_" empty_file).1, Ok tt) /\
  entry "events" "image"
        (run_copy example_file scalar true true "exp1_" empty_file).1
    = entry "events" "image" empty_file.
Proof.
  split; [discriminate|]. split; [by vm_compute|].
  destruct (proj1 (proj2 (rtdc_copy_features store_chunks known_feature
                            known_scalar_feature example_file true true "exp1_"
                            empty_file))
              scalar (run_copy example_file scalar true true "exp1_" empty_file).1)
    as (g & Hg & Hall); [discriminate|by vm_compute|].
  change (Some example_events = Some g) in Hg. injection Hg as <-.
  destruct (Hall "image" (Dataset image_ds) eq_refl) as [_ Hno].
  apply Hno. reflexivity.
Defined.

(** C8, on [deform]. *)
Lemma complement_stats_idempotent_witness :
  complement_stats deform_ds = ((complement_stats deform_ds).1, Ok tt) /\
  complement_stats (complement_stats deform_ds).1 =
    ((complement_stats deform_ds).1, Ok tt).
Proof.
  assert (H : complement_stats deform_ds = ((complement_stats deform_ds).1, Ok tt))
    by (by vm_compute).
  split; [exact H|]. exact (complement_stats_idempotent _ _ _ H).
Defined.

(** C9, the log [session] copied with the prefix [exp1_]. *)
Lemma rtdc_copy_prefix_witness :
  run_copy example_file all true true "exp1_" empty_file =
    ((run_copy example_file all true true "exp1_" empty_file).1, Ok tt) /\
  exists d' : dataset,
    entry "logs" "exp1_session"
          (run_copy example_file all true true "exp1_" empty_file).1
      = Some (Dataset d') /\
    data d' = [Text "start"; Text "stop"].
Proof.
  split; [by vm_compute|].
  destruct (rtdc_copy_prefix store_chunks known_feature known_scalar_feature
              example_file all true true "exp1_" empty_file
              (run_copy example_file all true true "exp1_" empty_file).1
              ltac:(by vm_compute)
              "logs" example_logs "session" (Dataset session_ds)
              (or_introl (conj eq_refl eq_refl)) eq_refl eq_refl)
    as (d & d' & Hd & He & _ & _ & _ & Hdata).
  injection Hd as <-. exists d'. split; [exact He|]. apply Hdata. reflexivity.
Defined.

(** C10, on a file without groups. *)
Lemma rtdc_copy_missing_sections_witness :
  assoc "events" (groups attrs_file) = None /\ all <> none /\
  run_copy attrs_file none true true "" empty_file =
    ((run_copy attrs_file none true true "" empty_file).1, Ok tt) /\
  run_copy attrs_file all true true "" empty_file =
    ((require_group "events"
        (run_copy attrs_file none true true "" empty_file).1).1,
     Err (KeyError "events")).
Proof.
  split; [reflexivity|]. split; [discriminate|]. split; [by vm_compute|].
  apply (proj2 (proj1 (rtdc_copy_missing_sections store_chunks known_feature
                         known_scalar_feature attrs_file all true true ""
                         empty_file)
                  eq_refl ltac:(discriminate))).
  by vm_compute.
Defined.

(** ** More of the copier at work *)

(** X1, on [image], which is stored at level 3 and created anew: its
    twelve elements arrive. *)
Lemma h5ds_copy_round_trip_witness :
  run_h5ds_copy example_events "image" None true empty_group =
    ((run_h5ds_copy example_events "image" None true empty_group).1, Ok "image") /\
  exists dst : dataset,
    assoc "image"
          (members (run_h5ds_copy example_events "image" None true empty_group).1)
      = Some (Dataset dst) /\
    shape dst = [2; 2; 3] /\ data dst = data image_ds.
Proof.
  split; [by vm_compute|].
  destruct (h5ds_copy_round_trip store_chunks example_events "image" None true
              empty_group
              (run_h5ds_copy example_events "image" None true empty_group).1
              "image")
    as (src & dst & Hsrc & Hdst & Hshape & _ & _ & Hdata & _); [by vm_compute|].
  change (Some (Dataset image_ds) = Some (Dataset src)) in Hsrc.
  injection Hsrc as <-. exists dst. split; [exact Hdst|].
  split; [exact Hshape|]. apply Hdata. reflexivity.
Defined.

(** X2, a copy onto a name that is taken. *)
Lemma h5ds_copy_raises_clean_witness :
  run_h5ds_copy plain_events "deform" None true zstd_events =
    ((run_h5ds_copy plain_events "deform" None true zstd_events).1,
     Err (NameExists "deform")) /\
  (run_h5ds_copy plain_events "deform" None true zstd_events).1 = zstd_events.
Proof.
  split; [by vm_compute|].
  apply (h5ds_copy_raises_clean store_chunks plain_events "deform" None true
           zstd_events _ (NameExists "deform")).
  by vm_compute.
Defined.

(** X3, with [deform] there already. *)
Lemma h5ds_copy_no_overwrite_witness :
  is_Some (assoc "deform" (members zstd_events)) /\
  exists e : error,
    run_h5ds_copy plain_events "deform" None true zstd_events = (zstd_events, Err e).
Proof.
  assert (H : is_Some (assoc "deform" (members zstd_events))) by (by eexists).
  split; [exact H|].
  exact (proj1 (h5ds_copy_no_overwrite store_chunks plain_events "deform" None true
                  zstd_events) H).
Defined.


(** X5, on a dataset without filter. *)
Lemma h5ds_copy_compressed_witness :
  run_h5ds_copy plain_events "deform" None true empty_group =
    ((run_h5ds_copy plain_events "deform" None true empty_group).1, Ok "deform") /\
  exists dst : dataset,
    assoc "deform"
          (members (run_h5ds_copy plain_events "deform" None true empty_group).1)
      = Some (Dataset dst) /\
    is_properly_compressed dst = Ok true.
Proof.
  split; [by vm_compute|].
  destruct (h5ds_copy_compressed store_chunks plain_events "deform" None
              empty_group
              (run_h5ds_copy plain_events "deform" None true empty_group).1
              "deform")
    as (dst & Hdst & Hipc & _); [by vm_compute|].
  by exists dst.
Defined.

(** X6, on a copy that raises for want of [events]: the attribute is
    there all the same. *)
Lemma rtdc_copy_root_attrs_witness :
  run_copy attrs_file all true true "" empty_file =
    ((run_copy attrs_file all true true "" empty_file).1, Err (KeyError "events")) /\
  file_attrs (run_copy attrs_file all true true "" empty_file).1
    !! "setup:channel width" = Some (AttrFloat (np.of_Z 20)).
Proof.
  assert (H : run_copy attrs_file all true true "" empty_file =
              ((run_copy attrs_file all true true "" empty_file).1,
               Err (KeyError "events"))) by (by vm_compute).
  split; [exact H|].
  rewrite (rtdc_copy_root_attrs store_chunks known_feature known_scalar_feature
             attrs_file all true true "" empty_file _ _ H "setup:channel width").
  by vm_compute.
Defined.

(** X7, a copy into a file that has [deform] already. *)
Lemma rtdc_copy_keeps_entries_witness :
  entry "events" "deform" zstd_file = Some (Dataset deform_zstd_ds) /\
  run_copy example_file all true true "" zstd_file =
    ((run_copy example_file all true true "" zstd_file).1,
     Err (NameExists "deform")) /\
  entry "events" "deform" (run_copy example_file all true true "" zstd_file).1
    = Some (Dataset deform_zstd_ds).
Proof.
  assert (H : run_copy example_file all true true "" zstd_file =
              ((run_copy example_file all true true "" zstd_file).1,
               Err (NameExists "deform"))) by (by vm_compute).
  split; [reflexivity|]. split; [exact H|].
  apply (proj1 (rtdc_copy_keeps_entries store_chunks known_feature
                  known_scalar_feature example_file all true true "" zstd_file
                  _ _ H)).
  reflexivity.
Defined.

(** X8, on [trace_file], whose copy stops at [trace]. *)
Lemma rtdc_copy_no_rollback_witness :
  run_copy trace_file none true true "" empty_file =
    ((run_copy trace_file none true true "" empty_file).1, Ok tt) /\
  run_copy trace_file all true true "" empty_file =
    ((run_copy trace_file all true true "" empty_file).1,
     Err (NotADatasetError "trace")) /\
  file_attrs (run_copy trace_file all true true "" empty_file).1 =
  file_attrs (run_copy trace_file none true true "" empty_file).1.
Proof.
  assert (H1 : run_copy trace_file none true true "" empty_file =
               ((run_copy trace_file none true true "" empty_file).1, Ok tt))
    by (by vm_compute).
  assert (H2 : run_copy trace_file all true true "" empty_file =
               ((run_copy trace_file all true true "" empty_file).1,
                Err (NotADatasetError "trace"))) by (by vm_compute).
  split; [exact H1|]. split; [exact H2|].
  exact (proj1 (rtdc_copy_no_rollback store_chunks known_feature
                  known_scalar_feature trace_file all true true "" empty_file
                  _ _ _ H1 H2)).
Defined.

(** X9, the log [session], stored without filter. *)
Lemma rtdc_copy_compressed_witness :
  run_copy example_file all true true "exp1_" empty_file =
    ((run_copy example_file all true true "exp1_" empty_file).1, Ok tt) /\
  exists d' : dataset,
    entry "logs" "exp1_session"
          (run_copy example_file all true true "exp1_" empty_file).1
      = Some (Dataset d') /\
    is_properly_compressed d' = Ok true.
Proof.
  assert (H : run_copy example_file all true true "exp1_" empty_file =
              ((run_copy example_file all true true "exp1_" empty_file).1, Ok tt))
    by (by vm_compute).
  split; [exact H|].
  exact (proj1 (rtdc_copy_compressed store_chunks known_feature
                  known_scalar_feature example_file all true true "exp1_"
                  empty_file _ H)
           "logs" example_logs "session" (Dataset session_ds)
           (or_introl (conj eq_refl eq_refl)) eq_refl eq_refl).
Defined.

(** X10, on [deform]. *)
Lemma complement_stats_returns_witness :
  asarray (data deform_ds) = Ok np.one_nan_three_inf /\
  np.one_nan_three_inf <> [] /\
  exists d' : dataset,
    complement_stats deform_ds = (d', Ok tt) /\ data d' = data deform_ds /\
    is_Some (attrs d' !! "min") /\ is_Some (attrs d' !! "max") /\
    is_Some (attrs d' !! "mean").
Proof.
  assert (H : asarray (data deform_ds) = Ok np.one_nan_three_inf) by reflexivity.
  assert (Hne : np.one_nan_three_inf <> []) by discriminate.
  split; [exact H|]. split; [exact Hne|].
  exact (proj1 (complement_stats_returns deform_ds np.one_nan_three_inf H) Hne).
Defined.

(** X11, on two NaN. *)
Lemma complement_stats_all_nan_witness :
  forallb np.isnan [np.nan; np.nan] = true /\
  exists d' : dataset,
    complement_stats
      (mk_dataset [2] float64_t None [] false ∅ [Float np.nan; Float np.nan])
      = (d', Ok tt) /\
    attrs d' !! "mean" = Some (AttrFloat np.nan).
Proof.
  split; [reflexivity|].
  destruct (complement_stats_all_nan
              (mk_dataset [2] float64_t None [] false ∅ [Float np.nan; Float np.nan])
              [np.nan; np.nan] eq_refl ltac:(discriminate) eq_refl)
    as (d' & Hd' & Hattrs).
  exists d'. split; [exact Hd'|].
  apply (Hattrs np.nanmean "mean"); [|reflexivity].
  apply list_elem_of_further, list_elem_of_further, list_elem_of_here.
Defined.

(** X12, Zstandard at level 3 behind another filter. *)
Lemma is_properly_compressed_pipeline_witness :
  is_properly_compressed
    (mk_dataset [10] float64_t (Some [10]) [mk_filter 2 0 [8%Z] "shuffle"; Zstd 3]
                false ∅ [])
    = Ok false.
Proof.
  apply (is_properly_compressed_pipeline
           (mk_dataset [10] float64_t (Some [10])
                       [mk_filter 2 0 [8%Z] "shuffle"; Zstd 3] false ∅ [])
           [mk_filter 2 0 [8%Z] "shuffle"] [] (Zstd 3) eq_refl eq_refl).
  intros g [<-|[]]. discriminate.
Defined.

(** X13, a chunk of 100 for an array of 10. *)
Lemma plan_chunks_accepted_witness :
  0 < 100 /\ 0 < 10 /\ valid_chunks [] [] = true /\
  valid_chunks [10] [Nat.min 100 10] = true.
Proof.
  assert (H1 : 0 < 100) by lia. assert (H2 : 0 < 10) by lia.
  split; [exact H1|]. split; [exact H2|]. split; [reflexivity|].
  exact (proj2 (proj2 (plan_chunks_accepted 10 [] 100 [])) H1 H2 eq_refl).
Defined.


(** X15, on [example_file]. *)
Lemma rtdc_copy_free_names_witness :
  run_copy example_file all true true "exp1_" empty_file =
    ((run_copy example_file all true true "exp1_" empty_file).1, Ok tt) /\
  entry "logs" "exp1_session" empty_file = None /\
  entry "events" "deform" empty_file = None.
Proof.
  assert (H : run_copy example_file all true true "exp1_" empty_file =
              ((run_copy example_file all true true "exp1_" empty_file).1, Ok tt))
    by (by vm_compute).
  split; [exact H|].
  destruct (rtdc_copy_free_names store_chunks known_feature known_scalar_feature
              example_file all true true "exp1_" empty_file _ H) as [Hm Hf].
  split.
  - exact (Hm "logs" example_logs "session" (Dataset session_ds)
              (or_introl (conj eq_refl eq_refl)) eq_refl eq_refl).
  - apply (Hf example_events "deform" (Dataset deform_ds));
      [discriminate|reflexivity|reflexivity|reflexivity].
Defined.

(** X16, on [zstd_file]. *)
Lemma rtdc_copy_returns_witness :
  well_kept zstd_events /\
  exists dst',
    run_copy zstd_file all true true "" empty_file = (dst', Ok tt).
Proof.
  assert (Hwk : well_kept zstd_events).
  { split.
    - apply (bool_decide_unpack _). by vm_compute.
    - intros k o Hk. exists deform_zstd_ds. simpl in Hk.
      destruct (decide (k = "deform")); [|discriminate].
      injection Hk as <-. split; [reflexivity|by vm_compute]. }
  split; [exact Hwk|].
  apply (rtdc_copy_returns store_chunks known_feature known_scalar_feature
           zstd_file all true true "" empty_file).
  - intros G src_loc [[-> _]|[-> _]] Hg; discriminate Hg.
  - intros _. exists zstd_events. split; [reflexivity|]. split; [exact Hwk|].
    intros feat d Hfeat _. split; [reflexivity|]. intros _.
    simpl in Hfeat. destruct (decide (feat = "deform")); [|discriminate].
    injection Hfeat as <-.
    exists (map (fun n => np.of_Z (Z.of_nat n)) (seq 1 10)).
    split; [reflexivity|discriminate].
Defined.
